(** * chatnfl: query classification, data aggregation, context summarisation
      and the cached LLM gateway

    A shallow embedding of [App/services/Nfl_query_service_new.py],
    [App/services/api_client.py] and [App/services/LLm_service.py].

    Python values that flow through the services are JSON documents; they
    are embedded as the type [value].  Code that can raise is embedded in
    the error monad [res]; code that talks to the data backend threads the
    log of issued requests.  The readings of [time.time()] are binary64
    floats, subtracted and compared as the machine does. *)

From Stdlib Require Import ZArith QArith Qcanon Ascii String List Lia Bool.
From Stdlib Require Import Sorted Permutation.
From Stdlib Require DecimalString.
From Stdlib Require Floats.PrimFloat Uint63.
From stdpp Require Import base option list strings gmap.

Set Warnings "-register-all".

Open Scope string_scope.
Open Scope list_scope.
Open Scope Z_scope.

(** ** Python values and exceptions *)

Module Py.

(** A JSON document as Python sees it after [response.json()].  Dictionaries
    keep their insertion order, so they are association lists; every key is a
    string.  Floats are the rationals they denote. *)
Inductive value : Type :=
| VNone
| VBool (b : bool)
| VInt (n : Z)
| VFloat (q : Qc)
| VStr (s : string)
| VList (l : list value)
| VDict (d : list (string * value)).

Inductive exn : Type :=
| AttributeError (what : string)
| TypeError (what : string)
| KeyError (key : string)
| IndexError (what : string)
| UnicodeEncodeError (what : string)
| HTTPException (status_code : Z) (detail : string).

Inductive res (A : Type) : Type :=
| Ok (a : A)
| Raise (e : exn).
Arguments Ok {A} a.
Arguments Raise {A} e.

Definition bind {A B} (m : res A) (f : A -> res B) : res B :=
  match m with
  | Ok a => f a
  | Raise e => Raise e
  end.

Declare Scope res_scope.
Delimit Scope res_scope with res.
Bind Scope res_scope with res.

(** A Python [float] that is not part of a JSON document is an IEEE 754
    binary64 number with the machine's operations, [PrimFloat.float].
    [float(n)] for an [int] that a binary64 number represents exactly
    (0 <= n < 2^53): *)
Definition float_of_int (n : Z) : PrimFloat.float :=
  PrimFloat.of_uint63 (Uint63.of_Z n).

(** [x < n] for a float [x] and such an [int]: Python compares the two by
    value. *)
Definition float_lt_int (x : PrimFloat.float) (n : Z) : bool :=
  PrimFloat.ltb x (float_of_int n).
Notation "x <- m ;; k" := (bind m (fun x => k))
  (at level 100, m at next level, right associativity) : res_scope.
Open Scope res_scope.

(** [try: body except Exception as e: handler(e)] *)
Definition try_except {A} (body : res A) (handler : exn -> res A) : res A :=
  match body with
  | Ok a => Ok a
  | Raise e => handler e
  end.

(** A [for] loop that builds a list, one element per iteration. *)
Fixpoint for_each {A B} (f : A -> res B) (l : list A) : res (list B) :=
  match l with
  | [] => Ok []
  | x :: l' => y <- f x;; ys <- for_each f l';; Ok (y :: ys)
  end.

(** *** Dictionaries *)

Fixpoint dict_lookup (k : string) (d : list (string * value)) : option value :=
  match d with
  | [] => None
  | (k', v) :: d' => if String.eqb k k' then Some v else dict_lookup k d'
  end.

(** [d[k] = v]: an existing key keeps its position. *)
Fixpoint dict_set (k : string) (v : value) (d : list (string * value))
  : list (string * value) :=
  match d with
  | [] => [(k, v)]
  | (k', v') :: d' =>
      if String.eqb k k' then (k', v) :: d' else (k', v') :: dict_set k v d'
  end.

(** *** Strings *)

Fixpoint starts_with (p s : string) : bool :=
  match p, s with
  | EmptyString, _ => true
  | String a p', String b s' => Ascii.eqb a b && starts_with p' s'
  | String _ _, EmptyString => false
  end.

(** [needle in hay] on two strings. *)
Fixpoint contains (needle hay : string) : bool :=
  starts_with needle hay ||
  match hay with
  | EmptyString => false
  | String _ hay' => contains needle hay'
  end.

Fixpoint str_take (n : nat) (s : string) : string :=
  match n, s with
  | O, _ => EmptyString
  | S n', String a s' => String a (str_take n' s')
  | S _, EmptyString => EmptyString
  end.

Fixpoint str_drop (n : nat) (s : string) : string :=
  match n, s with
  | O, _ => s
  | S n', String _ s' => str_drop n' s'
  | S _, EmptyString => EmptyString
  end.

Fixpoint str_chars (s : string) : list string :=
  match s with
  | EmptyString => []
  | String a s' => String a EmptyString :: str_chars s'
  end.

Fixpoint str_ltb (a b : string) : bool :=
  match a, b with
  | EmptyString, EmptyString => false
  | EmptyString, String _ _ => true
  | String _ _, EmptyString => false
  | String x a', String y b' =>
      if (nat_of_ascii x <? nat_of_ascii y)%nat then true
      else if (nat_of_ascii y <? nat_of_ascii x)%nat then false
      else str_ltb a' b'
  end.

(** [str(n)] for an integer. *)
Definition str_of_Z (n : Z) : string :=
  DecimalString.NilZero.string_of_int (Z.to_int n).

(** *** Truth value, comparison *)

Definition truthy (v : value) : bool :=
  match v with
  | VNone => false
  | VBool b => b
  | VInt n => negb (n =? 0)%Z
  | VFloat q => negb (Qeq_bool q 0)
  | VStr s => negb (String.eqb s "")
  | VList l => match l with [] => false | _ => true end
  | VDict d => match d with [] => false | _ => true end
  end.

(** The number a [bool], [int] or [float] stands for. *)
Definition as_number (v : value) : option Q :=
  match v with
  | VBool b => Some (inject_Z (if b then 1 else 0))
  | VInt n => Some (inject_Z n)
  | VFloat q => Some (this q)
  | _ => None
  end.

(** [a == b]; never raises. *)
Fixpoint py_eq (a b : value) {struct a} : bool :=
  match as_number a, as_number b with
  | Some x, Some y => Qeq_bool x y
  | _, _ =>
    match a, b with
    | VNone, VNone => true
    | VStr s, VStr t => String.eqb s t
    | VList la, VList lb =>
        (fix go (la lb : list value) {struct la} : bool :=
           match la, lb with
           | [], [] => true
           | x :: la', y :: lb' => py_eq x y && go la' lb'
           | _, _ => false
           end) la lb
    | VDict da, VDict db =>
        Nat.eqb (length da) (length db) &&
        (fix go (da : list (string * value)) {struct da} : bool :=
           match da with
           | [] => true
           | (k, x) :: da' =>
               match dict_lookup k db with
               | Some y => py_eq x y && go da'
               | None => false
               end
           end) da
    | _, _ => false
    end
  end.

Definition type_name (v : value) : string :=
  match v with
  | VNone => "NoneType"
  | VBool _ => "bool"
  | VInt _ => "int"
  | VFloat _ => "float"
  | VStr _ => "str"
  | VList _ => "list"
  | VDict _ => "dict"
  end.

Definition not_supported (op : string) (a b : value) : exn :=
  TypeError ("'" +:+ op +:+ "' not supported between instances of '"
             +:+ type_name a +:+ "' and '" +:+ type_name b +:+ "'").

(** [a < b]: numbers by value, strings by code point, lists
    lexicographically; anything else is a [TypeError]. *)
Fixpoint py_lt (a b : value) {struct a} : res bool :=
  match as_number a, as_number b with
  | Some x, Some y => Ok (negb (Qle_bool y x))
  | _, _ =>
    match a, b with
    | VStr s, VStr t => Ok (str_ltb s t)
    | VList la, VList lb =>
        (fix go (la lb : list value) {struct la} : res bool :=
           match la, lb with
           | [], [] => Ok false
           | [], _ :: _ => Ok true
           | _ :: _, [] => Ok false
           | x :: la', y :: lb' =>
               if py_eq x y then go la' lb' else py_lt x y
           end) la lb
    | _, _ => Raise (not_supported "<" a b)
    end
  end.

(** *** Attribute access, subscripts, iteration *)

Definition no_attribute (v : value) (attr : string) : exn :=
  AttributeError ("'" +:+ type_name v +:+ "' object has no attribute '"
                  +:+ attr +:+ "'").

(** [v.get(k, dflt)] *)
Definition get (v : value) (k : string) (dflt : value) : res value :=
  match v with
  | VDict d => Ok (default dflt (dict_lookup k d))
  | _ => Raise (no_attribute v "get")
  end.

(** [v[k]] for a string [k] *)
Definition getitem (v : value) (k : string) : res value :=
  match v with
  | VDict d =>
      match dict_lookup k d with
      | Some x => Ok x
      | None => Raise (KeyError k)
      end
  | VStr _ => Raise (TypeError "string indices must be integers")
  | VList _ => Raise (TypeError "list indices must be integers or slices")
  | _ => Raise (TypeError ("'" +:+ type_name v
                           +:+ "' object is not subscriptable"))
  end.

(** [k in v] for a string [k] *)
Definition has_key (k : string) (v : value) : res bool :=
  match v with
  | VDict d => Ok (bool_decide (is_Some (dict_lookup k d)))
  | VList l => Ok (existsb (py_eq (VStr k)) l)
  | VStr s => Ok (contains k s)
  | _ => Raise (TypeError ("argument of type '" +:+ type_name v
                           +:+ "' is not iterable"))
  end.

(** [v[:n]] *)
Definition slice_to (n : nat) (v : value) : res value :=
  match v with
  | VList l => Ok (VList (take n l))
  | VStr s => Ok (VStr (str_take n s))
  | VDict _ => Raise (TypeError "unhashable type: 'slice'")
  | _ => Raise (TypeError ("'" +:+ type_name v
                           +:+ "' object is not subscriptable"))
  end.

(** The elements a [for x in v] loop visits. *)
Definition iter (v : value) : res (list value) :=
  match v with
  | VList l => Ok l
  | VStr s => Ok (VStr <$> str_chars s)
  | VDict d => Ok ((fun kv => VStr kv.1) <$> d)
  | _ => Raise (TypeError ("'" +:+ type_name v
                           +:+ "' object is not iterable"))
  end.

(** [v.items()] *)
Definition items (v : value) : res (list (string * value)) :=
  match v with
  | VDict d => Ok d
  | _ => Raise (no_attribute v "items")
  end.

(** [v[0]] *)
Definition first_item (v : value) : res value :=
  match v with
  | VList (x :: _) => Ok x
  | VList [] => Raise (IndexError "list index out of range")
  | VStr (String c _) => Ok (VStr (String c EmptyString))
  | VStr EmptyString => Raise (IndexError "string index out of range")
  | VDict _ => Raise (KeyError "0")
  | _ => Raise (TypeError ("'" +:+ type_name v
                           +:+ "' object is not subscriptable"))
  end.

(** A key of a dictionary of the embedding is a string. *)
Definition as_key (v : value) : res string :=
  match v with
  | VStr s => Ok s
  | _ => Raise (TypeError ("unhashable type: '" +:+ type_name v +:+ "'"))
  end.

(** [d[k].append(x)] *)
Definition dict_append (k : string) (x : value) (d : list (string * value))
  : res (list (string * value)) :=
  match dict_lookup k d with
  | Some (VList l) => Ok (dict_set k (VList (l ++ [x])) d)
  | Some v => Raise (no_attribute v "append")
  | None => Raise (KeyError k)
  end.

(** [x in codes] for a list of strings: equality with one of them. *)
Definition in_strings (x : value) (codes : list string) : bool :=
  existsb (fun c => py_eq x (VStr c)) codes.

(** *** Sorting

    [sorted(l, key=...)] and [l.sort(key=..., reverse=True)] are stable: the
    keys are computed first, then elements are placed by [<] on the keys.
    Each element is inserted behind every element already placed that must
    stay in front of it.  A comparison that raises aborts the sort.  (CPython
    makes fewer comparisons; on keys that can all be compared with one
    another the stable order it returns is this one.) *)

Fixpoint insert_by (before : value -> value -> res bool)
  (kx : value * value) (placed : list (value * value))
  : res (list (value * value)) :=
  match placed with
  | [] => Ok [kx]
  | ky :: rest =>
      b <- before kx.1 ky.1;;
      if b : bool then Ok (kx :: ky :: rest)
      else (rest' <- insert_by before kx rest;; Ok (ky :: rest'))
  end.

Fixpoint sort_keyed (before : value -> value -> res bool)
  (placed todo : list (value * value)) : res (list (value * value)) :=
  match todo with
  | [] => Ok placed
  | kx :: todo' =>
      placed' <- insert_by before kx placed;; sort_keyed before placed' todo'
  end.

Definition sort_with (before : value -> value -> res bool)
  (key : value -> res value) (l : list value) : res (list value) :=
  keyed <- for_each (fun x => k <- key x;; Ok (k, x)) l;;
  sorted <- sort_keyed before [] keyed;;
  Ok (snd <$> sorted).

(** ascending: [x] goes in front of [y] when [key x < key y] *)
Definition sorted_asc := sort_with (fun kx ky => py_lt kx ky).

(** [reverse=True]: [x] goes in front of [y] when [key y < key x] *)
Definition sorted_desc := sort_with (fun kx ky => py_lt ky kx).

End Py.

Import Py.

(** ** The query classifier ([NFLQueryService._classify_query]) *)

Module Classifier.

(** Strings are sequences of 8-bit code points.  [str.lower()] moves the
    capital letters of that range onto their small counterparts: A-Z, and the
    accented capitals U+00C0-U+00DE except the multiplication sign. *)
Definition lower_char (c : ascii) : ascii :=
  let n := nat_of_ascii c in
  if ((65 <=? n) && (n <=? 90)
      || (192 <=? n) && (n <=? 222) && negb (n =? 215))%nat
  then ascii_of_nat (n + 32) else c.

Fixpoint lower (s : string) : string :=
  match s with
  | EmptyString => EmptyString
  | String c s' => String (lower_char c) (lower s')
  end.

(** Character classes of the patterns: [\d], [[A-Z]], [[a-z]]. *)
Definition is_digit (c : ascii) : bool :=
  ((48 <=? nat_of_ascii c) && (nat_of_ascii c <=? 57))%nat.
Definition is_upper (c : ascii) : bool :=
  ((65 <=? nat_of_ascii c) && (nat_of_ascii c <=? 90))%nat.
Definition is_lower (c : ascii) : bool :=
  ((97 <=? nat_of_ascii c) && (nat_of_ascii c <=? 122))%nat.

(** The longest prefix made of characters of one class (a greedy [+]). *)
Fixpoint run_of (cls : ascii -> bool) (s : string) : string :=
  match s with
  | EmptyString => EmptyString
  | String c s' => if cls c then String c (run_of cls s') else EmptyString
  end.

(** [re.search]: the match at the leftmost position that has one. *)
Fixpoint re_search {A} (match_at : string -> option A) (s : string)
  : option A :=
  match match_at s with
  | Some r => Some r
  | None =>
      match s with
      | EmptyString => None
      | String _ s' => re_search match_at s'
      end
  end.

(** [20\d{2}] at the start of [s]; the result is [group(0)]. *)
Definition year_at (s : string) : option string :=
  match s with
  | String "2" (String "0" (String c (String d _))) =>
      if is_digit c && is_digit d
      then Some (String "2" (String "0" (String c (String d EmptyString))))
      else None
  | _ => None
  end.

(** [week (\d+)] at the start of [s]; the result is [group(1)]. *)
Definition week_at (s : string) : option string :=
  if starts_with "week " s then
    match run_of is_digit (str_drop 5 s) with
    | EmptyString => None
    | ds => Some ds
    end
  else None.

(** [[A-Z][a-z]+] at the start of [s]: the word and what follows it. *)
Definition capitalized_at (s : string) : option (string * string) :=
  match s with
  | String c s' =>
      if is_upper c then
        match run_of is_lower s' with
        | EmptyString => None
        | w => Some (String c w, str_drop (String.length w) s')
        end
      else None
  | EmptyString => None
  end.

(** [[A-Z][a-z]+ [A-Z][a-z]+] at the start of [s].  The first word has to
    end at a space, so only its longest run can match. *)
Definition full_name_at (s : string) : option string :=
  match capitalized_at s with
  | Some (first, String " " rest) =>
      match capitalized_at rest with
      | Some (last, _) => Some (first +:+ " " +:+ last)
      | None => None
      end
  | _ => None
  end.

Definition position_keywords : list string :=
  ["player"; "quarterback"; "qb"; "running back"; "rb"; "wide receiver";
   "wr"; "tight end"; "te"].

(** The alternatives are tried in the order they are written. *)
Fixpoint keyword_then_name (kws : list string) (s : string) : option string :=
  match kws with
  | [] => None
  | kw :: kws' =>
      let here :=
        if starts_with kw s then
          match str_drop (String.length kw) s with
          | String " " rest => full_name_at rest
          | _ => None
          end
        else None in
      match here with
      | Some name => Some name
      | None => keyword_then_name kws' s
      end
  end.

(** [name_pattern] at the start of [s]; the result is [group(1)]. *)
Definition name_pattern_at (s : string) : option string :=
  keyword_then_name position_keywords s.

(** [self.team_patterns], in the order the literal lists it. *)
Definition team_patterns : list (string * string) :=
  [("cardinals", "ARI"); ("falcons", "ATL"); ("ravens", "BAL"); ("bills", "BUF");
   ("panthers", "CAR"); ("bears", "CHI"); ("bengals", "CIN"); ("browns", "CLE");
   ("cowboys", "DAL"); ("broncos", "DEN"); ("lions", "DET"); ("packers", "GB");
   ("texans", "HOU"); ("colts", "IND"); ("jaguars", "JAX"); ("chiefs", "KC");
   ("raiders", "LV"); ("chargers", "LAC"); ("rams", "LA"); ("dolphins", "MIA");
   ("vikings", "MIN"); ("patriots", "NE"); ("saints", "NO"); ("giants", "NYG");
   ("jets", "NYJ"); ("eagles", "PHI"); ("steelers", "PIT"); ("seahawks", "SEA");
   ("49ers", "SF"); ("niners", "SF"); ("buccaneers", "TB"); ("bucs", "TB");
   ("titans", "TEN"); ("commanders", "WAS"); ("washington", "WAS")].

(** What one [datetime.datetime.now()] reads. *)
Record datetime := { dt_year : Z; dt_month : Z; dt_day : Z }.

(** [params]: the keys the classifier may set, each absent or present. *)
Record params := {
  year : option string;
  week : option string;
  season_type : option string;
  teams : option (list string);
  player : option string
}.

(** [any(term in query for term in terms)] *)
Definition any_in (terms : list string) (query : string) : bool :=
  existsb (fun term => contains term query) terms.

(** The term lists of the [if] statements. *)
Definition ranking_terms : list string :=
  ["ranking"; "rank"; "best"; "top"; "stats"; "statistics"; "projections"].
Definition matchup_terms : list string :=
  ["matchup"; "vs"; "versus"; "against"; "playing against"; "face off";
   "game between"].
Definition injury_terms : list string :=
  ["injury"; "injured"; "hurt"; "sidelined"; "out"; "questionable";
   "probable"].
Definition schedule_terms : list string :=
  ["schedule"; "upcoming"; "games"; "playing"; "when"; "calendar"].
Definition depth_chart_terms : list string :=
  ["depth chart"; "roster"; "lineup"; "starters"; "bench";
   "team composition"].
Definition standings_terms : list string :=
  ["standings"; "record"; "win-loss"; "win/loss"; "division standing";
   "conference standing"].
Definition boxscore_terms : list string :=
  ["boxscore"; "score"; "result"; "game result"; "points"; "final score"].

(** The keyword groups, in the order the [if] statements test them. *)
Definition keyword_groups : list (string * list string) :=
  [("player_rankings", ranking_terms);
   ("matchups", matchup_terms);
   ("injuries", injury_terms);
   ("schedule", schedule_terms);
   ("depth_chart", depth_chart_terms);
   ("standings", standings_terms);
   ("boxscore", boxscore_terms)].

(** The chain of [if any(...): return label, params], ending in
    [return "general", params]. *)
Fixpoint first_group (groups : list (string * list string)) (query : string)
  : string :=
  match groups with
  | [] => "general"
  | (label, terms) :: groups' =>
      if any_in terms query then label else first_group groups' query
  end.

(** The team loop: one code per alias found, in table order. *)
Fixpoint teams_found (table : list (string * string)) (query : string)
  : list string :=
  match table with
  | [] => []
  | (team_name, team_code) :: table' =>
      if contains team_name query
      then team_code :: teams_found table' query
      else teams_found table' query
  end.

(** [_classify_query].  [now i] is what the [i]-th call of
    [datetime.datetime.now()] in the function body would read. *)
Definition _classify_query (now : nat -> datetime) (query : string)
  : string * params :=
  let query := lower query in
  let p_year :=
    match re_search year_at query with
    | Some y => y
    | None => str_of_Z (dt_year (now 0%nat))
    end in
  let p_week :=
    match re_search week_at query with
    | Some w => w
    | None =>
        let current_month := dt_month (now 1%nat) in
        let current_day := dt_day (now 2%nat) in
        if current_month <? 9 then "1"
        else
          let week_num := ((current_month - 9) * 4) + (current_day / 7) + 1 in
          str_of_Z (Z.min 17 (Z.max 1 week_num))
    end in
  let p_season_type :=
    if any_in ["preseason"; "pre-season"; "pre season"] query then "PRE"
    else if any_in ["postseason"; "post-season"; "post season"; "playoffs"]
              query then "PST"
    else
      let current_month := dt_month (now 3%nat) in
      if current_month <? 9 then "PRE"
      else if (12 <? current_month) || (current_month <? 3) then "PST"
      else "REG" in
  let found := teams_found team_patterns query in
  let p_teams := match found with [] => None | _ => Some found end in
  let p_player := re_search name_pattern_at query in
  (first_group keyword_groups query,
   {| year := Some p_year; week := Some p_week;
      season_type := Some p_season_type;
      teams := p_teams; player := p_player |}).

(** Whether a capital letter A-Z occurs in [s]. *)
Fixpoint has_upper (s : string) : bool :=
  match s with
  | EmptyString => false
  | String c s' => is_upper c || has_upper s'
  end.

(** The eight labels [_classify_query] can return. *)
Definition query_types : list string :=
  ["player_rankings"; "matchups"; "injuries"; "schedule"; "depth_chart";
   "standings"; "boxscore"; "general"].

(** A clock for the examples: every reading is 3 November 2026. *)
Definition clock_2026_11_03 : nat -> datetime :=
  fun _ => {| dt_year := 2026; dt_month := 11; dt_day := 3 |}.

End Classifier.

(** ** The upstream data client ([NFLApiClient]) *)

Module ApiClient.

(** The paths the client requests, with the values its f-strings splice in. *)
Inductive endpoint : Type :=
| Teams                                         (* /nfl/teams *)
| Schedule (year season_type : string)          (* /nfl/schedule/{}/{} *)
| TeamProfile (team_id : string)                (* /nfl/teams/{} *)
| PlayerProfile (player_id : string)            (* /nfl/players/{} *)
| GameBoxscore (game_id : value)                (* /nfl/games/{}/boxscore *)
| Standings (year season_type : string)         (* /nfl/standings/{}/{} *)
| WeeklyInjuries (year season_type week : string). (* /nfl/injuries/{}/{}/{} *)

(** What [self.client.get(url)], [raise_for_status()] and [response.json()]
    come to: a parsed body, a non-2xx status, or any other exception. *)
Inductive http_result : Type :=
| Response (body : value)
| HTTPStatusError (status_code : Z) (text : string)
| Failure (text : string).

(** Code that awaits the backend: it runs against the log of the requests
    issued so far and extends it. *)
Definition io (A : Type) : Type := list endpoint -> res A * list endpoint.

Definition io_ret {A} (a : A) : io A := fun log => (Ok a, log).

Definition io_bind {A B} (m : io A) (f : A -> io B) : io B := fun log =>
  match m log with
  | (Ok a, log') => f a log'
  | (Raise e, log') => (Raise e, log')
  end.

(** [try: body except Exception as e: handler(e)] around awaiting code. *)
Definition io_try {A} (body : io A) (handler : exn -> io A) : io A := fun log =>
  match body log with
  | (Ok a, log') => (Ok a, log')
  | (Raise e, log') => handler e log'
  end.

(** Code that does not await. *)
Definition pure {A} (r : res A) : io A := fun log => (r, log).

Declare Scope io_scope.
Delimit Scope io_scope with io.
Notation "x <- m ;; k" := (io_bind m (fun x => k))
  (at level 100, m at next level, right associativity) : io_scope.

Section Client.

(** The backend: its answer may depend on what was requested before. *)
Variable backend : list endpoint -> endpoint -> http_result.

Definition _get (ep : endpoint) : io value := fun log =>
  (match backend log ep with
   | Response body => Ok body
   | HTTPStatusError status_code text =>
       Raise (HTTPException status_code
                ("API error " +:+ str_of_Z status_code +:+ ": " +:+ text))
   | Failure text =>
       Raise (HTTPException 500 ("Error accessing API: " +:+ text))
   end, log ++ [ep]).

Definition get_teams : io value := _get Teams.
Definition get_schedule (year season_type : string) : io value :=
  _get (Schedule year season_type).
Definition get_team_profile (team_id : string) : io value :=
  _get (TeamProfile team_id).
Definition get_player_profile (player_id : string) : io value :=
  _get (PlayerProfile player_id).
Definition get_game_boxscore (game_id : value) : io value :=
  _get (GameBoxscore game_id).
Definition get_standings (year season_type : string) : io value :=
  _get (Standings year season_type).
Definition get_weekly_injuries (year season_type week : string) : io value :=
  _get (WeeklyInjuries year season_type week).

End Client.

End ApiClient.

(** ** The data aggregator ([NFLQueryService._fetch_relevant_data]) *)

Module Aggregator.
Import Classifier ApiClient.

(** [game.get("home", {}).get("alias", "")] and the same for ["away"]. *)
Definition home_away_alias (game : value) : res (value * value) :=
  home <- get game "home" (VDict []);;
  home_alias <- get home "alias" (VStr "");;
  away <- get game "away" (VDict []);;
  away_alias <- get away "alias" (VStr "");;
  Ok (home_alias, away_alias).

(** The loop that keeps the games one of the teams plays in. *)
Fixpoint games_involving (teams : list string) (games : list value)
  : res (list value) :=
  match games with
  | [] => Ok []
  | game :: games' =>
      aliases <- home_away_alias game;;
      rest <- games_involving teams games';;
      Ok (if in_strings aliases.1 teams || in_strings aliases.2 teams
          then game :: rest else rest)
  end.

(** The loop over [injury_data.get("teams", [])]. *)
Fixpoint injuries_by_team (teams : list string) (reports : list value)
  (team_injuries : list (string * value)) : res (list (string * value)) :=
  match reports with
  | [] => Ok team_injuries
  | team :: reports' =>
      alias <- get team "alias" VNone;;
      if in_strings alias teams then
        alias' <- get team "alias" VNone;;
        k <- as_key alias';;
        injuries_by_team teams reports' (dict_set k team team_injuries)
      else injuries_by_team teams reports' team_injuries
  end.

(** The inner loop of the schedule branch: append the game to the list of
    every listed team that plays in it. *)
Fixpoint append_game (game home_alias away_alias : value)
  (teams : list string) (team_games : list (string * value))
  : res (list (string * value)) :=
  match teams with
  | [] => Ok team_games
  | team_code :: teams' =>
      if py_eq home_alias (VStr team_code) || py_eq away_alias (VStr team_code)
      then (team_games' <- dict_append team_code game team_games;;
            append_game game home_alias away_alias teams' team_games')
      else append_game game home_alias away_alias teams' team_games
  end.

Fixpoint games_by_team (teams : list string) (games : list value)
  (team_games : list (string * value)) : res (list (string * value)) :=
  match games with
  | [] => Ok team_games
  | game :: games' =>
      aliases <- home_away_alias game;;
      team_games' <- append_game game aliases.1 aliases.2 teams team_games;;
      games_by_team teams games' team_games'
  end.

Section Fetch.

Variable backend : list endpoint -> endpoint -> http_result.

(** Python's [str(e)]. *)
Variable str_of_exn : exn -> string.

Open Scope io_scope.

(** The loop that fetches one profile per team code; a failed fetch is
    printed and skipped. *)
Fixpoint fetch_team_profiles (codes : list string)
  (team_profiles : list (string * value)) : io (list (string * value)) :=
  match codes with
  | [] => io_ret team_profiles
  | team_code :: codes' =>
      team_profiles' <-
        io_try (profile <- get_team_profile backend team_code;;
                io_ret (dict_set team_code profile team_profiles))
               (fun _ => io_ret team_profiles);;
      fetch_team_profiles codes' team_profiles'
  end.

(** The body of the outer [try] of [_fetch_relevant_data]. *)
Definition fetch_body (query_type : string) (p : params) : io value :=
  let year := default "2023" (year p) in
  let season_type := default "REG" (season_type p) in
  let week := default "1" (week p) in
  let teams := default [] (teams p) in
  let has_teams := match teams with [] => false | _ => true end in
  let combined_data :=
    [("query_type", VStr query_type);
     ("metadata", VDict [("year", VStr year);
                         ("season_type", VStr season_type);
                         ("week", VStr week)])] in
  if String.eqb query_type "player_rankings" then
    league <- get_teams backend;;
    let combined_data := dict_set "league" league combined_data in
    standings <- get_standings backend year season_type;;
    let combined_data := dict_set "standings" standings combined_data in
    if has_teams then
      team_profiles <- fetch_team_profiles (take 2 teams) [];;
      io_ret (VDict (dict_set "team_profiles" (VDict team_profiles)
                       combined_data))
    else io_ret (VDict combined_data)
  else if String.eqb query_type "matchups" then
    schedule <- get_schedule backend year season_type;;
    let combined_data := dict_set "schedule" schedule combined_data in
    if has_teams then
      relevant_games <-
        pure (sched <- get (VDict combined_data) "schedule" (VDict []);;
              games <- get sched "games" (VList []);;
              games <- iter games;;
              games_involving teams games)%res;;
      let combined_data :=
        dict_set "relevant_games" (VList relevant_games) combined_data in
      team_profiles <- fetch_team_profiles (take 2 teams) [];;
      io_ret (VDict (dict_set "team_profiles" (VDict team_profiles)
                       combined_data))
    else io_ret (VDict combined_data)
  else if String.eqb query_type "injuries" then
    injuries <- get_weekly_injuries backend year season_type week;;
    let combined_data := dict_set "injuries" injuries combined_data in
    league <- get_teams backend;;
    let combined_data := dict_set "league" league combined_data in
    if has_teams then
      team_injuries <-
        pure (injury_data <- get (VDict combined_data) "injuries" (VDict []);;
              reports <- get injury_data "teams" (VList []);;
              reports <- iter reports;;
              injuries_by_team teams reports [])%res;;
      io_ret (VDict (dict_set "team_injuries" (VDict team_injuries)
                       combined_data))
    else io_ret (VDict combined_data)
  else if String.eqb query_type "schedule" then
    schedule <- get_schedule backend year season_type;;
    let combined_data := dict_set "schedule" schedule combined_data in
    league <- get_teams backend;;
    let combined_data := dict_set "league" league combined_data in
    if has_teams then
      let team_games :=
        fold_left (fun d team_code => dict_set team_code (VList []) d)
                  teams [] in
      team_games <-
        pure (sched <- get (VDict combined_data) "schedule" (VDict []);;
              games <- get sched "games" (VList []);;
              games <- iter games;;
              games_by_team teams games team_games)%res;;
      io_ret (VDict (dict_set "team_games" (VDict team_games) combined_data))
    else io_ret (VDict combined_data)
  else if String.eqb query_type "depth_chart" then
    league <- get_teams backend;;
    let combined_data := dict_set "league" league combined_data in
    if has_teams then
      team_profiles <- fetch_team_profiles (take 2 teams) [];;
      io_ret (VDict (dict_set "team_profiles" (VDict team_profiles)
                       combined_data))
    else
      let popular_teams := ["KC"; "SF"] in
      team_profiles <- fetch_team_profiles popular_teams [];;
      io_ret (VDict (dict_set "team_profiles" (VDict team_profiles)
                       combined_data))
  else if String.eqb query_type "standings" then
    standings <- get_standings backend year season_type;;
    let combined_data := dict_set "standings" standings combined_data in
    league <- get_teams backend;;
    io_ret (VDict (dict_set "league" league combined_data))
  else if String.eqb query_type "boxscore" then
    schedule_data <- get_schedule backend year season_type;;
    let combined_data := dict_set "schedule" schedule_data combined_data in
    if has_teams then
      relevant_games <-
        pure (games <- get schedule_data "games" (VList []);;
              games <- iter games;;
              games_involving teams games)%res;;
      match relevant_games with
      | [] => io_ret (VDict combined_data)
      | _ :: _ =>
          relevant_games <-
            pure (sorted_desc (fun g => get g "scheduled" (VStr ""))
                              relevant_games);;
          let combined_data :=
            dict_set "relevant_games" (VList (take 2 relevant_games))
                     combined_data in
          io_try
            (game_id <-
               pure (match relevant_games with
                     | g :: _ => get g "id" VNone
                     | [] => Raise (IndexError "list index out of range")
                     end);;
             if truthy game_id then
               boxscore <- get_game_boxscore backend game_id;;
               io_ret (VDict (dict_set "boxscore" boxscore combined_data))
             else io_ret (VDict combined_data))
            (fun _ => io_ret (VDict combined_data))
      end
    else io_ret (VDict combined_data)
  else
    league <- get_teams backend;;
    let combined_data := dict_set "league" league combined_data in
    standings <- get_standings backend year season_type;;
    let combined_data := dict_set "standings" standings combined_data in
    schedule <- get_schedule backend year season_type;;
    io_ret (VDict (dict_set "schedule" schedule combined_data)).

(** [_fetch_relevant_data]: the body under its catch-all handler. *)
Definition _fetch_relevant_data (query_type : string) (p : params) : io value :=
  io_try (fetch_body query_type p)
         (fun e => io_ret (VDict [("error", VStr (str_of_exn e));
                                  ("query_type", VStr query_type)])).

End Fetch.

End Aggregator.

(** ** The context summariser ([LLMService._summarize_*]) *)

Module Summarizer.

(** The dict literal [{out: v.get(key, dflt), ...}], evaluated entry by
    entry. *)
Fixpoint gets (v : value) (fields : list (string * (string * value)))
  : res (list (string * value)) :=
  match fields with
  | [] => Ok []
  | (out, (key, dflt)) :: fields' =>
      x <- get v key dflt;;
      rest <- gets v fields';;
      Ok ((out, x) :: rest)
  end.

Definition fallback (text : string) : value := VDict [("summary", VStr text)].

(** The conference/division/team walk shared by the league structure and
    the standings, up to the fields kept for a team. *)
Definition summarize_division (team_fields : list (string * (string * value)))
  (division : value) : res value :=
  head <- gets division [("name", ("name", VStr "")); ("alias", ("alias", VStr ""))];;
  teams <- get division "teams" (VList []);;
  teams <- iter teams;;
  teams <- for_each (fun team => t <- gets team team_fields;; Ok (VDict t)) teams;;
  Ok (VDict (head ++ [("teams", VList teams)])).

Definition summarize_conference (team_fields : list (string * (string * value)))
  (conference : value) : res value :=
  head <- gets conference [("name", ("name", VStr "")); ("alias", ("alias", VStr ""))];;
  divisions <- get conference "divisions" (VList []);;
  divisions <- iter divisions;;
  divisions <- for_each (summarize_division team_fields) divisions;;
  Ok (VDict (head ++ [("divisions", VList divisions)])).

Definition summarize_conferences (team_fields : list (string * (string * value)))
  (data : value) : res (list value) :=
  present <- has_key "conferences" data;;
  if present : bool then
    conferences <- getitem data "conferences";;
    conferences <- iter conferences;;
    for_each (summarize_conference team_fields) conferences
  else Ok [].

Definition league_team_fields : list (string * (string * value)) :=
  [("name", ("name", VStr "")); ("market", ("market", VStr ""));
   ("alias", ("alias", VStr ""))].

Definition _summarize_league_structure (league_data : value) : res value :=
  if negb (truthy league_data) then Ok (VDict [])
  else
    league_name <- get league_data "name" (VStr "NFL");;
    try_except
      (conferences <- summarize_conferences league_team_fields league_data;;
       Ok (VDict [("league_name", league_name);
                  ("conferences", VList conferences)]))
      (fun _ => Ok (fallback
         "League structure data available but could not be summarized")).

Definition _summarize_team_profile (profile_data : value) : res value :=
  if negb (truthy profile_data) then Ok (VDict [])
  else
    try_except
      (team_info <- gets profile_data
         [("id", ("id", VStr "")); ("name", ("name", VStr ""));
          ("market", ("market", VStr "")); ("alias", ("alias", VStr ""));
          ("conference", ("conference", VStr ""));
          ("division", ("division", VStr ""))];;
       has_coaches <- has_key "coaches" profile_data;;
       coaches <-
         (if has_coaches : bool then
            coaches <- getitem profile_data "coaches";;
            coaches <- slice_to 3 coaches;;
            coaches <- iter coaches;;
            for_each (fun coach =>
                        c <- gets coach
                          [("name", ("name", VStr ""));
                           ("position", ("position", VStr ""));
                           ("experience", ("experience", VStr ""))];;
                        Ok (VDict c)) coaches
          else Ok []);;
       has_players <- has_key "players" profile_data;;
       key_players <-
         (if has_players : bool then
            players <- getitem profile_data "players";;
            players <- iter players;;
            players <- sorted_asc (fun p => get p "depth" (VInt 99)) players;;
            for_each (fun player =>
                        pl <- gets player
                          [("name", ("name", VStr ""));
                           ("position", ("position", VStr ""));
                           ("jersey_number", ("jersey_number", VStr ""));
                           ("depth", ("depth", VInt 0))];;
                        Ok (VDict pl)) (take 10 players)
          else Ok []);;
       Ok (VDict [("team_info", VDict team_info);
                  ("coaches", VList coaches);
                  ("key_players", VList key_players)]))
      (fun _ => Ok (fallback
         "Team profile data available but could not be summarized")).

Definition injured_player_fields : list (string * (string * value)) :=
  [("name", ("name", VStr "")); ("position", ("position", VStr ""));
   ("status", ("status", VStr "")); ("injury", ("injury", VStr ""))].

Definition _summarize_team_injuries (injuries_data : value) : res value :=
  if negb (truthy injuries_data) then Ok (VDict [])
  else
    head <- gets injuries_data
      [("team", ("name", VStr "")); ("alias", ("alias", VStr ""))];;
    try_except
      (has_players <- has_key "players" injuries_data;;
       injured_players <-
         (if has_players : bool then
            players <- getitem injuries_data "players";;
            players <- slice_to 10 players;;
            players <- iter players;;
            for_each (fun player =>
                        pl <- gets player injured_player_fields;;
                        Ok (VDict pl)) players
          else Ok []);;
       Ok (VDict (head ++ [("injured_players", VList injured_players)])))
      (fun _ => Ok (fallback
         "Team injuries data available but could not be summarized")).

(** One side of a game: [{"name": ..., "alias": ...}], and ["points"] when
    the caller keeps them. *)
Definition game_side (game : value) (side : string) (points : option string)
  : res value :=
  team <- get game side (VDict []);;
  name <- get team "name" (VStr "");;
  team <- get game side (VDict []);;
  alias <- get team "alias" (VStr "");;
  match points with
  | Some key =>
      pts <- get game key VNone;;
      Ok (VDict [("name", name); ("alias", alias); ("points", pts)])
  | None => Ok (VDict [("name", name); ("alias", alias)])
  end.

Definition game_summary (with_points : bool) (game : value) : res value :=
  head <- gets game
    [("id", ("id", VStr "")); ("status", ("status", VStr ""));
     ("scheduled", ("scheduled", VStr ""))];;
  home_team <- game_side game "home"
                 (if with_points then Some "home_points" else None);;
  away_team <- game_side game "away"
                 (if with_points then Some "away_points" else None);;
  Ok (VDict (head ++ [("home_team", home_team); ("away_team", away_team)])).

Definition _summarize_games (games_data : value) : res value :=
  if negb (truthy games_data) then Ok (VList [])
  else
    try_except
      (games <- slice_to 5 games_data;;
       games <- iter games;;
       games_summary <- for_each (game_summary true) games;;
       Ok (VList games_summary))
      (fun _ => Ok (VList [fallback
         "Games data available but could not be summarized"])).

Definition standings_team_fields : list (string * (string * value)) :=
  [("name", ("name", VStr "")); ("alias", ("alias", VStr ""));
   ("wins", ("wins", VInt 0)); ("losses", ("losses", VInt 0));
   ("ties", ("ties", VInt 0)); ("win_pct", ("win_pct", VInt 0));
   ("points_for", ("points_for", VInt 0));
   ("points_against", ("points_against", VInt 0))].

Definition _summarize_standings_data (standings_data : value) : res value :=
  if negb (truthy standings_data) then Ok (VDict [])
  else
    season <- get standings_data "season" (VDict []);;
    season <- get season "year" (VStr "");;
    try_except
      (conferences <- summarize_conferences standings_team_fields standings_data;;
       Ok (VDict [("season", season); ("conferences", VList conferences)]))
      (fun _ => Ok (fallback
         "Standings data available but could not be summarized")).

Definition _summarize_schedule_data (data : value) : res value :=
  head <- gets data [("year", ("year", VStr "")); ("type", ("type", VStr ""))];;
  try_except
    (games <- get data "games" (VList []);;
     games <- slice_to 10 games;;
     games <- iter games;;
     games <- for_each (game_summary false) games;;
     Ok (VDict (head ++ [("games", VList games)])))
    (fun _ => Ok (fallback
       "Schedule data available but could not be summarized")).

Definition injury_team_summary (team : value) : res value :=
  head <- gets team [("name", ("name", VStr "")); ("alias", ("alias", VStr ""))];;
  players <- get team "players" (VList []);;
  players <- slice_to 10 players;;
  players <- iter players;;
  injuries <- for_each (fun player =>
                          pl <- gets player injured_player_fields;;
                          Ok (VDict pl)) players;;
  Ok (VDict (head ++ [("injuries", VList injuries)])).

Definition _summarize_injury_data (data : value) : res value :=
  week <- get data "week" (VStr "");;
  try_except
    (teams <- get data "teams" (VList []);;
     teams <- slice_to 10 teams;;
     teams <- iter teams;;
     teams_with_injuries <- for_each injury_team_summary teams;;
     Ok (VDict [("week", week);
                ("teams_with_injuries", VList teams_with_injuries)]))
    (fun _ => Ok (fallback
       "Injury data available but could not be summarized")).

(** One [if key in stats: key_stats[key] = {...}] step of
    [_extract_key_stats]. *)
Definition stat_block (stats : value) (key : string)
  (fields : list (string * (string * value)))
  (key_stats : list (string * value)) : res (list (string * value)) :=
  present <- has_key key stats;;
  if present : bool then
    block <- getitem stats key;;
    kept <- gets block fields;;
    Ok (dict_set key (VDict kept) key_stats)
  else Ok key_stats.

Definition _extract_key_stats (stats : value) : res value :=
  if negb (truthy stats) then Ok (VDict [])
  else
    key_stats <- stat_block stats "team"
      [("first_downs", ("first_downs", VInt 0));
       ("total_yards", ("total_yards", VInt 0));
       ("penalties", ("penalties", VInt 0));
       ("penalty_yards", ("penalty_yards", VInt 0));
       ("turnovers", ("turnovers", VInt 0));
       ("time_of_possession", ("possession_time", VStr ""))] [];;
    key_stats <- stat_block stats "passing"
      [("completions", ("completions", VInt 0));
       ("attempts", ("attempts", VInt 0)); ("yards", ("yards", VInt 0));
       ("touchdowns", ("touchdowns", VInt 0));
       ("interceptions", ("interceptions", VInt 0))] key_stats;;
    key_stats <- stat_block stats "rushing"
      [("attempts", ("attempts", VInt 0)); ("yards", ("yards", VInt 0));
       ("touchdowns", ("touchdowns", VInt 0))] key_stats;;
    key_stats <- stat_block stats "receiving"
      [("receptions", ("receptions", VInt 0)); ("yards", ("yards", VInt 0));
       ("touchdowns", ("touchdowns", VInt 0))] key_stats;;
    Ok (VDict key_stats).

Definition boxscore_side (data : value) (side points : string) : res value :=
  team <- get data side (VDict []);;
  name <- get team "name" (VStr "");;
  team <- get data side (VDict []);;
  alias <- get team "alias" (VStr "");;
  pts <- get data points (VInt 0);;
  team <- get data side (VDict []);;
  scoring <- get team "scoring" (VList []);;
  team <- get data side (VDict []);;
  statistics <- get team "statistics" (VDict []);;
  statistics <- _extract_key_stats statistics;;
  Ok (VDict [("name", name); ("alias", alias); ("points", pts);
             ("scoring", scoring); ("statistics", statistics)]).

Definition _summarize_boxscore (data : value) : res value :=
  head <- gets data
    [("id", ("id", VStr "")); ("status", ("status", VStr ""));
     ("scheduled", ("scheduled", VStr ""))];;
  home <- boxscore_side data "home" "home_points";;
  away <- boxscore_side data "away" "away_points";;
  Ok (VDict (head ++ [("home", home); ("away", away)])).

(** The loops [for team_code, x in data[key].items()] of
    [_summarize_context_data]. *)
Fixpoint summarize_each (f : value -> res value) (entries : list (string * value))
  (acc : list (string * value)) : res (list (string * value)) :=
  match entries with
  | [] => Ok acc
  | (team_code, x) :: entries' =>
      y <- f x;;
      summarize_each f entries' (dict_set team_code y acc)
  end.

(** One [if key in data: summarized[out] = f(data[key])] step. *)
Definition block (data : value) (key out : string) (f : value -> res value)
  (summarized : list (string * value)) : res (list (string * value)) :=
  present <- has_key key data;;
  if present : bool then
    x <- getitem data key;;
    y <- f x;;
    Ok (dict_set out y summarized)
  else Ok summarized.

Definition per_team (f : value -> res value) (x : value) : res value :=
  entries <- items x;;
  d <- summarize_each f entries [];;
  Ok (VDict d).

Section Context.

(** Python's [str(e)]. *)
Variable str_of_exn : exn -> string.

Definition _summarize_context_data (data : value) : res value :=
  query_type <- get data "query_type" (VStr "unknown");;
  metadata <- get data "metadata" (VDict []);;
  let summarized := [("query_type", query_type); ("metadata", metadata)] in
  try_except
    (summarized <- block data "league" "league_structure"
                     _summarize_league_structure summarized;;
     summarized <- block data "standings" "standings"
                     _summarize_standings_data summarized;;
     summarized <- block data "schedule" "schedule"
                     _summarize_schedule_data summarized;;
     summarized <- block data "team_profiles" "team_profiles"
                     (per_team _summarize_team_profile) summarized;;
     summarized <- block data "injuries" "injuries"
                     _summarize_injury_data summarized;;
     summarized <- block data "team_injuries" "team_injuries"
                     (per_team _summarize_team_injuries) summarized;;
     summarized <- block data "relevant_games" "relevant_games"
                     _summarize_games summarized;;
     summarized <- block data "team_games" "team_games"
                     (per_team _summarize_games) summarized;;
     summarized <- block data "boxscore" "boxscore"
                     _summarize_boxscore summarized;;
     Ok (VDict summarized))
    (fun e => Ok (VDict
       [("summary",
         VStr "Data available but could not be summarized due to an error");
        ("error", VStr (str_of_exn e))])).

End Context.

End Summarizer.

(** ** The LLM gateway ([LLMService.generate_response]) *)

Module Gateway.
Import Summarizer.

Record message := { role : string; content : string }.

(** The JSON body posted to the chat-completion endpoint. *)
Record chat_request := {
  model : string;
  messages : list message;
  temperature : Qc;
  max_tokens : Z
}.

(** What [client.post], [raise_for_status()] and [response.json()] come to. *)
Inductive llm_result : Type :=
| LLMResponse (result : value)
| LLMStatusError (status_code : Z) (text : string)
| LLMFailure (text : string).

(** The module-level [llm_cache], and the requests sent out so far. *)
Record state := {
  llm_cache : gmap string (PrimFloat.float * value);
  outbound : list chat_request
}.

Definition LLM_CACHE_TTL : Z := 60 * 10.

Definition system_message : string :=
  "You are an NFL analytics expert providing insights based on official NFL data. "
  +:+ "Focus on providing accurate, data-driven analysis in a conversational tone. "
  +:+ "Your responses should be detailed and insightful, drawing both from the provided data "
  +:+ "and your general knowledge of NFL. When responding:" +:+ String "010" ""
  +:+ "1. Summarize key information from the data" +:+ String "010" ""
  +:+ "2. Provide relevant statistics and trends" +:+ String "010" ""
  +:+ "3. Offer context about teams, players, or matchups" +:+ String "010" ""
  +:+ "4. Analyze the data to provide meaningful insights" +:+ String "010" ""
  +:+ "5. Make logical inferences based on the data where appropriate" +:+ String "010" ""
  +:+ "6. Cite your sources as 'Based on official NFL data.'".

Definition data_instructions : string :=
  "The following NFL data is relevant to the user's query. "
  +:+ "Use this data to provide detailed insights and statistics in your response. "
  +:+ "When the data contains multiple types of information (like standings, schedules, player info), "
  +:+ "try to integrate them for a more comprehensive analysis.".

Definition truncation_marker : string :=
  "...[additional data truncated for size]".

(** [result['choices'][0]['message']['content']] *)
Definition completion_text (result : value) : res value :=
  choices <- getitem result "choices";;
  choice <- first_item choices;;
  msg <- getitem choice "message";;
  getitem msg "content".

Section Service.

(** [s.encode()]: UTF-8, which raises [UnicodeEncodeError] on text that
    holds a lone surrogate.  Such text is outside the strings of this
    development, so the encoder is taken as it comes: it may raise. *)
Variable encode : string -> res (list Byte.byte).
(** [hashlib.sha256(b).hexdigest()] *)
Variable sha256_hexdigest : list Byte.byte -> string.
(** [str(context_data)]; the context is [None] or a dictionary. *)
Variable str : option value -> string.
(** [json.dumps(x, indent=2)] *)
Variable json_dumps : value -> string.
(** Python's [str(e)]. *)
Variable str_of_exn : exn -> string.
(** The inference service: its answer may depend on what was sent before. *)
Variable llm : list chat_request -> chat_request -> llm_result.

(** [hashlib.sha256((query + str(context_data)).encode()).hexdigest()],
    computed outside every [try]. *)
Definition cache_key (query : string) (context_data : option value)
  : res string :=
  encoded <- encode (query +:+ str context_data);;
  Ok (sha256_hexdigest encoded).

(** The cache check: the stored answer when
    [now - cached_time < LLM_CACHE_TTL], the difference being the binary64
    one. *)
Definition cache_check (cache : gmap string (PrimFloat.float * value))
  (key : string) (now : PrimFloat.float) : option value :=
  match cache !! key with
  | Some (cached_time, cached_response) =>
      if float_lt_int (PrimFloat.sub now cached_time) LLM_CACHE_TTL
      then Some cached_response else None
  | None => None
  end.

(** The system messages that carry the context, when there is one. *)
Definition context_messages (context_data : option value)
  : res (list message) :=
  match context_data with
  | Some data =>
      if truthy data then
        summarized_data <- _summarize_context_data str_of_exn data;;
        let context_str := json_dumps summarized_data in
        let context_str :=
          if (4000 <? String.length context_str)%nat
          then str_take 4000 context_str +:+ truncation_marker
          else context_str in
        Ok [ {| role := "system"; content := data_instructions |};
             {| role := "system"; content := context_str |} ]
      else Ok []
  | None => Ok []
  end.

(** The JSON body of the request. *)
Definition chat_request_for (query : string) (extra : list message)
  : chat_request :=
  {| model := "gpt-4";
     messages := {| role := "system"; content := system_message |}
                 :: extra ++ [ {| role := "user"; content := query |} ];
     temperature := Q2Qc (7 # 10);
     max_tokens := 800 |}.

(** [generate_response], called when [time.time()] reads [now]. *)
Definition generate_response (query : string) (context_data : option value)
  (now : PrimFloat.float) (st : state) : res (value * state) :=
  key <- cache_key query context_data;;
  match cache_check (llm_cache st) key now with
  | Some cached_response => Ok (cached_response, st)
  | None =>
      extra <- context_messages context_data;;
      let request := chat_request_for query extra in
      let sent := outbound st ++ [request] in
      let failed (text : string) :=
        Ok (VStr ("Sorry, I couldn't generate a response: " +:+ text),
            {| llm_cache := llm_cache st; outbound := sent |}) in
      match llm (outbound st) request with
      | LLMResponse result =>
          match completion_text result with
          | Ok llm_response =>
              Ok (llm_response,
                  {| llm_cache := <[key := (now, llm_response)]> (llm_cache st);
                     outbound := sent |})
          | Raise e => failed (str_of_exn e)
          end
      | LLMStatusError status_code text =>
          if (status_code =? 429)%Z
          then Ok (VStr "Rate limit exceeded. Please try again later.",
                   {| llm_cache := llm_cache st; outbound := sent |})
          else failed text
      | LLMFailure text => failed text
      end
  end.

End Service.

End Gateway.

(** ** Measures and sample payloads used by the statements below *)

Module Measures.

(** The list stored under [key], empty when there is none. *)
Definition entries (v : value) (key : string) : list value :=
  match v with
  | VDict d =>
      match dict_lookup key d with
      | Some (VList l) => l
      | _ => []
      end
  | _ => []
  end.

(** The length of the longest list anywhere inside [v]. *)
Fixpoint widest_list (v : value) : nat :=
  match v with
  | VList l => Nat.max (length l) (foldr Nat.max 0%nat (map widest_list l))
  | VDict d => foldr Nat.max 0%nat (map (fun kv => widest_list kv.2) d)
  | _ => 0%nat
  end.

(** The length of the longest string anywhere inside [v]. *)
Fixpoint longest_string (v : value) : nat :=
  match v with
  | VStr s => String.length s
  | VList l => foldr Nat.max 0%nat (map longest_string l)
  | VDict d => foldr Nat.max 0%nat (map (fun kv => longest_string kv.2) d)
  | _ => 0%nat
  end.

(** A league payload: one conference, one division, [n] teams. *)
Definition league_with_teams (n : nat) : value :=
  VDict [("conferences",
          VList [VDict [("divisions",
                         VList [VDict [("teams",
                                        VList (repeat (VDict []) n))]])]])].

(** A league payload whose name has [n] characters. *)
Fixpoint str_repeat (c : ascii) (n : nat) : string :=
  match n with
  | O => EmptyString
  | S n' => String c (str_repeat c n')
  end.

Definition league_named (n : nat) : value :=
  VDict [("name", VStr (str_repeat "x" n))].

(** What the spec's words say about games, to compare the loops with. *)

(** The alias of one side of a well-formed game, [""] when it has none. *)
Definition alias_of (game : value) (side : string) : value :=
  match get game side (VDict []) with
  | Ok team => match get team "alias" (VStr "") with
               | Ok alias => alias
               | Raise _ => VStr ""
               end
  | Raise _ => VStr ""
  end.

(** "home or away alias is in team_codes" *)
Definition involves (team_codes : list string) (game : value) : bool :=
  in_strings (alias_of game "home") team_codes
  || in_strings (alias_of game "away") team_codes.

(** The scheduled timestamp string of a game, [""] when it has none. *)
Definition scheduled_of (game : value) : string :=
  match get game "scheduled" (VStr "") with
  | Ok (VStr s) => s
  | _ => ""
  end.

(** The id of a game, [None] when it has none. *)
Definition id_of (game : value) : value :=
  match get game "id" VNone with
  | Ok v => v
  | Raise _ => VNone
  end.

(** "descending order of the scheduled timestamp string": no game is
    followed by one with a greater timestamp. *)
Definition not_after (g1 g2 : value) : Prop :=
  str_ltb (scheduled_of g1) (scheduled_of g2) = false.

(** A placed element carries its own timestamp as key. *)
Definition keyed_ok (kx : value * value) : Prop :=
  kx.1 = VStr (scheduled_of kx.2).

Definition keyed_not_after (a b : value * value) : Prop := not_after a.2 b.2.

(** A game of the schedule as the provider documents it: a dictionary whose
    [home] and [away], when present, are dictionaries and whose [scheduled],
    when present, is a string. *)
Definition side_ok (game : list (string * value)) (side : string) : bool :=
  match dict_lookup side game with
  | None | Some (VDict _) => true
  | Some _ => false
  end.

Definition well_formed_game (game : value) : bool :=
  match game with
  | VDict d =>
      side_ok d "home" && side_ok d "away" &&
      match dict_lookup "scheduled" d with
      | None | Some (VStr _) => true
      | Some _ => false
      end
  | _ => false
  end.

(** The "Always fetched" column of the fetch plan, in call order. *)
Definition always_fetched (query_type year season_type week : string)
  : list ApiClient.endpoint :=
  if String.eqb query_type "player_rankings" then
    [ApiClient.Teams; ApiClient.Standings year season_type]
  else if String.eqb query_type "matchups" then
    [ApiClient.Schedule year season_type]
  else if String.eqb query_type "injuries" then
    [ApiClient.WeeklyInjuries year season_type week; ApiClient.Teams]
  else if String.eqb query_type "schedule" then
    [ApiClient.Schedule year season_type; ApiClient.Teams]
  else if String.eqb query_type "depth_chart" then
    [ApiClient.Teams]
  else if String.eqb query_type "standings" then
    [ApiClient.Standings year season_type; ApiClient.Teams]
  else if String.eqb query_type "boxscore" then
    [ApiClient.Schedule year season_type]
  else
    [ApiClient.Teams; ApiClient.Standings year season_type;
     ApiClient.Schedule year season_type].

(** A rendering of [str(e)] for the examples. *)
Definition exn_text (e : exn) : string :=
  match e with
  | AttributeError what | TypeError what | IndexError what
  | UnicodeEncodeError what => what
  | KeyError key => "'" +:+ key +:+ "'"
  | HTTPException status_code detail =>
      str_of_Z status_code +:+ ": " +:+ detail
  end.

(** Sample backends and parameters. *)

Definition params_2023 (team_codes : option (list string)) : Classifier.params :=
  {| Classifier.year := Some "2023"; Classifier.week := Some "1";
     Classifier.season_type := Some "REG"; Classifier.teams := team_codes;
     Classifier.player := None |}.

(** Every request is answered, except the standings: 503. *)
Definition standings_down (_ : list ApiClient.endpoint) (ep : ApiClient.endpoint)
  : ApiClient.http_result :=
  match ep with
  | ApiClient.Standings _ _ =>
      ApiClient.HTTPStatusError 503 "Service Unavailable"
  | _ => ApiClient.Response (VDict [("name", VStr "NFL")])
  end.

Definition sample_game (id scheduled home away : string) : value :=
  VDict [("id", VStr id); ("scheduled", VStr scheduled);
         ("home", VDict [("alias", VStr home)]);
         ("away", VDict [("alias", VStr away)])].

Definition sample_games : list value :=
  [sample_game "g1" "2023-09-07T00:20:00+00:00" "KC" "DET";
   sample_game "g2" "2023-09-10T17:00:00+00:00" "PHI" "NE";
   sample_game "g3" "2023-09-24T20:25:00+00:00" "KC" "CHI";
   sample_game "g4" "2023-09-17T17:00:00+00:00" "JAX" "KC"].

(** The schedule is [sample_games]; a boxscore request is answered with
    the id it was made for; nothing else is. *)
Definition schedule_backend (_ : list ApiClient.endpoint)
  (ep : ApiClient.endpoint) : ApiClient.http_result :=
  match ep with
  | ApiClient.Schedule _ _ =>
      ApiClient.Response (VDict [("games", VList sample_games)])
  | ApiClient.GameBoxscore game_id =>
      ApiClient.Response (VDict [("id", game_id)])
  | _ => ApiClient.Failure "connection refused"
  end.

(** A gateway to try the cache on: the hash is replaced by the text it
    would hash, and the service always answers "It depends.". *)
Definition sample_str (context_data : option value) : string :=
  match context_data with
  | None => "None"
  | Some _ => "{...}"
  end.

Definition sample_llm (_ : list Gateway.chat_request) (_ : Gateway.chat_request)
  : Gateway.llm_result :=
  Gateway.LLMResponse
    (VDict [("choices",
             VList [VDict [("message",
                            VDict [("content", VStr "It depends.")])]])]).

Definition fresh_state : Gateway.state :=
  {| Gateway.llm_cache := ∅; Gateway.outbound := [] |}.

(** A clock reading of [n] seconds, and one of [n] tenths of a second. *)
Definition seconds (n : Z) : PrimFloat.float := float_of_int n.

Definition tenths (n : Z) : PrimFloat.float :=
  PrimFloat.div (float_of_int n) (float_of_int 10).

(** An encoder that always returns, and a digest that is the text itself. *)
Definition sample_encode (s : string) : res (list Byte.byte) :=
  Ok (list_byte_of_string s).

Definition sample_digest (b : list Byte.byte) : string :=
  string_of_list_byte b.

(** An injury report with 11 teams of 12 players each. *)
Definition injury_report_sample : value :=
  VDict [("teams",
          VList (repeat (VDict [("players", VList (repeat (VDict []) 12))])
                        11))].

End Measures.

(** ** The query service ([NFLQueryService.process_query],
       [get_data_sources]) and the unused generic summary *)

Module QueryService.
Import Classifier ApiClient Aggregator Gateway.

(** The [data_sources] literal of [get_data_sources]. *)
Definition data_sources : list (string * list string) :=
  [("player_rankings",
    ["NFL team data"; "NFL player statistics"; "Season standings"]);
   ("matchups",
    ["NFL schedule data"; "Team profiles"; "Head-to-head statistics"]);
   ("injuries",
    ["NFL injury reports"; "Team rosters"; "Player status updates"]);
   ("schedule",
    ["NFL team schedules"; "League calendar"; "Game information"]);
   ("depth_chart",
    ["NFL team rosters"; "Player position data"; "Team composition"]);
   ("standings",
    ["NFL division standings"; "Conference rankings"; "Team records"]);
   ("boxscore",
    ["Game statistics"; "Player performance data"; "Match results"]);
   ("general",
    ["NFL general information"; "League data"; "Current season context"])].

Fixpoint assoc {A} (k : string) (l : list (string * A)) : option A :=
  match l with
  | [] => None
  | (k', v) :: l' => if String.eqb k k' then Some v else assoc k l'
  end.

(** [data_sources.get(query_type, ["NFL API data"])] *)
Definition get_data_sources (query_type : string) : list string :=
  default ["NFL API data"] (assoc query_type data_sources).

Section Process.

Variable backend : list endpoint -> endpoint -> http_result.
Variable encode : string -> res (list Byte.byte).
Variable sha256_hexdigest : list Byte.byte -> string.
Variable str : option value -> string.
Variable json_dumps : value -> string.
Variable str_of_exn : exn -> string.
Variable llm : list chat_request -> chat_request -> llm_result.

(** [process_query]: classify, fetch, ask the model.  [now] are the clock
    readings of the classifier, [t] is the reading of [time.time()] in the
    gateway; the request log and the gateway state are threaded through. *)
Definition process_query (now : nat -> datetime) (t : PrimFloat.float) (query : string)
  (log : list endpoint) (st : state)
  : res (value * list endpoint * state) :=
  let classified := _classify_query now query in
  let query_type := classified.1 in
  let params := classified.2 in
  match _fetch_relevant_data backend str_of_exn query_type params log with
  | (Raise e, _) => Raise e
  | (Ok context_data, log') =>
      answered <- generate_response encode sha256_hexdigest str json_dumps
                    str_of_exn llm query (Some context_data) t st;;
      Ok (VDict [("query", VStr query);
                 ("answer", answered.1);
                 ("data_sources", VList (VStr <$> get_data_sources query_type))],
          log', answered.2)
  end.

End Process.

End QueryService.

Module GenericSummary.

(** The loop over [keys] of [_create_generic_summary]. *)
Fixpoint report_lists (data : list (string * value)) (keys : list string)
  (summary : list (string * value)) : list (string * value) :=
  match keys with
  | [] => summary
  | key :: keys' =>
      let summary :=
        match dict_lookup key data with
        | Some (VList l) =>
            let summary :=
              dict_set (key +:+ "_count") (VInt (Z.of_nat (length l))) summary in
            match l with
            | VDict first :: _ =>
                let sample_keys := take 5 (map fst first) in
                dict_set (key +:+ "_contains") (VList (VStr <$> sample_keys))
                         summary
            | _ => summary
            end
        | _ => summary
        end in
      report_lists data keys' summary
  end.

(** [_create_generic_summary] *)
Definition _create_generic_summary (data : value) : value :=
  let summary := [("data_summary", VStr "NFL data available")] in
  match data with
  | VDict d =>
      let keys := take 10 (map fst d) in
      let summary := dict_set "available_data" (VList (VStr <$> keys)) summary in
      VDict (report_lists d keys summary)
  | _ => VDict summary
  end.

End GenericSummary.

(** ** More specification-side definitions *)

Module Specs.
Import Classifier ApiClient.

(** The text matches [20\d{2}]. *)
Definition is_year_token (y : string) : Prop :=
  exists c d, is_digit c = true /\ is_digit d = true /\
              y = String "2" (String "0" (String c (String d EmptyString))).

(** All characters of [s] are digits. *)
Fixpoint all_digits (s : string) : bool :=
  match s with
  | EmptyString => true
  | String c s' => is_digit c && all_digits s'
  end.

(** The dictionary literal that [gets] builds from a dictionary. *)
Definition picked (d : list (string * value))
  (fields : list (string * (string * value))) : list (string * value) :=
  map (fun f => (f.1, default f.2.2 (dict_lookup f.2.1 d))) fields.

Definition is_dict (v : value) : bool :=
  match v with
  | VDict _ => true
  | _ => false
  end.

(** The rank [_summarize_team_profile] sorts a player by: its integer
    [depth], 99 when it has none. *)
Definition depth_rank (player : value) : Z :=
  match get player "depth" (VInt 99) with
  | Ok (VInt n) => n
  | _ => 99
  end.

(** A player entry: a dictionary whose [depth], when present, is an
    integer. *)
Definition well_formed_player (player : value) : bool :=
  match player with
  | VDict d =>
      match dict_lookup "depth" d with
      | None | Some (VInt _) => true
      | Some _ => false
      end
  | _ => false
  end.

Definition ranked_ok (kx : value * value) : Prop :=
  kx.1 = VInt (depth_rank kx.2).

Definition rank_le (a b : value) : Prop := depth_rank a <= depth_rank b.

Definition keyed_rank_le (a b : value * value) : Prop := rank_le a.2 b.2.

(** The player is sorted at rank [r]. *)
Definition has_rank (r : Z) (player : value) : bool :=
  (depth_rank player =? r)%Z.

(** [v.get(key, dflt)] where it cannot raise. *)
Definition field (v : value) (key : string) (dflt : value) : value :=
  match get v key dflt with
  | Ok x => x
  | Raise _ => dflt
  end.

(** The last team report of the injury list whose alias is
    [team_code]. *)
Definition report_for (team_code : string) (reports : list value)
  : option value :=
  List.find (fun r => py_eq (field r "alias" VNone) (VStr team_code))
            (rev reports).

(** [team_code] plays in [game]. *)
Definition plays (team_code : string) (game : value) : bool :=
  py_eq (Measures.alias_of game "home") (VStr team_code)
  || py_eq (Measures.alias_of game "away") (VStr team_code).

(** The dictionary that gives each team code, in order, its list. *)
Definition team_lists (L : string -> list value) (ts : list string)
  : list (string * value) :=
  map (fun c => (c, VList (L c))) ts.

(** Awaiting code that extends the request log by at most [n] requests. *)
Definition sends_at_most {A} (n : nat) (m : io A) : Prop :=
  forall log, exists new,
    (m log).2 = log ++ new /\ (length new <= n)%nat.

(** The source key and the digest key of each block of
    [_summarize_context_data]. *)
Definition block_names : list (string * string) :=
  [("league", "league_structure"); ("standings", "standings");
   ("schedule", "schedule"); ("team_profiles", "team_profiles");
   ("injuries", "injuries"); ("team_injuries", "team_injuries");
   ("relevant_games", "relevant_games"); ("team_games", "team_games");
   ("boxscore", "boxscore")].

(** The statistic blocks [_extract_key_stats] can emit, with the field
    names it writes into each. *)
Definition stat_fields : list (string * list string) :=
  [("team", ["first_downs"; "total_yards"; "penalties"; "penalty_yards";
             "turnovers"; "time_of_possession"]);
   ("passing", ["completions"; "attempts"; "yards"; "touchdowns";
                "interceptions"]);
   ("rushing", ["attempts"; "yards"; "touchdowns"]);
   ("receiving", ["receptions"; "yards"; "touchdowns"])].

(** Every entry is one of the listed blocks, holding a dictionary with
    exactly the listed field names. *)
Definition listed_stats (key_stats : list (string * value)) : Prop :=
  forall k v,
    dict_lookup k key_stats = Some v ->
    exists names blk,
      QueryService.assoc k stat_fields = Some names /\
      v = VDict blk /\ map fst blk = names.

(** What a game list entry keeps of a well-formed game. *)
Definition side_digest (game : value) (side : string) (points : option string)
  : value :=
  let team := field game side (VDict []) in
  VDict ([("name", field team "name" (VStr ""));
          ("alias", field team "alias" (VStr ""))]
         ++ match points with
            | Some key => [("points", field game key VNone)]
            | None => []
            end).

Definition game_digest (with_points : bool) (game : value) : value :=
  VDict [("id", field game "id" (VStr ""));
         ("status", field game "status" (VStr ""));
         ("scheduled", field game "scheduled" (VStr ""));
         ("home_team",
          side_digest game "home"
            (if with_points then Some "home_points" else None));
         ("away_team",
          side_digest game "away"
            (if with_points then Some "away_points" else None))].

(** What a key player entry keeps of a player. *)
Definition player_digest (player : value) : value :=
  VDict [("name", field player "name" (VStr ""));
         ("position", field player "position" (VStr ""));
         ("jersey_number", field player "jersey_number" (VStr ""));
         ("depth", field player "depth" (VInt 0))].

(** A team profile whose [coaches], when present, is a list of
    dictionaries and whose [players] is a list of well-formed players. *)
Definition well_formed_profile (profile : list (string * value)) : bool :=
  match dict_lookup "coaches" profile with
  | None => true
  | Some (VList coaches) => forallb is_dict coaches
  | Some _ => false
  end
  && match dict_lookup "players" profile with
     | Some (VList players) => forallb well_formed_player players
     | _ => false
     end.

(** An answer of the service that yields no completion text: an error
    status, a failed request, or a body without
    [choices[0].message.content]. *)
Definition unusable (r : Gateway.llm_result) : bool :=
  match r with
  | Gateway.LLMResponse result =>
      match Gateway.completion_text result with
      | Ok _ => false
      | Raise _ => true
      end
  | _ => true
  end.

(** A service that answers every request with status 429. *)
Definition rate_limited (_ : list Gateway.chat_request)
  (_ : Gateway.chat_request) : Gateway.llm_result :=
  Gateway.LLMStatusError 429 "Too Many Requests".

(** The walk over conferences, divisions and teams as the spec words it:
    one entry per conference, per division and per team, each keeping
    [name] and [alias] (for a team, the listed fields) with the values the
    payload has, absent ones replaced by their defaults. *)
Definition team_digest (team_fields : list (string * (string * value)))
  (team : value) : value :=
  VDict (map (fun f => (f.1, field team f.2.1 f.2.2)) team_fields).

Definition division_digest (team_fields : list (string * (string * value)))
  (division : value) : value :=
  VDict [("name", field division "name" (VStr ""));
         ("alias", field division "alias" (VStr ""));
         ("teams",
          VList (map (team_digest team_fields)
                     (Measures.entries division "teams")))].

Definition conference_digest (team_fields : list (string * (string * value)))
  (conference : value) : value :=
  VDict [("name", field conference "name" (VStr ""));
         ("alias", field conference "alias" (VStr ""));
         ("divisions",
          VList (map (division_digest team_fields)
                     (Measures.entries conference "divisions")))].

Definition league_digest (league_data : value) : value :=
  VDict [("league_name", field league_data "name" (VStr "NFL"));
         ("conferences",
          VList (map (conference_digest Summarizer.league_team_fields)
                     (Measures.entries league_data "conferences")))].

Definition standings_digest (standings_data : value) : value :=
  VDict [("season",
          field (field standings_data "season" (VDict [])) "year" (VStr ""));
         ("conferences",
          VList (map (conference_digest Summarizer.standings_team_fields)
                     (Measures.entries standings_data "conferences")))].

(** A dictionary in which [key], when present, holds a list whose items
    all satisfy [inner]. *)
Definition list_at (key : string) (inner : value -> bool) (v : value) : bool :=
  match v with
  | VDict d =>
      match dict_lookup key d with
      | None => true
      | Some (VList l) => forallb inner l
      | Some _ => false
      end
  | _ => false
  end.

(** A payload whose conferences, divisions and teams are lists of
    dictionaries. *)
Definition well_formed_division : value -> bool := list_at "teams" is_dict.

Definition well_formed_conference : value -> bool :=
  list_at "divisions" well_formed_division.

Definition well_formed_hierarchy : value -> bool :=
  list_at "conferences" well_formed_conference.

(** How many divisions and how many teams a payload or a summary has. *)
Definition total (sizes : list nat) : nat := foldr Nat.add 0%nat sizes.

Definition divisions_in (v : value) : nat :=
  total (map (fun c => length (Measures.entries c "divisions"))
             (Measures.entries v "conferences")).

Definition teams_of_conference (c : value) : nat :=
  total (map (fun dv => length (Measures.entries dv "teams"))
             (Measures.entries c "divisions")).

Definition teams_in (v : value) : nat :=
  total (map teams_of_conference (Measures.entries v "conferences")).

(** A payload with one conference, one division and one team. *)
Definition one_team (team : value) : value :=
  VDict [("conferences",
          VList [VDict [("divisions",
                         VList [VDict [("teams", VList [team])]])]])].

(** Every request is answered, except the profile of PHI: 404. *)
Definition phi_profile_down (_ : list endpoint) (ep : endpoint)
  : http_result :=
  match ep with
  | TeamProfile team_id =>
      if String.eqb team_id "PHI" then HTTPStatusError 404 "Not Found"
      else Response (VDict [("alias", VStr team_id)])
  | _ => Response (VDict [("name", VStr "NFL")])
  end.

(** The same parameters with another week, or none. *)
Definition with_week (w : option string) (p : params) : params :=
  {| year := year p; week := w; season_type := season_type p;
     teams := teams p; player := player p |}.

(** A weekly injury report in which the alias KC occurs twice. *)
Definition injury_reports : list value :=
  [VDict [("alias", VStr "KC"); ("players", VList [])];
   VDict [("alias", VStr "PHI")];
   VDict [("alias", VStr "KC");
          ("players", VList [VDict [("name", VStr "T. Kelce")]])]].

(** A backend for one season: the schedule is [Measures.sample_games],
    the weekly injuries are [injury_reports], every other request is
    answered with a body that has a name only. *)
Definition season_backend (_ : list ApiClient.endpoint)
  (ep : ApiClient.endpoint) : ApiClient.http_result :=
  match ep with
  | ApiClient.Schedule _ _ =>
      ApiClient.Response (VDict [("games", VList Measures.sample_games)])
  | ApiClient.WeeklyInjuries _ _ _ =>
      ApiClient.Response (VDict [("teams", VList injury_reports)])
  | _ => ApiClient.Response (VDict [("name", VStr "NFL")])
  end.

End Specs.

(** * Properties *)

(** ** Strings *)

Section StringFacts.
Import Classifier.

Lemma starts_with_spec (p s : string) :
  starts_with p s = true <-> exists post, s = p +:+ post.
Proof.
  revert s; induction p as [|a p IH]; intros s; simpl.
  - split; [intros _; exists s; reflexivity | reflexivity].
  - destruct s as [|b s]; simpl.
    + split; [discriminate | intros [post H]; discriminate].
    + rewrite andb_true_iff, IH. split.
      * intros [Hab [post ->]]. apply Ascii.eqb_eq in Hab as ->.
        exists post; reflexivity.
      * intros [post H]. injection H as -> ->. split.
        -- apply Ascii.eqb_refl.
        -- exists post; reflexivity.
Qed.

(** [contains] is substring containment. *)
Lemma contains_spec (needle hay : string) :
  contains needle hay = true <->
  exists pre post, hay = pre +:+ needle +:+ post.
Proof.
  induction hay as [|c hay IH].
  - simpl. rewrite orb_false_r, starts_with_spec. split.
    + intros [post H]. exists EmptyString, post. exact H.
    + intros [pre [post H]]. destruct pre; simpl in H; [|discriminate].
      exists post; exact H.
  - cbn [contains]. rewrite orb_true_iff, starts_with_spec, IH. split.
    + intros [[post H] | [pre [post H]]].
      * exists EmptyString, post. exact H.
      * exists (String c pre), post. simpl. now rewrite H.
    + intros [pre [post H]]. destruct pre as [|c' pre]; simpl in H.
      * left; exists post; exact H.
      * right. injection H as _ H. exists pre, post. exact H.
Qed.

Lemma starts_with_lower (p s : string) :
  starts_with p s = true -> starts_with (lower p) (lower s) = true.
Proof.
  revert s; induction p as [|a p IH]; intros [|b s]; simpl; try easy.
  rewrite !andb_true_iff. intros [Hab H]. apply Ascii.eqb_eq in Hab as ->.
  split; [apply Ascii.eqb_refl | auto].
Qed.

Lemma contains_lower (needle hay : string) :
  contains needle hay = true -> contains (lower needle) (lower hay) = true.
Proof.
  induction hay as [|c hay IH]; cbn [contains lower]; rewrite !orb_true_iff.
  - intros [H | H]; [left | discriminate].
    apply (starts_with_lower needle EmptyString H).
  - intros [H | H]; [left | right; auto].
    apply (starts_with_lower needle (String c hay) H).
Qed.

(** No capital letter A-Z survives [lower]. *)
Lemma lower_char_not_upper (c : ascii) : is_upper (lower_char c) = false.
Proof. destruct c as [[] [] [] [] [] [] [] []]; reflexivity. Qed.

Lemma has_upper_lower (s : string) : has_upper (lower s) = false.
Proof.
  induction s as [|c s IH]; simpl; [reflexivity|].
  now rewrite lower_char_not_upper, IH.
Qed.

Lemma has_upper_drop (n : nat) (s : string) :
  has_upper (str_drop n s) = true -> has_upper s = true.
Proof.
  revert s; induction n as [|n IH]; intros [|c s]; simpl; try easy.
  intros H. rewrite (IH _ H). apply orb_true_r.
Qed.

End StringFacts.

(** ** The classifier *)

Section ClassifierFacts.
Import Classifier.

(** The two-word name pattern needs a capital letter where it starts. *)
Lemma full_name_at_upper (s name : string) :
  full_name_at s = Some name -> has_upper s = true.
Proof.
  unfold full_name_at, capitalized_at.
  destruct s as [|c s]; [discriminate|].
  simpl. destruct (is_upper c); [reflexivity | discriminate].
Qed.

Lemma keyword_then_name_upper (kws : list string) (s name : string) :
  keyword_then_name kws s = Some name -> has_upper s = true.
Proof.
  induction kws as [|kw kws IH]; simpl; [discriminate|].
  destruct (starts_with kw s); [|exact IH].
  destruct (str_drop (String.length kw) s) as [|c rest] eqn:Hdrop; [exact IH|].
  destruct (Ascii.eqb_spec c " ") as [->|Hc].
  - destruct (full_name_at rest) as [n|] eqn:Hname; [|exact IH].
    intros _. apply (has_upper_drop (String.length kw)). rewrite Hdrop.
    simpl. apply full_name_at_upper in Hname. now rewrite Hname.
  - replace (match c with " "%char => full_name_at rest | _ => None end)
      with (@None string); [exact IH|].
    destruct c as [[] [] [] [] [] [] [] []]; try reflexivity.
    now contradiction Hc.
Qed.

Lemma re_search_name_no_upper (s : string) :
  has_upper s = false -> re_search name_pattern_at s = None.
Proof.
  induction s as [|c s IH]; intros Hs.
  - reflexivity.
  - cbn [re_search].
    destruct (name_pattern_at (String c s)) as [name|] eqn:Hm.
    + apply keyword_then_name_upper in Hm. congruence.
    + apply IH. simpl in Hs. now apply orb_false_iff in Hs.
Qed.

(** The [if] chain returns the label of the first group with a term in the
    query, and ["general"] when there is none. *)
Lemma first_group_find (groups : list (string * list string)) (q : string) :
  first_group groups q =
  match List.find (fun g => any_in g.2 q) groups with
  | Some g => g.1
  | None => "general"
  end.
Proof.
  induction groups as [|[label terms] groups IH]; simpl; [reflexivity|].
  destruct (any_in terms q); [reflexivity | exact IH].
Qed.

Lemma first_group_label (groups : list (string * list string)) (q : string) :
  In (first_group groups q) (map fst groups ++ ["general"]).
Proof.
  induction groups as [|[label terms] groups IH]; simpl; [now left|].
  destruct (any_in terms q); [now left | now right].
Qed.

Lemma any_in_true (terms : list string) (q term : string) :
  In term terms -> contains term q = true -> any_in terms q = true.
Proof.
  intros Hin Hc. unfold any_in. apply existsb_exists. now exists term.
Qed.

(** The team loop is a filter of the alias table. *)
Lemma teams_found_filter (table : list (string * string)) (q : string) :
  teams_found table q =
  map snd (List.filter (fun entry => contains entry.1 q) table).
Proof.
  induction table as [|[name code] table IH]; simpl; [reflexivity|].
  destruct (contains name q); simpl; now rewrite IH.
Qed.

End ClassifierFacts.

Section ClassifierClaims.
Import Classifier.

(** C2: for every input string, the empty one included, [_classify_query]
    returns a pair whose query type is one of the eight labels, and the
    label is ["general"] when no keyword group has a term in the lowered
    query.  Nothing in the body can raise, so the embedding is a plain
    function. *)
Theorem C2_classification_total (now : nat -> datetime) (query : string) :
  (exists query_type p,
      _classify_query now query = (query_type, p) /\
      In query_type query_types) /\
  ((forall g, In g keyword_groups -> any_in g.2 (lower query) = false) ->
   (_classify_query now query).1 = "general") /\
  (_classify_query now "").1 = "general".
Proof.
  split; [|split].
  - eexists _, _. split; [reflexivity|].
    exact (first_group_label keyword_groups (lower query)).
  - intros Hnone. cbn [_classify_query fst]. rewrite first_group_find.
    destruct (List.find _ keyword_groups) as [g|] eqn:Hfind; [|reflexivity].
    apply find_some in Hfind as [Hin Hg]. rewrite (Hnone g Hin) in Hg.
    discriminate.
  - reflexivity.
Qed.

Lemma C2_classification_total_witness :
  (_classify_query clock_2026_11_03 "hello there").1 = "general".
Proof.
  apply (proj1 (proj2 (C2_classification_total clock_2026_11_03 "hello there"))).
  intros g Hg. repeat (destruct Hg as [<- | Hg]; [reflexivity|]).
  destruct Hg.
Defined.

(** C3 (as the code has it): the team codes are those of the table entries
    whose alias is a substring of the lowered query, in table order; the
    key is absent when there is none.  For "How do the Eagles match up
    against the Chiefs" that is [KC] before [PHI]. *)
Theorem C3_team_codes_in_table_order (now : nat -> datetime) (query : string) :
  teams (_classify_query now query).2 =
    match map snd (List.filter (fun entry => contains entry.1 (lower query))
                               team_patterns) with
    | [] => None
    | found => Some found
    end /\
  teams (_classify_query now
           "How do the Eagles match up against the Chiefs").2
    = Some ["KC"; "PHI"].
Proof.
  split; [|reflexivity].
  unfold _classify_query. cbn [snd teams]. rewrite teams_found_filter.
  destruct (map snd _); reflexivity.
Qed.

(** C3 as stated fails: the example query does not yield [PHI] before
    [KC]. *)
Lemma C3_example_order_refuted :
  teams (_classify_query clock_2026_11_03
           "How do the Eagles match up against the Chiefs").2
    <> Some ["PHI"; "KC"].
Proof. vm_compute. discriminate. Qed.

(** C8: the groups are tested in the order player_rankings, matchups,
    injuries, schedule, depth_chart, standings, boxscore; the label is that
    of the first group with a term in the lowered query; so a query with a
    ranking term and an injury term is a player_rankings query. *)
Theorem C8_first_matching_group_wins (now : nat -> datetime) (query : string) :
  map fst keyword_groups =
    ["player_rankings"; "matchups"; "injuries"; "schedule"; "depth_chart";
     "standings"; "boxscore"] /\
  (_classify_query now query).1 =
    match List.find (fun g => any_in g.2 (lower query)) keyword_groups with
    | Some g => g.1
    | None => "general"
    end /\
  (forall r i,
      In r ranking_terms -> In i injury_terms ->
      contains r query = true \/ contains r (lower query) = true ->
      contains i query = true \/ contains i (lower query) = true ->
      (_classify_query now query).1 = "player_rankings").
Proof.
  split; [reflexivity|]. split; [apply first_group_find|].
  intros r i Hr _ Hcr _.
  assert (Hlow : contains r (lower query) = true).
  { destruct Hcr as [Hraw | Hlow]; [|exact Hlow].
    apply contains_lower in Hraw.
    replace (lower r) with r in Hraw; [exact Hraw|].
    repeat (destruct Hr as [<- | Hr]; [reflexivity|]). destruct Hr. }
  cbn [_classify_query fst keyword_groups first_group].
  now rewrite (any_in_true ranking_terms (lower query) r Hr Hlow).
Qed.

Lemma C8_first_matching_group_wins_witness :
  (_classify_query clock_2026_11_03
     "Is the injury a risk for his ranking").1 = "player_rankings".
Proof.
  apply (proj2 (proj2 (C8_first_matching_group_wins clock_2026_11_03
                         "Is the injury a risk for his ranking"))
           "ranking" "injury").
  - simpl; tauto.
  - simpl; tauto.
  - left; reflexivity.
  - left; reflexivity.
Defined.

(** C9 (what the code does): the query is lowered before the name pattern
    is searched, and the pattern asks for capital letters, so no query ever
    gets a [player] entry, although the pattern finds the name in the
    query as typed. *)
Theorem C9_player_never_extracted (now : nat -> datetime) (query : string) :
  player (_classify_query now query).2 = None /\
  re_search name_pattern_at "Is quarterback Patrick Mahomes playing"
    = Some "Patrick Mahomes" /\
  player (_classify_query now "Is quarterback Patrick Mahomes playing").2
    = None.
Proof.
  split; [|split; reflexivity].
  cbn [_classify_query snd player].
  apply re_search_name_no_upper, has_upper_lower.
Qed.

(** C10: keyword tests are substring tests on the lowered query.  A query
    in which "out" occurs anywhere, and no ranking or matchup term does, is
    an injuries query, whatever later-group terms it has. *)
Theorem C10_out_substring_is_injuries (now : nat -> datetime) (query : string)
  (Hout : exists pre post, lower query = pre +:+ "out" +:+ post)
  (Hearlier : forall term, In term (ranking_terms ++ matchup_terms) ->
                           contains term (lower query) = false) :
  (_classify_query now query).1 = "injuries".
Proof.
  apply contains_spec in Hout.
  assert (Hnot : forall terms, incl terms (ranking_terms ++ matchup_terms) ->
                               any_in terms (lower query) = false).
  { intros terms Hincl. unfold any_in.
    destruct (existsb _ terms) eqn:Hex; [|reflexivity].
    apply existsb_exists in Hex as [term [Hin Hc]].
    rewrite (Hearlier term (Hincl term Hin)) in Hc. discriminate. }
  cbn [_classify_query fst keyword_groups first_group].
  rewrite (Hnot ranking_terms), (Hnot matchup_terms).
  - rewrite (any_in_true injury_terms (lower query) "out");
      [reflexivity | simpl; tauto | exact Hout].
  - apply incl_appr, incl_refl.
  - apply incl_appl, incl_refl.
Qed.

Lemma C10_out_substring_is_injuries_witness :
  contains "schedule" (lower "Tell me about the Chiefs schedule and standings")
    = true /\
  (_classify_query clock_2026_11_03
     "Tell me about the Chiefs schedule and standings").1 = "injuries".
Proof.
  split; [reflexivity|].
  apply C10_out_substring_is_injuries.
  - exists "tell me ab", " the chiefs schedule and standings". reflexivity.
  - intros term Hin.
    repeat (destruct Hin as [<- | Hin]; [reflexivity|]). destruct Hin.
Defined.

End ClassifierClaims.

(** ** The summariser *)

Section SummarizerFacts.
Import Summarizer Measures.

Lemma bind_ok {A B} (m : res A) (f : A -> res B) (b : B) :
  bind m f = Ok b -> exists a, m = Ok a /\ f a = Ok b.
Proof. destruct m as [a|e]; simpl; [eauto | discriminate]. Qed.

Lemma try_except_ok {A} (body : res A) (handler : exn -> res A) (a : A) :
  try_except body handler = Ok a ->
  body = Ok a \/ exists e, body = Raise e /\ handler e = Ok a.
Proof. destruct body as [a'|e]; simpl; [now left | right; eauto]. Qed.

Lemma for_each_length {A B} (f : A -> res B) (l : list A) (l' : list B) :
  for_each f l = Ok l' -> length l' = length l.
Proof.
  revert l'; induction l as [|x l IH]; simpl; intros l' H.
  - now injection H as <-.
  - apply bind_ok in H as [y [_ H]]. apply bind_ok in H as [ys [Hys H]].
    injection H as <-. simpl. now rewrite (IH ys Hys).
Qed.

Lemma for_each_repeat {A B} (f : A -> res B) (x : A) (y : B) (n : nat) :
  f x = Ok y -> for_each f (repeat x n) = Ok (repeat y n).
Proof.
  intros Hxy. induction n as [|n IH]; simpl; [reflexivity|].
  now rewrite Hxy, IH.
Qed.

Lemma for_each_Forall {A B} (f : A -> res B) (P : B -> Prop)
  (l : list A) (l' : list B) :
  (forall x y, f x = Ok y -> P y) -> for_each f l = Ok l' -> Forall P l'.
Proof.
  intros Hf. revert l'; induction l as [|x l IH]; simpl; intros l' H.
  - injection H as <-. constructor.
  - apply bind_ok in H as [y [Hy H]]. apply bind_ok in H as [ys [Hys H]].
    injection H as <-. constructor; eauto.
Qed.

Lemma str_chars_take_length (n : nat) (s : string) :
  (length (str_chars (str_take n s)) <= n)%nat.
Proof.
  revert s; induction n as [|n IH]; intros [|c s]; simpl; try lia.
  specialize (IH s). lia.
Qed.

(** A loop over [v[:n]] runs at most [n] times. *)
Lemma slice_iter_length (n : nat) (v v' : value) (l : list value) :
  slice_to n v = Ok v' -> iter v' = Ok l -> (length l <= n)%nat.
Proof.
  destruct v; simpl; try discriminate; intros H; injection H as <-; simpl;
    intros H; injection H as <-.
  - rewrite length_fmap. apply str_chars_take_length.
  - rewrite length_take. lia.
Qed.

Lemma gets_cons (v : value) (out key : string) (dflt : value)
  (fields : list (string * (string * value))) (l : list (string * value)) :
  gets v ((out, (key, dflt)) :: fields) = Ok l ->
  exists x rest, get v key dflt = Ok x /\ gets v fields = Ok rest /\
                 l = (out, x) :: rest.
Proof.
  simpl. intros H. apply bind_ok in H as [x [Hx H]].
  apply bind_ok in H as [rest [Hrest H]]. injection H as <-. eauto.
Qed.

Lemma gets_nil (v : value) (l : list (string * value)) :
  gets v [] = Ok l -> l = [].
Proof. simpl. now intros H; injection H as <-. Qed.

(** Take a successful run of binds apart, one step per bind. *)
Ltac unbind H :=
  repeat first
    [ apply gets_nil in H as ->
    | let x := fresh "x" in let rest := fresh "rest" in
      let Hx := fresh "Hget" in let Hr := fresh "Hrest" in
      apply gets_cons in H as [x [rest [Hx [Hr ->]]]]; clear Hx;
      unbind Hr
    | let a := fresh "a" in let Ha := fresh "Ha" in
      apply bind_ok in H as [a [Ha H]] ].

Lemma injury_team_cap (team t : value) :
  injury_team_summary team = Ok t ->
  (length (entries t "injuries") <= 10)%nat.
Proof.
  unfold injury_team_summary. intros H.
  apply bind_ok in H as [head [Hhead H]]. unbind Hhead.
  apply bind_ok in H as [players [_ H]].
  apply bind_ok in H as [sliced [Hslice H]].
  apply bind_ok in H as [l [Hiter H]].
  apply bind_ok in H as [injuries [Hinj H]].
  injection H as <-. simpl.
  rewrite (for_each_length _ _ _ Hinj).
  exact (slice_iter_length _ _ _ _ Hslice Hiter).
Qed.

Lemma injury_data_cap (data summary : value) :
  _summarize_injury_data data = Ok summary ->
  (length (entries summary "teams_with_injuries") <= 10)%nat /\
  Forall (fun team => (length (entries team "injuries") <= 10)%nat)
         (entries summary "teams_with_injuries").
Proof.
  unfold _summarize_injury_data. intros H.
  apply bind_ok in H as [week [_ H]].
  apply try_except_ok in H as [H | [e [_ H]]].
  - apply bind_ok in H as [teams [_ H]].
    apply bind_ok in H as [sliced [Hslice H]].
    apply bind_ok in H as [l [Hiter H]].
    apply bind_ok in H as [summaries [Hsum H]].
    injection H as <-. simpl. split.
    + rewrite (for_each_length _ _ _ Hsum).
      exact (slice_iter_length _ _ _ _ Hslice Hiter).
    + exact (for_each_Forall _ _ _ _ injury_team_cap Hsum).
  - injection H as <-. simpl. split; [lia | constructor].
Qed.

Lemma team_injuries_cap (data summary : value) :
  _summarize_team_injuries data = Ok summary ->
  (length (entries summary "injured_players") <= 10)%nat.
Proof.
  unfold _summarize_team_injuries. intros H.
  destruct (negb (truthy data)).
  { injection H as <-. simpl. lia. }
  apply bind_ok in H as [head [Hhead H]]. unbind Hhead.
  apply try_except_ok in H as [H | [e [_ H]]].
  - apply bind_ok in H as [[] [_ H]].
    + apply bind_ok in H as [injured [Hinj H]]. injection H as <-. simpl.
      apply bind_ok in Hinj as [players [_ Hinj]].
      apply bind_ok in Hinj as [sliced [Hslice Hinj]].
      apply bind_ok in Hinj as [l [Hiter Hinj]].
      rewrite (for_each_length _ _ _ Hinj).
      exact (slice_iter_length _ _ _ _ Hslice Hiter).
    + simpl in H. injection H as <-. simpl. lia.
  - injection H as <-. simpl. lia.
Qed.

Lemma games_cap (data summary : value) :
  _summarize_games data = Ok summary ->
  exists games, summary = VList games /\ (length games <= 5)%nat.
Proof.
  unfold _summarize_games. intros H.
  destruct (negb (truthy data)).
  { injection H as <-. exists []. split; [reflexivity | simpl; lia]. }
  apply try_except_ok in H as [H | [e [_ H]]].
  - apply bind_ok in H as [sliced [Hslice H]].
    apply bind_ok in H as [l [Hiter H]].
    apply bind_ok in H as [games [Hgames H]].
    injection H as <-. exists games. split; [reflexivity|].
    rewrite (for_each_length _ _ _ Hgames).
    exact (slice_iter_length _ _ _ _ Hslice Hiter).
  - injection H as <-. eexists. split; [reflexivity | simpl; lia].
Qed.

Lemma schedule_cap (data summary : value) :
  _summarize_schedule_data data = Ok summary ->
  (length (entries summary "games") <= 10)%nat.
Proof.
  unfold _summarize_schedule_data. intros H.
  apply bind_ok in H as [head [Hhead H]]. unbind Hhead.
  apply try_except_ok in H as [H | [e [_ H]]].
  - apply bind_ok in H as [games [_ H]].
    apply bind_ok in H as [sliced [Hslice H]].
    apply bind_ok in H as [l [Hiter H]].
    apply bind_ok in H as [summaries [Hsum H]].
    injection H as <-. simpl.
    rewrite (for_each_length _ _ _ Hsum).
    exact (slice_iter_length _ _ _ _ Hslice Hiter).
  - injection H as <-. simpl. lia.
Qed.

Lemma team_profile_cap (data summary : value) :
  _summarize_team_profile data = Ok summary ->
  (length (entries summary "coaches") <= 3)%nat /\
  (length (entries summary "key_players") <= 10)%nat.
Proof.
  unfold _summarize_team_profile. intros H.
  destruct (negb (truthy data)).
  { injection H as <-. simpl. lia. }
  apply try_except_ok in H as [H | [e [_ H]]].
  - apply bind_ok in H as [info [_ H]].
    apply bind_ok in H as [has_coaches [_ H]].
    apply bind_ok in H as [coaches [Hcoaches H]].
    apply bind_ok in H as [has_players [_ H]].
    apply bind_ok in H as [key_players [Hplayers H]].
    injection H as <-. simpl. split.
    + destruct has_coaches.
      * apply bind_ok in Hcoaches as [c [_ Hcoaches]].
        apply bind_ok in Hcoaches as [sliced [Hslice Hcoaches]].
        apply bind_ok in Hcoaches as [l [Hiter Hcoaches]].
        rewrite (for_each_length _ _ _ Hcoaches).
        exact (slice_iter_length _ _ _ _ Hslice Hiter).
      * injection Hcoaches as <-. simpl. lia.
    + destruct has_players.
      * apply bind_ok in Hplayers as [pl [_ Hplayers]].
        apply bind_ok in Hplayers as [l [_ Hplayers]].
        apply bind_ok in Hplayers as [sorted [_ Hplayers]].
        rewrite (for_each_length _ _ _ Hplayers), length_take. lia.
      * injection Hplayers as <-. simpl. lia.
  - injection H as <-. simpl. lia.
Qed.

(** The conference walk keeps one summary per conference of the payload. *)
Lemma conferences_kept (fields : list (string * (string * value)))
  (data : value) (confs : list value) (summaries : list value) :
  getitem data "conferences" = Ok (VList confs) ->
  summarize_conferences fields data = Ok summaries ->
  length summaries = length confs.
Proof.
  unfold summarize_conferences. intros Hconfs H.
  apply bind_ok in H as [present [Hpresent H]].
  assert (present = true) as ->.
  { destruct data; simpl in Hconfs; try discriminate.
    simpl in Hpresent. injection Hpresent as <-.
    destruct (dict_lookup "conferences" d); [|discriminate].
    apply bool_decide_eq_true. eauto. }
  rewrite Hconfs in H. simpl in H.
  exact (for_each_length _ _ _ H).
Qed.

(** What the league walk returns for the sample payloads. *)
Lemma division_of_repeat_summary (n : nat) :
  summarize_division league_team_fields
    (VDict [("teams", VList (repeat (VDict []) n))]) =
  Ok (VDict [("name", VStr ""); ("alias", VStr "");
             ("teams", VList (repeat (VDict [("name", VStr "");
                                             ("market", VStr "");
                                             ("alias", VStr "")]) n))]).
Proof.
  unfold summarize_division. cbn -[for_each repeat].
  rewrite (for_each_repeat _ (VDict []) (VDict [("name", VStr "");
                                                 ("market", VStr "");
                                                 ("alias", VStr "")]) n);
    reflexivity.
Qed.

Lemma league_with_teams_summary (n : nat) :
  _summarize_league_structure (league_with_teams n) =
  Ok (VDict
        [("league_name", VStr "NFL");
         ("conferences",
          VList [VDict [("name", VStr ""); ("alias", VStr "");
                        ("divisions",
                         VList [VDict [("name", VStr ""); ("alias", VStr "");
                                       ("teams",
                                        VList (repeat
                                          (VDict [("name", VStr "");
                                                  ("market", VStr "");
                                                  ("alias", VStr "")]) n))]])]])]).
Proof.
  unfold _summarize_league_structure, league_with_teams.
  cbn -[summarize_division repeat].
  rewrite division_of_repeat_summary. reflexivity.
Qed.

Lemma league_named_summary (n : nat) :
  _summarize_league_structure (league_named n) =
  Ok (VDict [("league_name", VStr (str_repeat "x" n));
             ("conferences", VList [])]).
Proof. reflexivity. Qed.

Lemma str_repeat_length (c : ascii) (n : nat) :
  String.length (str_repeat c n) = n.
Proof. induction n as [|n IH]; simpl; congruence. Qed.

End SummarizerFacts.

(** ** The walk over conferences, divisions and teams *)

Section SummarizerWalk.
Import Summarizer Measures Specs.

Lemma gets_dict (d : list (string * value))
  (fields : list (string * (string * value))) :
  gets (VDict d) fields = Ok (picked d fields).
Proof.
  induction fields as [|[out [key dflt]] fields IH]; [reflexivity|].
  cbn [gets get bind]. now rewrite IH.
Qed.

Lemma for_each_map {A B} (f : A -> res B) (g : A -> B) (l : list A) :
  Forall (fun x => f x = Ok (g x)) l -> for_each f l = Ok (map g l).
Proof.
  induction 1 as [|x l Hx _ IH]; [reflexivity|].
  cbn [for_each map]. now rewrite Hx, IH.
Qed.

Lemma forallb_Forall' {A} (f : A -> bool) (P : A -> Prop) (l : list A) :
  (forall x, f x = true -> P x) -> forallb f l = true -> Forall P l.
Proof.
  intros Hf. induction l as [|x l IH]; simpl; intros H; constructor;
    apply andb_true_iff in H as [Hx Hl]; auto.
Qed.

Lemma list_at_entries (key : string) (inner : value -> bool) (v : value) :
  list_at key inner v = true ->
  exists d,
    v = VDict d /\
    (items <- get v key (VList []);; iter items)%res = Ok (entries v key) /\
    forallb inner (entries v key) = true.
Proof.
  destruct v as [| | | | | |d]; try discriminate.
  unfold list_at, entries. cbn [get bind].
  destruct (dict_lookup key d) as [[| | | | |l|]|]; try discriminate;
    intros H; exists d; auto.
Qed.

Lemma team_digest_ok (fields : list (string * (string * value)))
  (team : value) :
  is_dict team = true ->
  (t <- gets team fields;; Ok (VDict t))%res = Ok (team_digest fields team).
Proof.
  destruct team as [| | | | | |d]; try discriminate. intros _.
  now rewrite gets_dict.
Qed.

Lemma division_digest_ok (fields : list (string * (string * value)))
  (division : value) :
  well_formed_division division = true ->
  summarize_division fields division = Ok (division_digest fields division).
Proof.
  intros Hwf.
  destruct (list_at_entries _ _ _ Hwf) as (d & -> & Hteams & Hdicts).
  unfold summarize_division. rewrite gets_dict. cbn [bind].
  apply bind_ok in Hteams as [items [Hget Hiter]].
  rewrite Hget. cbn [bind]. rewrite Hiter. cbn [bind].
  rewrite (for_each_map _ (team_digest fields));
    [reflexivity|].
  eapply forallb_Forall'; [|exact Hdicts].
  intros team Hteam. now apply team_digest_ok.
Qed.

Lemma conference_digest_ok (fields : list (string * (string * value)))
  (conference : value) :
  well_formed_conference conference = true ->
  summarize_conference fields conference
  = Ok (conference_digest fields conference).
Proof.
  intros Hwf.
  destruct (list_at_entries _ _ _ Hwf) as (d & -> & Hdivs & Hdicts).
  unfold summarize_conference. rewrite gets_dict. cbn [bind].
  apply bind_ok in Hdivs as [items [Hget Hiter]].
  rewrite Hget. cbn [bind]. rewrite Hiter. cbn [bind].
  rewrite (for_each_map _ (division_digest fields));
    [reflexivity|].
  eapply forallb_Forall'; [|exact Hdicts].
  intros division. apply division_digest_ok.
Qed.

Lemma conferences_digest_ok (fields : list (string * (string * value)))
  (data : value) :
  well_formed_hierarchy data = true ->
  summarize_conferences fields data
  = Ok (map (conference_digest fields) (entries data "conferences")).
Proof.
  destruct data as [| | | | | |d]; try discriminate.
  unfold well_formed_hierarchy, list_at, summarize_conferences, entries.
  cbn [has_key getitem bind].
  destruct (dict_lookup "conferences" d) as [[| | | | |l|]|] eqn:Hconfs;
    try discriminate.
  - intros Hdicts.
    rewrite bool_decide_eq_true_2 by eauto. cbn [iter bind].
    apply for_each_map.
    eapply forallb_Forall'; [|exact Hdicts].
    intros conference. apply conference_digest_ok.
  - intros _. rewrite bool_decide_eq_false_2; [reflexivity|].
    intros [x Hx]. discriminate Hx.
Qed.

Lemma league_digest_ok (league_data : value) :
  truthy league_data = true ->
  well_formed_hierarchy league_data = true ->
  _summarize_league_structure league_data = Ok (league_digest league_data).
Proof.
  intros Htruthy Hwf. unfold _summarize_league_structure.
  rewrite Htruthy. cbn [negb].
  rewrite (conferences_digest_ok league_team_fields league_data Hwf).
  destruct league_data as [| | | | | |d]; try discriminate. reflexivity.
Qed.

Lemma standings_digest_ok (standings_data : value) :
  truthy standings_data = true ->
  well_formed_hierarchy standings_data = true ->
  is_dict (field standings_data "season" (VDict [])) = true ->
  _summarize_standings_data standings_data
  = Ok (standings_digest standings_data).
Proof.
  intros Htruthy Hwf Hseason. unfold _summarize_standings_data.
  rewrite Htruthy. cbn [negb].
  rewrite (conferences_digest_ok standings_team_fields standings_data Hwf).
  destruct standings_data as [| | | | | |d]; try discriminate.
  unfold standings_digest, field in *. cbn [get bind] in *.
  destruct (default (VDict []) (dict_lookup "season" d));
    try discriminate Hseason.
  reflexivity.
Qed.

Lemma total_ext {A} (f g : A -> nat) (l : list A) :
  (forall x, f x = g x) -> total (map f l) = total (map g l).
Proof.
  intros Hfg. induction l as [|x l IH]; simpl; [reflexivity|].
  now rewrite Hfg, IH.
Qed.

(** The digests have the conferences, divisions and teams of the payload,
    one for one. *)
Lemma digest_counts (fields : list (string * (string * value)))
  (confs : list value) (head : list (string * value)) :
  dict_lookup "conferences" head = None ->
  let summary :=
    VDict (head ++ [("conferences",
                     VList (map (conference_digest fields) confs))]) in
  length (entries summary "conferences") = length confs /\
  total (map (fun c => length (entries c "divisions"))
             (entries summary "conferences"))
  = total (map (fun c => length (entries c "divisions")) confs) /\
  total (map teams_of_conference (entries summary "conferences"))
  = total (map teams_of_conference confs).
Proof.
  intros Hhead summary.
  assert (Hentries : entries summary "conferences"
                     = map (conference_digest fields) confs).
  { unfold summary, entries.
    induction head as [|[k v] head IH]; [reflexivity|].
    cbn [app dict_lookup] in *.
    destruct (String.eqb "conferences" k); [discriminate Hhead|].
    now apply IH. }
  rewrite Hentries, length_map, !map_map.
  split; [reflexivity|]. split; apply total_ext; intros c.
  - unfold conference_digest, entries. cbn. now rewrite length_map.
  - unfold teams_of_conference, conference_digest.
    change (entries (VDict _) "divisions")
      with (map (division_digest fields) (entries c "divisions")).
    rewrite map_map. apply total_ext. intros dv.
    unfold division_digest, entries. cbn. now rewrite length_map.
Qed.

End SummarizerWalk.

Section SummarizerClaims.
Import Summarizer Measures Specs.

(** C5 as stated fails: no constant bounds the lists, nor the strings, of
    the league-structure block over all payloads. *)
Lemma C5_league_block_unbounded :
  (~ exists N : nat, forall league_data summary,
        _summarize_league_structure league_data = Ok summary ->
        (widest_list summary <= N)%nat) /\
  (~ exists N : nat, forall league_data summary,
        _summarize_league_structure league_data = Ok summary ->
        (longest_string summary <= N)%nat).
Proof.
  split; intros [N H].
  - specialize (H _ _ (league_with_teams_summary (S N))).
    cbn -[repeat Nat.max] in H. rewrite repeat_length in H. lia.
  - specialize (H _ _ (league_named_summary (S N))).
    cbn -[str_repeat Nat.max String.length] in H.
    rewrite str_repeat_length in H. lia.
Qed.

(** C5 (as the code has it): the injury report keeps at most 10 teams with
    at most 10 players each, a team's injuries at most 10 players, a game
    list at most 5 games, the schedule at most 10 games, a team profile at
    most 3 coaches and 10 players.  The league-structure and standings
    blocks are not capped: on a payload whose conferences, divisions and
    teams are lists of dictionaries they are the digests that keep one
    entry per conference, per division and per team, so they have as many
    conferences, divisions and teams as the payload, and the strings they
    keep are copied as they are. *)
Theorem C5_capped_blocks (data summary : value) :
  (_summarize_injury_data data = Ok summary ->
   (length (entries summary "teams_with_injuries") <= 10)%nat /\
   Forall (fun team => (length (entries team "injuries") <= 10)%nat)
          (entries summary "teams_with_injuries")) /\
  (_summarize_team_injuries data = Ok summary ->
   (length (entries summary "injured_players") <= 10)%nat) /\
  (_summarize_games data = Ok summary ->
   exists games, summary = VList games /\ (length games <= 5)%nat) /\
  (_summarize_schedule_data data = Ok summary ->
   (length (entries summary "games") <= 10)%nat) /\
  (_summarize_team_profile data = Ok summary ->
   (length (entries summary "coaches") <= 3)%nat /\
   (length (entries summary "key_players") <= 10)%nat) /\
  (forall fields confs summaries,
      getitem data "conferences" = Ok (VList confs) ->
      summarize_conferences fields data = Ok summaries ->
      length summaries = length confs) /\
  (forall n, exists league,
      _summarize_league_structure (league_with_teams n) = Ok league /\
      (n <= widest_list league)%nat) /\
  (forall s,
      _summarize_league_structure (VDict [("name", VStr s)]) =
      Ok (VDict [("league_name", VStr s); ("conferences", VList [])])) /\
  (* the league-structure block of a well-formed payload *)
  (truthy data = true -> well_formed_hierarchy data = true ->
   _summarize_league_structure data = Ok (league_digest data)) /\
  (length (entries (league_digest data) "conferences")
   = length (entries data "conferences") /\
   divisions_in (league_digest data) = divisions_in data /\
   teams_in (league_digest data) = teams_in data) /\
  (* the standings block of a well-formed payload *)
  (truthy data = true -> well_formed_hierarchy data = true ->
   is_dict (field data "season" (VDict [])) = true ->
   _summarize_standings_data data = Ok (standings_digest data)) /\
  (length (entries (standings_digest data) "conferences")
   = length (entries data "conferences") /\
   divisions_in (standings_digest data) = divisions_in data /\
   teams_in (standings_digest data) = teams_in data) /\
  (* strings of any length are copied *)
  (forall name market alias : string,
      _summarize_league_structure
        (one_team (VDict [("name", VStr name); ("market", VStr market);
                          ("alias", VStr alias)])) =
      Ok (VDict
            [("league_name", VStr "NFL");
             ("conferences",
              VList [VDict
                [("name", VStr ""); ("alias", VStr "");
                 ("divisions",
                  VList [VDict
                    [("name", VStr ""); ("alias", VStr "");
                     ("teams",
                      VList [VDict [("name", VStr name);
                                    ("market", VStr market);
                                    ("alias", VStr alias)]])]])]])])) /\
  (forall name alias : string,
      _summarize_standings_data
        (one_team (VDict [("name", VStr name); ("alias", VStr alias)])) =
      Ok (VDict
            [("season", VStr "");
             ("conferences",
              VList [VDict
                [("name", VStr ""); ("alias", VStr "");
                 ("divisions",
                  VList [VDict
                    [("name", VStr ""); ("alias", VStr "");
                     ("teams",
                      VList [VDict [("name", VStr name);
                                    ("alias", VStr alias);
                                    ("wins", VInt 0); ("losses", VInt 0);
                                    ("ties", VInt 0); ("win_pct", VInt 0);
                                    ("points_for", VInt 0);
                                    ("points_against", VInt 0)]])]])]])])).
Proof.
  split; [exact (injury_data_cap data summary)|].
  split; [exact (team_injuries_cap data summary)|].
  split; [exact (games_cap data summary)|].
  split; [exact (schedule_cap data summary)|].
  split; [exact (team_profile_cap data summary)|].
  split; [intros fields confs summaries; apply conferences_kept|].
  split.
  { intros n. eexists. split; [apply league_with_teams_summary|].
    cbn -[repeat Nat.max]. rewrite repeat_length. lia. }
  split; [reflexivity|].
  split; [exact (league_digest_ok data)|].
  split.
  { exact (digest_counts league_team_fields (entries data "conferences")
             [("league_name", field data "name" (VStr "NFL"))] eq_refl). }
  split; [exact (standings_digest_ok data)|].
  split.
  { exact (digest_counts standings_team_fields (entries data "conferences")
             [("season",
               field (field data "season" (VDict [])) "year" (VStr ""))]
             eq_refl). }
  split; reflexivity.
Qed.

Lemma C5_capped_blocks_witness :
  match _summarize_injury_data injury_report_sample with
  | Ok summary =>
      (length (entries summary "teams_with_injuries") <= 10)%nat
  | Raise _ => False
  end.
Proof.
  destruct (_summarize_injury_data injury_report_sample) as [summary|e] eqn:H.
  - exact (proj1 (proj1 (C5_capped_blocks injury_report_sample summary) H)).
  - vm_compute in H. discriminate H.
Defined.

(** C6: each block summariser returns, for the empty dictionary (the empty
    list for the game list), a value and no exception: the empty
    dictionary or list, or the structure with its default fields. *)
Theorem C6_summarizers_on_empty_input :
  _summarize_league_structure (VDict []) = Ok (VDict []) /\
  _summarize_team_profile (VDict []) = Ok (VDict []) /\
  _summarize_team_injuries (VDict []) = Ok (VDict []) /\
  _summarize_games (VList []) = Ok (VList []) /\
  _summarize_standings_data (VDict []) = Ok (VDict []) /\
  _summarize_schedule_data (VDict []) =
    Ok (VDict [("year", VStr ""); ("type", VStr ""); ("games", VList [])]) /\
  _summarize_injury_data (VDict []) =
    Ok (VDict [("week", VStr ""); ("teams_with_injuries", VList [])]) /\
  _summarize_boxscore (VDict []) =
    Ok (VDict [("id", VStr ""); ("status", VStr ""); ("scheduled", VStr "");
               ("home", VDict [("name", VStr ""); ("alias", VStr "");
                               ("points", VInt 0); ("scoring", VList []);
                               ("statistics", VDict [])]);
               ("away", VDict [("name", VStr ""); ("alias", VStr "");
                               ("points", VInt 0); ("scoring", VList []);
                               ("statistics", VDict [])])]) /\
  _extract_key_stats (VDict []) = Ok (VDict []).
Proof. repeat split. Qed.

End SummarizerClaims.

(** ** Sorting *)

Section SortFacts.
Import Measures.

Lemma str_ltb_irrefl (a : string) : str_ltb a a = false.
Proof.
  induction a as [|x a IH]; simpl; [reflexivity|].
  now rewrite Nat.ltb_irrefl.
Qed.

Lemma str_ltb_trans (a b c : string) :
  str_ltb a b = true -> str_ltb b c = true -> str_ltb a c = true.
Proof.
  revert b c; induction a as [|x a IH]; intros [|y b] [|z c]; simpl;
    try easy.
  destruct (Nat.ltb_spec (nat_of_ascii x) (nat_of_ascii y)),
           (Nat.ltb_spec (nat_of_ascii y) (nat_of_ascii x)),
           (Nat.ltb_spec (nat_of_ascii y) (nat_of_ascii z)),
           (Nat.ltb_spec (nat_of_ascii z) (nat_of_ascii y)),
           (Nat.ltb_spec (nat_of_ascii x) (nat_of_ascii z)),
           (Nat.ltb_spec (nat_of_ascii z) (nat_of_ascii x));
    try easy; try lia.
  apply IH.
Qed.

Lemma str_ltb_asym (a b : string) :
  str_ltb a b = true -> str_ltb b a = false.
Proof.
  intros Hab. destruct (str_ltb b a) eqn:Hba; [|reflexivity].
  pose proof (str_ltb_trans a b a Hab Hba) as H.
  now rewrite str_ltb_irrefl in H.
Qed.

Lemma insert_desc (kx : value * value) (placed : list (value * value)) :
  keyed_ok kx -> Forall keyed_ok placed ->
  exists placed',
    insert_by (fun a b => py_lt b a) kx placed = Ok placed' /\
    Permutation (kx :: placed) placed' /\
    (StronglySorted keyed_not_after placed ->
     StronglySorted keyed_not_after placed').
Proof.
  intros Hkx. induction placed as [|ky rest IH]; intros Hplaced.
  - exists [kx]. repeat split; [reflexivity|].
    intros _. repeat constructor.
  - inversion Hplaced as [|? ? Hky Hrest]; subst.
    cbn [insert_by]. rewrite Hkx, Hky. cbn [py_lt as_number bind].
    destruct (str_ltb (scheduled_of ky.2) (scheduled_of kx.2)) eqn:Hlt.
    + exists (kx :: ky :: rest). repeat split; [reflexivity|].
      intros Hsorted. constructor; [exact Hsorted|].
      apply StronglySorted_inv in Hsorted as [_ Hall].
      constructor.
      * now apply str_ltb_asym.
      * eapply Forall_impl; [exact Hall|]. intros z Hz.
        unfold keyed_not_after, not_after in *.
        destruct (str_ltb (scheduled_of kx.2) (scheduled_of z.2)) eqn:Hxz;
          [|reflexivity].
        now rewrite (str_ltb_trans _ _ _ Hlt Hxz) in Hz.
    + destruct (IH Hrest) as [rest' [Hins [Hperm Hsort]]].
      rewrite Hins. exists (ky :: rest'). repeat split.
      * rewrite perm_swap. now apply perm_skip.
      * intros Hsorted. apply StronglySorted_inv in Hsorted as [Hs Hall].
        constructor; [now apply Hsort|].
        eapply Permutation_Forall; [exact Hperm|].
        constructor; [exact Hlt | exact Hall].
Qed.

Lemma sort_keyed_desc (todo placed : list (value * value)) :
  Forall keyed_ok placed -> Forall keyed_ok todo ->
  exists sorted,
    sort_keyed (fun a b => py_lt b a) placed todo = Ok sorted /\
    Permutation (placed ++ todo) sorted /\
    (StronglySorted keyed_not_after placed ->
     StronglySorted keyed_not_after sorted).
Proof.
  revert placed; induction todo as [|kx todo IH]; intros placed Hp Ht.
  - exists placed. rewrite app_nil_r. now repeat split.
  - inversion Ht as [|? ? Hkx Htodo]; subst.
    destruct (insert_desc kx placed Hkx Hp) as [placed' [Hins [Hperm Hsort]]].
    cbn [sort_keyed]. rewrite Hins. cbn [bind].
    assert (Hp' : Forall keyed_ok placed').
    { eapply Permutation_Forall; [exact Hperm|]. now constructor. }
    destruct (IH placed' Hp' Htodo) as [sorted [Hrun [Hperm' Hsort']]].
    exists sorted. repeat split; [exact Hrun | | auto].
    rewrite <- Hperm', <- Hperm. symmetry. apply Permutation_middle.
Qed.

Lemma keys_of_games (l : list value) :
  Forall (fun g => well_formed_game g = true) l ->
  for_each (fun x => k <- get x "scheduled" (VStr "");; Ok (k, x)) l =
  Ok (map (fun x => (VStr (scheduled_of x), x)) l).
Proof.
  induction 1 as [|g l Hg _ IH]; [reflexivity|].
  cbn [for_each map]. rewrite IH.
  destruct g as [| | | | | |d]; try discriminate Hg.
  unfold scheduled_of. simpl in Hg |- *.
  destruct (dict_lookup "scheduled" d) as [[]|]; simpl;
    try reflexivity; now rewrite andb_false_r in Hg.
Qed.

Lemma StronglySorted_snd (l : list (value * value)) :
  StronglySorted keyed_not_after l -> StronglySorted not_after (map snd l).
Proof.
  induction 1 as [|kx l _ IH Hall]; simpl; constructor; [exact IH|].
  apply Forall_map. exact Hall.
Qed.

(** Sorting well-formed games by [scheduled] with [reverse=True] succeeds
    and returns them rearranged in descending timestamp order. *)
Lemma sorted_desc_scheduled (l : list value) :
  Forall (fun g => well_formed_game g = true) l ->
  exists sorted,
    sorted_desc (fun g => get g "scheduled" (VStr "")) l = Ok sorted /\
    Permutation l sorted /\ StronglySorted not_after sorted.
Proof.
  intros Hl. unfold sorted_desc, sort_with.
  rewrite (keys_of_games l Hl). cbn [bind].
  destruct (sort_keyed_desc (map (fun x => (VStr (scheduled_of x), x)) l) [])
    as [sorted [Hrun [Hperm Hsort]]].
  - constructor.
  - apply Forall_map. apply Forall_forall. intros x _. reflexivity.
  - rewrite Hrun. cbn [bind]. exists (snd <$> sorted). repeat split.
    + simpl in Hperm. apply (Permutation_map snd) in Hperm.
      rewrite map_map, map_id in Hperm. exact Hperm.
    + apply StronglySorted_snd, Hsort. constructor.
Qed.

End SortFacts.

(** ** The aggregator *)

Section AggregatorFacts.
Import Classifier ApiClient Aggregator Measures.

Variable backend : list endpoint -> endpoint -> http_result.
Variable str_of_exn : exn -> string.

Lemma get_response (ep : endpoint) (log : list endpoint) (body : value) :
  backend log ep = Response body ->
  _get backend ep log = (Ok body, log ++ [ep]).
Proof. unfold _get. now intros ->. Qed.

Lemma get_failure (ep : endpoint) (log : list endpoint) :
  (forall body, backend log ep <> Response body) ->
  exists e, _get backend ep log = (Raise e, log ++ [ep]).
Proof.
  unfold _get. intros Hfail.
  destruct (backend log ep) as [body| |]; [now destruct (Hfail body)| |];
    eexists; reflexivity.
Qed.

Lemma io_bind_ok {A B} (m : io A) (k : A -> io B) (log log' : list endpoint)
  (a : A) :
  m log = (Ok a, log') -> io_bind m k log = k a log'.
Proof. unfold io_bind. now intros ->. Qed.

Lemma io_bind_raise {A B} (m : io A) (k : A -> io B)
  (log log' : list endpoint) (e : exn) :
  m log = (Raise e, log') -> io_bind m k log = (Raise e, log').
Proof. unfold io_bind. now intros ->. Qed.

(** The profile loop: a failed fetch leaves the dictionary as it is, and
    the loop goes on with the next code. *)
Lemma fetch_team_profiles_step (team_code : string) (codes : list string)
  (team_profiles : list (string * value)) (log : list endpoint) :
  fetch_team_profiles backend (team_code :: codes) team_profiles log =
  fetch_team_profiles backend codes
    (match backend log (TeamProfile team_code) with
     | Response profile => dict_set team_code profile team_profiles
     | _ => team_profiles
     end)
    (log ++ [TeamProfile team_code]).
Proof.
  cbn [fetch_team_profiles].
  unfold io_bind at 1, io_try, io_bind, get_team_profile, _get, io_ret.
  destruct (backend log (TeamProfile team_code)); reflexivity.
Qed.

Lemma fetch_team_profiles_total (codes : list string)
  (team_profiles : list (string * value)) (log : list endpoint) :
  exists profiles,
    fetch_team_profiles backend codes team_profiles log =
    (Ok profiles, log ++ map TeamProfile codes).
Proof.
  revert team_profiles log; induction codes as [|c codes IH];
    intros team_profiles log.
  - exists team_profiles. simpl. now rewrite app_nil_r.
  - rewrite fetch_team_profiles_step.
    destruct (IH (match backend log (TeamProfile c) with
                  | Response profile => dict_set c profile team_profiles
                  | _ => team_profiles
                  end) (log ++ [TeamProfile c])) as [profiles Hrun].
    exists profiles. rewrite Hrun. simpl. now rewrite <- app_assoc.
Qed.

Lemma well_formed_aliases (game : value) :
  well_formed_game game = true ->
  home_away_alias game = Ok (alias_of game "home", alias_of game "away").
Proof.
  destruct game as [| | | | | |d]; try discriminate.
  unfold well_formed_game, side_ok, home_away_alias, alias_of. simpl.
  destruct (dict_lookup "home" d) as [[]|]; simpl; try discriminate;
    destruct (dict_lookup "away" d) as [[]|]; simpl; try discriminate;
    reflexivity.
Qed.

(** The game loop is a filter of the schedule's games. *)
Lemma games_involving_filter (team_codes : list string) (games : list value) :
  Forall (fun g => well_formed_game g = true) games ->
  games_involving team_codes games =
  Ok (List.filter (involves team_codes) games).
Proof.
  induction 1 as [|g games Hg _ IH]; [reflexivity|].
  cbn [games_involving List.filter].
  rewrite (well_formed_aliases g Hg), IH. cbn [bind fst snd].
  unfold involves. now destruct (_ || _).
Qed.

Lemma filter_well_formed (f : value -> bool) (games : list value) :
  Forall (fun g => well_formed_game g = true) games ->
  Forall (fun g => well_formed_game g = true) (List.filter f games).
Proof.
  induction 1 as [|g games Hg _ IH]; simpl; [constructor|].
  destruct (f g); [now constructor | exact IH].
Qed.

(** The boxscore branch on a schedule of well-formed games. *)
Lemma fetch_body_boxscore (p : params) (ts : list string)
  (log : list endpoint) (sched : value) (games : list value) :
  teams p = Some ts -> ts <> [] ->
  backend log (Schedule (default "2023" (year p))
                        (default "REG" (season_type p))) = Response sched ->
  (gv <- get sched "games" (VList []);; iter gv)%res = Ok games ->
  Forall (fun g => well_formed_game g = true) games ->
  exists sorted,
    Permutation (List.filter (involves ts) games) sorted /\
    StronglySorted not_after sorted /\
    fetch_body backend "boxscore" p log =
      let log1 := log ++ [Schedule (default "2023" (year p))
                                   (default "REG" (season_type p))] in
      let base :=
        [("query_type", VStr "boxscore");
         ("metadata", VDict [("year", VStr (default "2023" (year p)));
                             ("season_type",
                              VStr (default "REG" (season_type p)));
                             ("week", VStr (default "1" (week p)))]);
         ("schedule", sched)] in
      match sorted with
      | [] => (Ok (VDict base), log1)
      | g :: _ =>
          let combined := base ++ [("relevant_games", VList (take 2 sorted))] in
          if truthy (id_of g) then
            (Ok (VDict (match backend log1 (GameBoxscore (id_of g)) with
                        | Response boxscore =>
                            combined ++ [("boxscore", boxscore)]
                        | _ => combined
                        end)),
             log1 ++ [GameBoxscore (id_of g)])
          else (Ok (VDict combined), log1)
      end.
Proof.
  intros Hteams Hne Hsched Hgames Hwf.
  pose proof (filter_well_formed (involves ts) games Hwf) as Hwf'.
  destruct (sorted_desc_scheduled _ Hwf') as [sorted [Hsort [Hperm Hdesc]]].
  exists sorted. split; [exact Hperm|]. split; [exact Hdesc|].
  unfold fetch_body. rewrite Hteams. cbn [default String.eqb Ascii.eqb Bool.eqb].
  destruct ts as [|t ts]; [now destruct Hne|].
  unfold get_schedule.
  rewrite (io_bind_ok _ _ _ _ _ (get_response _ _ _ Hsched)).
  apply bind_ok in Hgames as [gv [Hgv Hiter]].
  cbn [id]. unfold io_bind at 1, pure at 1.
  rewrite Hgv. cbn [bind]. rewrite Hiter. cbn [bind].
  rewrite (games_involving_filter _ _ Hwf).
  destruct (List.filter (involves (t :: ts)) games) as [|r rel] eqn:Hfilter.
  - apply Permutation_nil in Hperm as ->. reflexivity.
  - destruct sorted as [|g sorted].
    { apply Permutation_sym, Permutation_nil in Hperm. discriminate. }
    unfold io_bind at 1, pure at 1. rewrite Hsort.
    assert (Hg : well_formed_game g = true).
    { eapply Permutation_Forall in Hwf'; [|exact Hperm].
      now inversion Hwf'. }
    destruct g as [| | | | | |d]; try discriminate Hg.
    unfold io_try, io_bind, pure, id_of, get_game_boxscore, _get, io_ret.
    cbn [get].
    destruct (truthy (default VNone (dict_lookup "id" d))); [|reflexivity].
    destruct (backend _ (GameBoxscore _)); reflexivity.
Qed.

(** [_fetch_relevant_data] never raises: its handler turns whatever the
    body raises into the error dictionary. *)
Lemma fetch_relevant_data_cases (query_type : string) (p : params)
  (log : list endpoint) :
  (exists d log', fetch_body backend query_type p log = (Ok d, log') /\
                  _fetch_relevant_data backend str_of_exn query_type p log
                    = (Ok d, log')) \/
  (exists e log', fetch_body backend query_type p log = (Raise e, log') /\
                  _fetch_relevant_data backend str_of_exn query_type p log
                    = (Ok (VDict [("error", VStr (str_of_exn e));
                                  ("query_type", VStr query_type)]), log')).
Proof.
  unfold _fetch_relevant_data, io_try.
  destruct (fetch_body backend query_type p log) as [[d|e] log'];
    [left | right]; eauto.
Qed.

(** One always-fetched call fails after the ones before it succeeded. *)
Ltac call_fails He :=
  rewrite <- ?app_assoc; simpl in He |- *; rewrite ?app_nil_r in He;
  exact (io_bind_raise _ _ _ _ _ He).

Ltac call_succeeds Hbefore i :=
  let body := fresh "body" in
  let Hb := fresh "Hb" in
  match goal with
  | |- io_bind (_get _ ?ep) _ _ = _ =>
      destruct (Hbefore i ep eq_refl) as [body Hb]
  end;
  simpl in Hb; rewrite ?app_nil_r in Hb;
  rewrite (io_bind_ok _ _ _ _ _ (get_response _ _ _ Hb)).

Lemma always_fetched_failure (query_type : string) (p : params)
  (log pre post : list endpoint) (ep : endpoint) :
  always_fetched query_type (default "2023" (year p))
    (default "REG" (season_type p)) (default "1" (week p))
    = pre ++ ep :: post ->
  (forall i ep', pre !! i = Some ep' ->
                 exists body, backend (log ++ take i pre) ep' = Response body) ->
  (forall body, backend (log ++ pre) ep <> Response body) ->
  exists e,
    _get backend ep (log ++ pre) = (Raise e, log ++ pre ++ [ep]) /\
    fetch_body backend query_type p log = (Raise e, log ++ pre ++ [ep]).
Proof.
  intros Hplan Hbefore Hfail.
  destruct (get_failure _ _ Hfail) as [e He]. exists e.
  rewrite <- app_assoc in He. split; [exact He|].
  unfold always_fetched in Hplan. unfold fetch_body.
  unfold get_teams, get_standings, get_schedule, get_weekly_injuries.
  repeat match type of Hplan with
         | (if ?c then _ else _) = _ => destruct c
         end;
    destruct pre as [|e1 [|e2 [|e3 pre]]]; simpl in Hplan;
    inversion Hplan; subst; try (now destruct pre);
    first [ call_fails He
          | call_succeeds Hbefore 0%nat; call_fails He
          | call_succeeds Hbefore 0%nat; call_succeeds Hbefore 1%nat;
            call_fails He ].
Qed.

Lemma io_bind_inv {A B} (m : io A) (k : A -> io B)
  (log log' : list endpoint) (b : B) :
  io_bind m k log = (Ok b, log') ->
  exists a log1, m log = (Ok a, log1) /\ k a log1 = (Ok b, log').
Proof.
  unfold io_bind. destruct (m log) as [[a|e] log1]; [eauto | discriminate].
Qed.

Lemma io_try_inv {A} (body : io A) (handler : exn -> io A)
  (log log' : list endpoint) (a : A) :
  io_try body handler log = (Ok a, log') ->
  body log = (Ok a, log') \/
  exists e log1, body log = (Raise e, log1) /\ handler e log1 = (Ok a, log').
Proof.
  unfold io_try. destruct (body log) as [[a'|e] log1]; [now left|].
  right; eauto.
Qed.

(** Take a successful run of the body apart down to its [return]. *)
Ltac io_inv H :=
  repeat match type of H with
    | io_bind _ _ _ = (Ok _, _) =>
        let a := fresh "a" in
        let log1 := fresh "log" in
        let Ha := fresh "Ha" in
        apply io_bind_inv in H as (a & log1 & Ha & H)
    | io_try _ _ _ = (Ok _, _) =>
        let e := fresh "e" in
        let log1 := fresh "log" in
        let He := fresh "He" in
        apply io_try_inv in H as [H | (e & log1 & He & H)]
    | (if ?c then _ else _) _ = _ => destruct c
    | (match ?l with [] => _ | _ :: _ => _ end) _ = _ => destruct l
    | io_ret _ _ = (Ok _, _) => injection H as <- <-
    end.

(** Whatever the body returns is the combined dictionary, which still
    has its query type and metadata. *)
Lemma fetch_body_returns (query_type : string) (p : params)
  (log log' : list endpoint) (v : value) :
  fetch_body backend query_type p log = (Ok v, log') ->
  exists d,
    v = VDict d /\
    dict_lookup "query_type" d = Some (VStr query_type) /\
    dict_lookup "metadata" d =
      Some (VDict [("year", VStr (default "2023" (year p)));
                   ("season_type", VStr (default "REG" (season_type p)));
                   ("week", VStr (default "1" (week p)))]).
Proof.
  unfold fetch_body. intros H. io_inv H; eexists; repeat split.
Qed.

End AggregatorFacts.

(** The branches that fetch team profiles *)

Lemma dict_lookup_set (k k' : string) (v : value) (d : list (string * value)) :
  dict_lookup k (dict_set k' v d) =
  if String.eqb k k' then Some v else dict_lookup k d.
Proof.
  induction d as [|[k0 v0] d IH]; simpl.
  - reflexivity.
  - destruct (String.eqb_spec k' k0) as [-> | Hne]; simpl.
    + now destruct (String.eqb k k0).
    + rewrite IH. destruct (String.eqb_spec k k0) as [-> | Hne'];
        [|reflexivity].
      destruct (String.eqb_spec k0 k'); [congruence | reflexivity].
Qed.

Section AggregatorBranches.
Import Classifier ApiClient Aggregator Measures.

Variable backend : list endpoint -> endpoint -> http_result.

Lemma fetch_team_profiles_sound (codes : list string)
  (acc profiles : list (string * value)) (log log' : list endpoint) :
  fetch_team_profiles backend codes acc log = (Ok profiles, log') ->
  forall c v,
    dict_lookup c profiles = Some v ->
    dict_lookup c acc = Some v \/
    exists i, codes !! i = Some c /\
              backend (log ++ map TeamProfile (take i codes)) (TeamProfile c)
              = Response v.
Proof.
  revert acc log; induction codes as [|c0 codes IH]; intros acc log Hrun c v Hc.
  - cbn in Hrun. injection Hrun as <- _. now left.
  - rewrite fetch_team_profiles_step in Hrun.
    destruct (IH _ _ Hrun c v Hc) as [Hacc | (i & Hi & Hresp)].
    + destruct (backend log (TeamProfile c0)) as [profile| |] eqn:Hb;
        try (now left).
      rewrite dict_lookup_set in Hacc.
      destruct (String.eqb_spec c c0) as [-> | _]; [|now left].
      injection Hacc as ->. right. exists 0%nat. split; [reflexivity|].
      simpl. now rewrite app_nil_r.
    + right. exists (S i). split; [exact Hi|].
      simpl. now rewrite <- app_assoc in Hresp.
Qed.

(** The matchups branch on a schedule of well-formed games. *)
Lemma fetch_body_matchups (p : params) (ts : list string)
  (log : list endpoint) (sched : value) (games : list value) :
  teams p = Some ts -> ts <> [] ->
  backend log (Schedule (default "2023" (year p))
                        (default "REG" (season_type p))) = Response sched ->
  (gv <- get sched "games" (VList []);; iter gv)%res = Ok games ->
  Forall (fun g => well_formed_game g = true) games ->
  exists profiles,
    fetch_team_profiles backend (take 2 ts) []
      (log ++ [Schedule (default "2023" (year p))
                        (default "REG" (season_type p))])
    = (Ok profiles,
       (log ++ [Schedule (default "2023" (year p))
                         (default "REG" (season_type p))])
       ++ map TeamProfile (take 2 ts)) /\
    fetch_body backend "matchups" p log =
    (Ok (VDict
           [("query_type", VStr "matchups");
            ("metadata", VDict [("year", VStr (default "2023" (year p)));
                                ("season_type",
                                 VStr (default "REG" (season_type p)));
                                ("week", VStr (default "1" (week p)))]);
            ("schedule", sched);
            ("relevant_games", VList (List.filter (involves ts) games));
            ("team_profiles", VDict profiles)]),
     (log ++ [Schedule (default "2023" (year p))
                       (default "REG" (season_type p))])
     ++ map TeamProfile (take 2 ts)).
Proof.
  intros Hteams Hne Hsched Hgames Hwf.
  destruct (fetch_team_profiles_total backend (take 2 ts) []
              (log ++ [Schedule (default "2023" (year p))
                                (default "REG" (season_type p))]))
    as [profiles Hprofiles].
  exists profiles. split; [exact Hprofiles|].
  unfold fetch_body. rewrite Hteams.
  cbn [default String.eqb Ascii.eqb Bool.eqb].
  destruct ts as [|t ts]; [now destruct Hne|].
  unfold get_schedule.
  rewrite (io_bind_ok _ _ _ _ _ (get_response _ _ _ _ Hsched)).
  apply bind_ok in Hgames as [gv [Hgv Hiter]].
  cbn [id]. unfold io_bind at 1, pure at 1.
  cbn [dict_set String.eqb Ascii.eqb Bool.eqb get dict_lookup default bind id].
  rewrite Hgv. cbn [bind]. rewrite Hiter. cbn [bind].
  rewrite (games_involving_filter _ _ Hwf).
  unfold io_bind. rewrite Hprofiles. reflexivity.
Qed.

(** A team has an entry as soon as one of its requests is answered. *)
Lemma fetch_team_profiles_complete (codes : list string)
  (acc profiles : list (string * value)) (log log' : list endpoint) :
  fetch_team_profiles backend codes acc log = (Ok profiles, log') ->
  forall c,
    (is_Some (dict_lookup c acc) \/
     exists i v, codes !! i = Some c /\
                 backend (log ++ map TeamProfile (take i codes))
                         (TeamProfile c) = Response v) ->
    is_Some (dict_lookup c profiles).
Proof.
  revert acc log; induction codes as [|c0 codes IH]; intros acc log Hrun c Hc.
  - cbn in Hrun. injection Hrun as <- _.
    destruct Hc as [Hacc | (i & v & Hi & _)]; [exact Hacc|].
    destruct i; discriminate Hi.
  - rewrite fetch_team_profiles_step in Hrun.
    apply (IH _ _ Hrun c).
    destruct Hc as [Hacc | (i & v & Hi & Hresp)].
    + left. destruct (backend log (TeamProfile c0)); try exact Hacc.
      rewrite dict_lookup_set. destruct (String.eqb c c0); eauto.
    + destruct i as [|i].
      * injection Hi as ->. simpl in Hresp. rewrite app_nil_r in Hresp.
        left. rewrite Hresp, dict_lookup_set, String.eqb_refl. eauto.
      * right. exists i, v. split; [exact Hi|].
        simpl in Hresp. now rewrite <- app_assoc.
Qed.

(** The player-rankings branch with team codes. *)
Lemma fetch_body_player_rankings (p : params) (ts : list string)
  (log : list endpoint) (league standings : value) :
  teams p = Some ts -> ts <> [] ->
  backend log Teams = Response league ->
  backend (log ++ [Teams])
          (Standings (default "2023" (year p))
                     (default "REG" (season_type p))) = Response standings ->
  exists profiles,
    fetch_team_profiles backend (take 2 ts) []
      (log ++ [Teams; Standings (default "2023" (year p))
                                (default "REG" (season_type p))])
    = (Ok profiles,
       (log ++ [Teams; Standings (default "2023" (year p))
                                 (default "REG" (season_type p))])
       ++ map TeamProfile (take 2 ts)) /\
    fetch_body backend "player_rankings" p log =
    (Ok (VDict
           [("query_type", VStr "player_rankings");
            ("metadata", VDict [("year", VStr (default "2023" (year p)));
                                ("season_type",
                                 VStr (default "REG" (season_type p)));
                                ("week", VStr (default "1" (week p)))]);
            ("league", league); ("standings", standings);
            ("team_profiles", VDict profiles)]),
     (log ++ [Teams; Standings (default "2023" (year p))
                               (default "REG" (season_type p))])
     ++ map TeamProfile (take 2 ts)).
Proof.
  intros Hteams Hne Hleague Hstandings.
  destruct (fetch_team_profiles_total backend (take 2 ts) []
              (log ++ [Teams; Standings (default "2023" (year p))
                                        (default "REG" (season_type p))]))
    as [profiles Hprofiles].
  exists profiles. split; [exact Hprofiles|].
  unfold fetch_body. rewrite Hteams.
  cbn [default String.eqb Ascii.eqb Bool.eqb].
  destruct ts as [|t ts]; [now destruct Hne|].
  unfold get_teams, get_standings.
  rewrite (io_bind_ok _ _ _ _ _ (get_response _ _ _ _ Hleague)).
  rewrite (io_bind_ok _ _ _ _ _ (get_response _ _ _ _ Hstandings)).
  rewrite <- app_assoc. cbn [app id].
  unfold io_bind. rewrite Hprofiles. reflexivity.
Qed.

(** The depth-chart branch: the first two codes, or KC and SF. *)
Lemma fetch_body_depth_chart (p : params) (log : list endpoint)
  (league : value) :
  backend log Teams = Response league ->
  let codes := match default [] (teams p) with
               | [] => ["KC"; "SF"]
               | t :: ts => take 2 (t :: ts)
               end in
  exists profiles,
    fetch_team_profiles backend codes [] (log ++ [Teams])
    = (Ok profiles, (log ++ [Teams]) ++ map TeamProfile codes) /\
    fetch_body backend "depth_chart" p log =
    (Ok (VDict
           [("query_type", VStr "depth_chart");
            ("metadata", VDict [("year", VStr (default "2023" (year p)));
                                ("season_type",
                                 VStr (default "REG" (season_type p)));
                                ("week", VStr (default "1" (week p)))]);
            ("league", league);
            ("team_profiles", VDict profiles)]),
     (log ++ [Teams]) ++ map TeamProfile codes).
Proof.
  intros Hleague codes.
  destruct (fetch_team_profiles_total backend codes [] (log ++ [Teams]))
    as [profiles Hprofiles].
  exists profiles. split; [exact Hprofiles|].
  unfold fetch_body. cbn [default String.eqb Ascii.eqb Bool.eqb].
  unfold get_teams.
  rewrite (io_bind_ok _ _ _ _ _ (get_response _ _ _ _ Hleague)).
  subst codes.
  destruct (default [] (teams p)) as [|t ts]; cbn [id];
    unfold io_bind; rewrite Hprofiles; reflexivity.
Qed.

End AggregatorBranches.

Section AggregatorClaims.
Import Classifier ApiClient Aggregator Measures.

(** C1 as stated fails: with the standings endpoint down, a
    player_rankings query gets only [{error, query_type}], although the
    teams request before it was answered; no metadata and no league block
    come back. *)
Lemma C1_primary_failure_drops_all_blocks :
  _fetch_relevant_data standings_down exn_text "player_rankings"
    (params_2023 None) [] =
  (Ok (VDict [("error", VStr "503: API error 503: Service Unavailable");
              ("query_type", VStr "player_rankings")]),
   [Teams; Standings "2023" "REG"]) /\
  standings_down [] Teams = Response (VDict [("name", VStr "NFL")]).
Proof. split; vm_compute; reflexivity. Qed.

(** C1 (as the code has it): [_fetch_relevant_data] never raises.  A failed
    team-profile fetch is skipped inside the profile loop, so only that
    team's profile is missing from [team_profiles], and a failed boxscore
    fetch is caught by its own [try], so only the boxscore block is
    missing: the combined structure comes back with query type, metadata
    and every other block that was fetched.  A failure of any
    always-fetched call (teams, standings, schedule, weekly injuries)
    reaches the top-level handler: the result is [{error, query_type}] and
    nothing that had been fetched. *)
Theorem C1_failure_policy
  (backend : list endpoint -> endpoint -> http_result)
  (str_of_exn : exn -> string) (query_type : string) (p : params)
  (log : list endpoint) :
  let y := default "2023" (year p) in
  let st := default "REG" (season_type p) in
  let metadata := VDict [("year", VStr y); ("season_type", VStr st);
                         ("week", VStr (default "1" (week p)))] in
  (* never raises *)
  (exists v log',
      _fetch_relevant_data backend str_of_exn query_type p log = (Ok v, log')) /\
  (* a failed always-fetched call *)
  (forall pre ep post,
      always_fetched query_type y st (default "1" (week p)) = pre ++ ep :: post ->
      (forall i ep', pre !! i = Some ep' ->
                     exists body, backend (log ++ take i pre) ep' = Response body) ->
      (forall body, backend (log ++ pre) ep <> Response body) ->
      exists e,
        _get backend ep (log ++ pre) = (Raise e, log ++ pre ++ [ep]) /\
        _fetch_relevant_data backend str_of_exn query_type p log =
          (Ok (VDict [("error", VStr (str_of_exn e));
                      ("query_type", VStr query_type)]),
           log ++ pre ++ [ep])) /\
  (* a body that raises *)
  (forall e log',
      fetch_body backend query_type p log = (Raise e, log') ->
      _fetch_relevant_data backend str_of_exn query_type p log =
        (Ok (VDict [("error", VStr (str_of_exn e));
                    ("query_type", VStr query_type)]), log')) /\
  (* a body that does not raise *)
  (forall v log',
      fetch_body backend query_type p log = (Ok v, log') ->
      _fetch_relevant_data backend str_of_exn query_type p log = (Ok v, log') /\
      exists d, v = VDict d /\
                dict_lookup "query_type" d = Some (VStr query_type) /\
                dict_lookup "metadata" d = Some metadata) /\
  (* the profile loop skips a failed fetch *)
  (forall team_code codes team_profiles log0,
      fetch_team_profiles backend (team_code :: codes) team_profiles log0 =
      fetch_team_profiles backend codes
        (match backend log0 (TeamProfile team_code) with
         | Response profile => dict_set team_code profile team_profiles
         | _ => team_profiles
         end) (log0 ++ [TeamProfile team_code])) /\
  (forall codes team_profiles log0,
      exists profiles,
        fetch_team_profiles backend codes team_profiles log0 =
        (Ok profiles, log0 ++ map TeamProfile codes)) /\
  (* so a team has a profile exactly when one of its requests is answered,
     and the profile is an answer to a request for that team *)
  (forall codes log0 profiles log',
      fetch_team_profiles backend codes [] log0 = (Ok profiles, log') ->
      forall c,
        (is_Some (dict_lookup c profiles) <->
         exists i v,
           codes !! i = Some c /\
           backend (log0 ++ map TeamProfile (take i codes)) (TeamProfile c)
           = Response v) /\
        (forall v,
            dict_lookup c profiles = Some v ->
            exists i,
              codes !! i = Some c /\
              backend (log0 ++ map TeamProfile (take i codes)) (TeamProfile c)
              = Response v)) /\
  (* whatever the profile requests give, the other blocks are returned:
     player rankings, *)
  (forall ts league standings,
      teams p = Some ts -> ts <> [] ->
      backend log Teams = Response league ->
      backend (log ++ [Teams]) (Standings y st) = Response standings ->
      exists profiles,
        fetch_team_profiles backend (take 2 ts) []
          (log ++ [Teams; Standings y st])
        = (Ok profiles,
           (log ++ [Teams; Standings y st]) ++ map TeamProfile (take 2 ts)) /\
        _fetch_relevant_data backend str_of_exn "player_rankings" p log =
        (Ok (VDict [("query_type", VStr "player_rankings");
                    ("metadata", metadata);
                    ("league", league); ("standings", standings);
                    ("team_profiles", VDict profiles)]),
         (log ++ [Teams; Standings y st]) ++ map TeamProfile (take 2 ts))) /\
  (* matchups (on a schedule of well-formed games), *)
  (forall ts sched games,
      teams p = Some ts -> ts <> [] ->
      backend log (Schedule y st) = Response sched ->
      (gv <- get sched "games" (VList []);; iter gv)%res = Ok games ->
      Forall (fun g => well_formed_game g = true) games ->
      exists profiles,
        fetch_team_profiles backend (take 2 ts) [] (log ++ [Schedule y st])
        = (Ok profiles,
           (log ++ [Schedule y st]) ++ map TeamProfile (take 2 ts)) /\
        _fetch_relevant_data backend str_of_exn "matchups" p log =
        (Ok (VDict [("query_type", VStr "matchups");
                    ("metadata", metadata);
                    ("schedule", sched);
                    ("relevant_games",
                     VList (List.filter (involves ts) games));
                    ("team_profiles", VDict profiles)]),
         (log ++ [Schedule y st]) ++ map TeamProfile (take 2 ts))) /\
  (* and depth chart *)
  (forall league,
      backend log Teams = Response league ->
      let codes := match default [] (teams p) with
                   | [] => ["KC"; "SF"]
                   | t :: ts => take 2 (t :: ts)
                   end in
      exists profiles,
        fetch_team_profiles backend codes [] (log ++ [Teams])
        = (Ok profiles, (log ++ [Teams]) ++ map TeamProfile codes) /\
        _fetch_relevant_data backend str_of_exn "depth_chart" p log =
        (Ok (VDict [("query_type", VStr "depth_chart");
                    ("metadata", metadata);
                    ("league", league);
                    ("team_profiles", VDict profiles)]),
         (log ++ [Teams]) ++ map TeamProfile codes)) /\
  (* a failed boxscore fetch leaves the other blocks *)
  (forall ts sched games,
      teams p = Some ts -> ts <> [] ->
      backend log (Schedule y st) = Response sched ->
      (gv <- get sched "games" (VList []);; iter gv)%res = Ok games ->
      Forall (fun g => well_formed_game g = true) games ->
      exists sorted,
        Permutation (List.filter (involves ts) games) sorted /\
        forall g rest, sorted = g :: rest -> truthy (id_of g) = true ->
          (forall body, backend (log ++ [Schedule y st]) (GameBoxscore (id_of g))
                        <> Response body) ->
          _fetch_relevant_data backend str_of_exn "boxscore" p log =
          (Ok (VDict [("query_type", VStr "boxscore"); ("metadata", metadata);
                      ("schedule", sched);
                      ("relevant_games", VList (take 2 sorted))]),
           log ++ [Schedule y st; GameBoxscore (id_of g)])).
Proof.
  intros y st metadata.
  split; [|split; [|split; [|split; [|split; [|split; [|split;
    [|split; [|split; [|split]]]]]]]]].
  - destruct (fetch_relevant_data_cases backend str_of_exn query_type p log)
      as [(d & log' & _ & H) | (e & log' & _ & H)]; eauto.
  - intros pre ep post Hplan Hbefore Hfail.
    destruct (always_fetched_failure backend query_type p log pre post ep
                Hplan Hbefore Hfail) as [e [He Hbody]].
    exists e. split; [exact He|].
    unfold _fetch_relevant_data, io_try. now rewrite Hbody.
  - intros e log' Hbody.
    unfold _fetch_relevant_data, io_try. now rewrite Hbody.
  - intros v log' Hbody. split.
    + unfold _fetch_relevant_data, io_try. now rewrite Hbody.
    + exact (fetch_body_returns backend query_type p log log' v Hbody).
  - apply fetch_team_profiles_step.
  - apply fetch_team_profiles_total.
  - intros codes log0 profiles log' Hrun c. split; [split|].
    + intros [v Hv].
      destruct (fetch_team_profiles_sound backend codes [] profiles log0 log'
                  Hrun c v Hv) as [Hacc | (i & Hi & Hresp)];
        [discriminate Hacc | eauto].
    + intros Hanswered.
      apply (fetch_team_profiles_complete backend codes [] profiles log0 log'
               Hrun c).
      now right.
    + intros v Hv.
      destruct (fetch_team_profiles_sound backend codes [] profiles log0 log'
                  Hrun c v Hv) as [Hacc | H]; [discriminate Hacc | exact H].
  - intros ts league standings Hteams Hne Hleague Hstandings.
    destruct (fetch_body_player_rankings backend p ts log league standings
                Hteams Hne Hleague Hstandings) as [profiles [Hloop Hbody]].
    exists profiles. split; [exact Hloop|].
    unfold _fetch_relevant_data, io_try. now rewrite Hbody.
  - intros ts sched games Hteams Hne Hsched Hgames Hwf.
    destruct (fetch_body_matchups backend p ts log sched games
                Hteams Hne Hsched Hgames Hwf) as [profiles [Hloop Hbody]].
    exists profiles. split; [exact Hloop|].
    unfold _fetch_relevant_data, io_try. now rewrite Hbody.
  - intros league Hleague codes.
    destruct (fetch_body_depth_chart backend p log league Hleague)
      as [profiles [Hloop Hbody]].
    exists profiles. split; [exact Hloop|].
    unfold _fetch_relevant_data, io_try. now rewrite Hbody.
  - intros ts sched games Hteams Hne Hsched Hgames Hwf.
    destruct (fetch_body_boxscore backend p ts log sched games
                Hteams Hne Hsched Hgames Hwf) as [sorted [Hperm [_ Hbody]]].
    exists sorted. split; [exact Hperm|].
    intros g rest -> Hid Hfail.
    unfold _fetch_relevant_data, io_try. rewrite Hbody. cbn zeta iota.
    rewrite Hid.
    destruct (backend _ (GameBoxscore (id_of g))) as [body| |];
      [now destruct (Hfail body)| |]; now rewrite <- app_assoc.
Qed.

Lemma C1_failure_policy_witness :
  (exists e,
      _get standings_down (Standings "2023" "REG") ([] ++ [Teams]) =
        (Raise e, [] ++ [Teams] ++ [Standings "2023" "REG"]) /\
      _fetch_relevant_data standings_down exn_text "player_rankings"
        (params_2023 None) [] =
        (Ok (VDict [("error", VStr (exn_text e));
                    ("query_type", VStr "player_rankings")]),
         [] ++ [Teams] ++ [Standings "2023" "REG"])) /\
  _fetch_relevant_data Specs.phi_profile_down exn_text "player_rankings"
    (params_2023 (Some ["PHI"; "KC"])) [] =
  (Ok (VDict [("query_type", VStr "player_rankings");
              ("metadata", VDict [("year", VStr "2023");
                                  ("season_type", VStr "REG");
                                  ("week", VStr "1")]);
              ("league", VDict [("name", VStr "NFL")]);
              ("standings", VDict [("name", VStr "NFL")]);
              ("team_profiles",
               VDict [("KC", VDict [("alias", VStr "KC")])])]),
   [Teams; Standings "2023" "REG"; TeamProfile "PHI"; TeamProfile "KC"]).
Proof.
  split.
  - apply (proj1 (proj2 (C1_failure_policy standings_down exn_text
                           "player_rankings" (params_2023 None) []))
             [Teams] (Standings "2023" "REG") []).
    + reflexivity.
    + intros [|[|i]] ep' Hep; try discriminate Hep.
      injection Hep as <-. eexists. reflexivity.
    + intros body. discriminate.
  - destruct (C1_failure_policy Specs.phi_profile_down exn_text
                "player_rankings" (params_2023 (Some ["PHI"; "KC"])) [])
      as (_ & _ & _ & _ & _ & _ & _ & Hrankings & _).
    destruct (Hrankings ["PHI"; "KC"] (VDict [("name", VStr "NFL")])
                (VDict [("name", VStr "NFL")]))
      as [profiles [Hloop Hrun]].
    + reflexivity.
    + discriminate.
    + reflexivity.
    + reflexivity.
    + vm_compute in Hloop. injection Hloop as <-. exact Hrun.
Defined.

(** C7: for a boxscore query with team codes, on a schedule of well-formed
    games, the games kept are those with a home or away alias among the
    codes; they are ordered by descending [scheduled] string; the first two
    are stored as [relevant_games]; and the only request after the
    schedule is the boxscore of the first game's id, made when that id is
    truthy.  When no game is kept, nothing is stored or fetched. *)
Theorem C7_boxscore_plan
  (backend : list endpoint -> endpoint -> http_result)
  (str_of_exn : exn -> string) (p : params) (ts : list string)
  (log : list endpoint) (sched : value) (games : list value)
  (Hteams : teams p = Some ts) (Hne : ts <> [])
  (Hsched : backend log (Schedule (default "2023" (year p))
                                  (default "REG" (season_type p)))
            = Response sched)
  (Hgames : (gv <- get sched "games" (VList []);; iter gv)%res = Ok games)
  (Hwf : Forall (fun g => well_formed_game g = true) games) :
  let log1 := log ++ [Schedule (default "2023" (year p))
                               (default "REG" (season_type p))] in
  exists sorted d log',
    Permutation (List.filter (involves ts) games) sorted /\
    StronglySorted not_after sorted /\
    _fetch_relevant_data backend str_of_exn "boxscore" p log
      = (Ok (VDict d), log') /\
    dict_lookup "schedule" d = Some sched /\
    match sorted with
    | [] =>
        dict_lookup "relevant_games" d = None /\
        dict_lookup "boxscore" d = None /\ log' = log1
    | g :: _ =>
        dict_lookup "relevant_games" d = Some (VList (take 2 sorted)) /\
        if truthy (id_of g) then
          log' = log1 ++ [GameBoxscore (id_of g)] /\
          dict_lookup "boxscore" d =
            match backend log1 (GameBoxscore (id_of g)) with
            | Response boxscore => Some boxscore
            | _ => None
            end
        else log' = log1 /\ dict_lookup "boxscore" d = None
    end.
Proof.
  intros log1.
  destruct (fetch_body_boxscore backend p ts log sched games
              Hteams Hne Hsched Hgames Hwf) as [sorted [Hperm [Hdesc Hbody]]].
  exists sorted. unfold _fetch_relevant_data, io_try. rewrite Hbody.
  cbn zeta. fold log1.
  destruct sorted as [|g rest].
  - eexists _, _. repeat split; [exact Hperm | exact Hdesc].
  - destruct (truthy (id_of g)).
    + eexists _, _. split; [exact Hperm|]. split; [exact Hdesc|].
      split; [reflexivity|].
      destruct (backend log1 (GameBoxscore (id_of g))); repeat split.
    + eexists _, _. split; [exact Hperm|]. split; [exact Hdesc|].
      repeat split.
Qed.

Lemma C7_boxscore_plan_witness :
  _fetch_relevant_data schedule_backend exn_text "boxscore"
    (params_2023 (Some ["KC"])) [] =
  (Ok (VDict
         [("query_type", VStr "boxscore");
          ("metadata", VDict [("year", VStr "2023");
                              ("season_type", VStr "REG");
                              ("week", VStr "1")]);
          ("schedule", VDict [("games", VList sample_games)]);
          ("relevant_games",
           VList [sample_game "g3" "2023-09-24T20:25:00+00:00" "KC" "CHI";
                  sample_game "g4" "2023-09-17T17:00:00+00:00" "JAX" "KC"]);
          ("boxscore", VDict [("id", VStr "g3")])]),
   [Schedule "2023" "REG"; GameBoxscore (VStr "g3")]) /\
  exists sorted d log',
    Permutation (List.filter (involves ["KC"]) sample_games) sorted /\
    StronglySorted not_after sorted /\
    _fetch_relevant_data schedule_backend exn_text "boxscore"
      (params_2023 (Some ["KC"])) [] = (Ok (VDict d), log') /\
    dict_lookup "relevant_games" d = Some (VList (take 2 sorted)).
Proof.
  split; [vm_compute; reflexivity|].
  destruct (C7_boxscore_plan schedule_backend exn_text
              (params_2023 (Some ["KC"])) ["KC"] []
              (VDict [("games", VList sample_games)]) sample_games)
    as (sorted & d & log' & Hperm & Hdesc & Hrun & _ & Hrest).
  - reflexivity.
  - discriminate.
  - reflexivity.
  - reflexivity.
  - repeat constructor.
  - exists sorted, d, log'. repeat split; try assumption.
    destruct sorted as [|g rest]; [|exact (proj1 Hrest)].
    apply Permutation_sym, Permutation_nil in Hperm. discriminate Hperm.
Defined.

End AggregatorClaims.

(** ** The gateway *)

Section GatewayFacts.
Import Summarizer Gateway Measures Specs.

Variable encode : string -> res (list Byte.byte).
Variable sha256_hexdigest : list Byte.byte -> string.
Variable str : option value -> string.
Variable json_dumps : value -> string.
Variable str_of_exn : exn -> string.
Variable llm : list chat_request -> chat_request -> llm_result.

(** Summarising a dictionary never raises: everything after the first two
    reads is under the catch-all handler. *)
Lemma summarize_context_dict (d : list (string * value)) :
  exists summary, _summarize_context_data str_of_exn (VDict d) = Ok summary.
Proof.
  unfold _summarize_context_data. cbn [get bind].
  match goal with |- exists _, try_except ?body _ = _ => destruct body end;
    eexists; reflexivity.
Qed.

Lemma context_messages_total (context_data : option value) :
  (forall v, context_data = Some v -> exists d, v = VDict d) ->
  exists extra, context_messages json_dumps str_of_exn context_data = Ok extra.
Proof.
  intros Hdict. destruct context_data as [v|]; [|eexists; reflexivity].
  destruct (Hdict v eq_refl) as [d ->]. unfold context_messages.
  destruct (truthy (VDict d)); [|eexists; reflexivity].
  destruct (summarize_context_dict d) as [summary ->].
  eexists; reflexivity.
Qed.

(** The key of a call is the digest of the encoded text, when the text can
    be encoded. *)
Lemma cache_key_ok (query : string) (context_data : option value)
  (key : string) :
  cache_key encode sha256_hexdigest str query context_data = Ok key ->
  exists encoded,
    encode (query +:+ str context_data) = Ok encoded /\
    key = sha256_hexdigest encoded.
Proof.
  unfold cache_key. intros H. apply bind_ok in H as [encoded [Henc H]].
  exists encoded. split; [exact Henc | now injection H].
Qed.

(** Text that cannot be encoded: the call raises before anything else. *)
Lemma generate_response_unencodable (query : string)
  (context_data : option value) (now : PrimFloat.float) (st : state) (e : exn) :
  cache_key encode sha256_hexdigest str query context_data = Raise e ->
  generate_response encode sha256_hexdigest str json_dumps str_of_exn llm
    query context_data now st = Raise e.
Proof. unfold generate_response. now intros ->. Qed.

(** A hit: the stored answer comes back and nothing is sent. *)
Lemma generate_response_hit (query : string) (context_data : option value)
  (now : PrimFloat.float) (st : state) (key : string) (answer : value) :
  cache_key encode sha256_hexdigest str query context_data = Ok key ->
  cache_check (llm_cache st) key now = Some answer ->
  generate_response encode sha256_hexdigest str json_dumps str_of_exn llm
    query context_data now st = Ok (answer, st).
Proof. unfold generate_response. intros -> Hhit. cbn [bind]. now rewrite Hhit. Qed.

(** A miss: exactly one request is sent, whatever the service answers. *)
Lemma generate_response_miss (query : string) (context_data : option value)
  (now : PrimFloat.float) (st : state) (key : string) (extra : list message) :
  cache_key encode sha256_hexdigest str query context_data = Ok key ->
  cache_check (llm_cache st) key now = None ->
  context_messages json_dumps str_of_exn context_data = Ok extra ->
  exists r st',
    generate_response encode sha256_hexdigest str json_dumps str_of_exn llm
      query context_data now st = Ok (r, st') /\
    outbound st' = outbound st ++ [chat_request_for query extra].
Proof.
  unfold generate_response. intros -> Hmiss ->. cbn [bind]. rewrite Hmiss.
  destruct (llm (outbound st) (chat_request_for query extra))
    as [result|status_code text|text].
  - destruct (completion_text result); eexists _, _; split; reflexivity.
  - destruct (status_code =? 429)%Z; eexists _, _; split; reflexivity.
  - eexists _, _; split; reflexivity.
Qed.

(** A miss answered with a completion: the answer is returned and stored
    under the key with the reading of the clock. *)
Lemma generate_response_answered (query : string)
  (context_data : option value) (now : PrimFloat.float) (st : state) (key : string)
  (extra : list message) (result answer : value) :
  cache_key encode sha256_hexdigest str query context_data = Ok key ->
  cache_check (llm_cache st) key now = None ->
  context_messages json_dumps str_of_exn context_data = Ok extra ->
  llm (outbound st) (chat_request_for query extra) = LLMResponse result ->
  completion_text result = Ok answer ->
  generate_response encode sha256_hexdigest str json_dumps str_of_exn llm
    query context_data now st =
  Ok (answer,
      {| llm_cache := <[key := (now, answer)]> (llm_cache st);
         outbound := outbound st ++ [chat_request_for query extra] |}).
Proof.
  unfold generate_response. intros -> Hmiss -> Hllm Htext. cbn [bind].
  now rewrite Hmiss, Hllm, Htext.
Qed.

(** A miss answered with anything else: a message string is returned and
    the cache is left as it was. *)
Lemma generate_response_unusable (query : string)
  (context_data : option value) (now : PrimFloat.float) (st : state) (key : string)
  (extra : list message) :
  cache_key encode sha256_hexdigest str query context_data = Ok key ->
  cache_check (llm_cache st) key now = None ->
  context_messages json_dumps str_of_exn context_data = Ok extra ->
  unusable (llm (outbound st) (chat_request_for query extra)) = true ->
  exists msg,
    generate_response encode sha256_hexdigest str json_dumps str_of_exn llm
      query context_data now st =
    Ok (VStr msg,
        {| llm_cache := llm_cache st;
           outbound := outbound st ++ [chat_request_for query extra] |}).
Proof.
  unfold generate_response. intros -> Hmiss -> Hfail. cbn [bind].
  rewrite Hmiss.
  destruct (llm (outbound st) (chat_request_for query extra))
    as [result|status_code text|text]; cbn [unusable] in Hfail.
  - destruct (completion_text result); [discriminate Hfail|].
    eexists; reflexivity.
  - destruct (status_code =? 429)%Z; eexists; reflexivity.
  - eexists; reflexivity.
Qed.

(** A rate-limited call returns the fixed message and stores nothing. *)
Lemma generate_response_rate_limited (query : string)
  (context_data : option value) (now : PrimFloat.float) (st : state) (key : string)
  (extra : list message) (text : string) :
  cache_key encode sha256_hexdigest str query context_data = Ok key ->
  cache_check (llm_cache st) key now = None ->
  context_messages json_dumps str_of_exn context_data = Ok extra ->
  llm (outbound st) (chat_request_for query extra) = LLMStatusError 429 text ->
  generate_response encode sha256_hexdigest str json_dumps str_of_exn llm
    query context_data now st =
  Ok (VStr "Rate limit exceeded. Please try again later.",
      {| llm_cache := llm_cache st;
         outbound := outbound st ++ [chat_request_for query extra] |}).
Proof.
  unfold generate_response. intros -> Hmiss -> Hlimit. cbn [bind].
  now rewrite Hmiss, Hlimit.
Qed.

Lemma cache_check_fresh (cache : gmap string (PrimFloat.float * value)) (key : string)
  (t now : PrimFloat.float) (answer : value) :
  cache !! key = Some (t, answer) ->
  float_lt_int (PrimFloat.sub now t) LLM_CACHE_TTL = true ->
  cache_check cache key now = Some answer.
Proof. unfold cache_check. now intros -> ->. Qed.

Lemma cache_check_stale (cache : gmap string (PrimFloat.float * value)) (key : string)
  (t now : PrimFloat.float) (answer : value) :
  cache !! key = Some (t, answer) ->
  float_lt_int (PrimFloat.sub now t) LLM_CACHE_TTL = false ->
  cache_check cache key now = None.
Proof. unfold cache_check. now intros -> ->. Qed.

Lemma cache_check_cold (cache : gmap string (PrimFloat.float * value)) (key : string)
  (now : PrimFloat.float) :
  cache !! key = None -> cache_check cache key now = None.
Proof. unfold cache_check. now intros ->. Qed.

(** The age of an entry is the binary64 difference of the two readings:
    stored at 0.3 and read at 600.3, an entry has age 600.0 and is stale,
    while one read at 600.2 is fresh. *)
Lemma cache_age_is_rounded (answer : value) :
  cache_check {["k" := (tenths 3, answer)]} "k" (tenths 6003) = None /\
  cache_check {["k" := (tenths 3, answer)]} "k" (tenths 6002) = Some answer.
Proof.
  split.
  - now apply (cache_check_stale _ "k" (tenths 3) _ answer);
      [apply lookup_singleton_eq|].
  - now apply (cache_check_fresh _ "k" (tenths 3) _ answer);
      [apply lookup_singleton_eq|].
Qed.

End GatewayFacts.

Section GatewayClaims.
Import Summarizer Gateway Measures Specs.

(** C4: the cache key is the digest of the encoded text of the query
    followed by the context, and of nothing else.  A call that finds no
    fresh entry sends one request.  When the service answers it with a
    completion, a second call with the same query and context returns that
    answer and sends nothing as long as the difference of the two clock
    readings, as the machine computes it, is below 600: one request went
    out in all.  When that difference is not below 600, the second call
    sends a request of its own.  When the service answers with anything
    but a completion, nothing is stored, and a second call that finds no
    fresh entry sends the request again, however soon. *)
Theorem C4_cache_round_trip
  (encode : string -> res (list Byte.byte))
  (sha256_hexdigest : list Byte.byte -> string)
  (str : option value -> string)
  (json_dumps : value -> string) (str_of_exn : exn -> string)
  (llm : list chat_request -> chat_request -> llm_result)
  (query : string) (context_data : option value) (t1 t2 : PrimFloat.float)
  (st : state) (key : string)
  (Hdict : forall v, context_data = Some v -> exists d, v = VDict d)
  (Hkey : cache_key encode sha256_hexdigest str query context_data = Ok key)
  (Hmiss : cache_check (llm_cache st) key t1 = None) :
  let run := generate_response encode sha256_hexdigest str json_dumps
               str_of_exn llm query context_data in
  (exists encoded,
      encode (query +:+ str context_data) = Ok encoded /\
      key = sha256_hexdigest encoded) /\
  LLM_CACHE_TTL = 600 /\
  exists request,
    (forall result answer,
        llm (outbound st) request = LLMResponse result ->
        completion_text result = Ok answer ->
        exists st1,
          run t1 st = Ok (answer, st1) /\
          outbound st1 = outbound st ++ [request] /\
          (float_lt_int (PrimFloat.sub t2 t1) 600 = true ->
           run t2 st1 = Ok (answer, st1)) /\
          (float_lt_int (PrimFloat.sub t2 t1) 600 = false ->
           exists r st2,
             run t2 st1 = Ok (r, st2) /\
             outbound st2 = outbound st ++ [request; request])) /\
    (unusable (llm (outbound st) request) = true ->
     exists msg st1,
       run t1 st = Ok (VStr msg, st1) /\
       llm_cache st1 = llm_cache st /\
       outbound st1 = outbound st ++ [request] /\
       (cache_check (llm_cache st) key t2 = None ->
        exists r st2,
          run t2 st1 = Ok (r, st2) /\
          outbound st2 = outbound st ++ [request; request])).
Proof.
  intros run.
  split; [exact (cache_key_ok _ _ _ _ _ _ Hkey)|]. split; [reflexivity|].
  destruct (context_messages_total json_dumps str_of_exn context_data Hdict)
    as [extra Hextra].
  exists (chat_request_for query extra). split.
  - intros result answer Hllm Htext.
    pose (st1 := {| llm_cache := <[key := (t1, answer)]> (llm_cache st);
                    outbound := outbound st ++ [chat_request_for query extra] |}).
    assert (Hstored : llm_cache st1 !! key = Some (t1, answer))
      by apply lookup_insert_eq.
    exists st1. split; [|split; [reflexivity|split]].
    + exact (generate_response_answered encode sha256_hexdigest str
               json_dumps str_of_exn llm query context_data t1 st key extra
               result answer Hkey Hmiss Hextra Hllm Htext).
    + intros Hfresh.
      apply (generate_response_hit encode sha256_hexdigest str json_dumps
               str_of_exn llm query context_data t2 st1 key answer Hkey).
      exact (cache_check_fresh _ key t1 t2 answer Hstored Hfresh).
    + intros Hstale.
      destruct (generate_response_miss encode sha256_hexdigest str
                  json_dumps str_of_exn llm query context_data t2 st1 key
                  extra Hkey) as (r & st2 & Hrun & Hout).
      * exact (cache_check_stale _ key t1 t2 answer Hstored Hstale).
      * exact Hextra.
      * exists r, st2. split; [exact Hrun|].
        rewrite Hout. simpl. now rewrite <- app_assoc.
  - intros Hfail.
    destruct (generate_response_unusable encode sha256_hexdigest str
                json_dumps str_of_exn llm query context_data t1 st key extra
                Hkey Hmiss Hextra Hfail) as [msg Hfirst].
    exists msg, {| llm_cache := llm_cache st;
                   outbound := outbound st ++ [chat_request_for query extra] |}.
    split; [exact Hfirst|]. split; [reflexivity|]. split; [reflexivity|].
    intros Hmiss2.
    destruct (generate_response_miss encode sha256_hexdigest str
                json_dumps str_of_exn llm query context_data t2
                {| llm_cache := llm_cache st;
                   outbound := outbound st ++ [chat_request_for query extra] |}
                key extra Hkey Hmiss2 Hextra) as (r & st2 & Hrun & Hout).
    exists r, st2. split; [exact Hrun|].
    rewrite Hout. cbn [outbound]. now rewrite <- app_assoc.
Qed.

Lemma C4_cache_round_trip_witness :
  let run := generate_response sample_encode sample_digest sample_str
               (fun _ => "{}") exn_text sample_llm
               "Who wins the division" None in
  exists st1 request,
    run (seconds 1000) fresh_state = Ok (VStr "It depends.", st1) /\
    outbound st1 = [] ++ [request] /\
    run (seconds 1599) st1 = Ok (VStr "It depends.", st1) /\
    exists r st2, run (seconds 1600) st1 = Ok (r, st2) /\
                  outbound st2 = [] ++ [request; request].
Proof.
  intros run.
  pose (body := VDict [("choices",
                        VList [VDict [("message",
                                       VDict [("content",
                                               VStr "It depends.")])]])]).
  destruct (C4_cache_round_trip sample_encode sample_digest sample_str
              (fun _ => "{}") exn_text sample_llm "Who wins the division"
              None (seconds 1000) (seconds 1599) fresh_state
              "Who wins the divisionNone")
    as (_ & _ & request & Hanswered & _).
  - discriminate.
  - reflexivity.
  - reflexivity.
  - destruct (Hanswered body (VStr "It depends.") eq_refl eq_refl)
      as (st1 & Hrun & Hout & Hfresh & _).
    destruct (C4_cache_round_trip sample_encode sample_digest sample_str
                (fun _ => "{}") exn_text sample_llm "Who wins the division"
                None (seconds 1000) (seconds 1600) fresh_state
                "Who wins the divisionNone")
      as (_ & _ & request' & Hanswered' & _).
    + discriminate.
    + reflexivity.
    + reflexivity.
    + destruct (Hanswered' body (VStr "It depends.") eq_refl eq_refl)
        as (st1' & Hrun' & Hout' & _ & Hstale).
      fold run in Hrun, Hrun', Hfresh, Hstale.
      assert (st1' = st1) as -> by congruence.
      assert (request' = request) as ->.
      { rewrite Hout in Hout'. now injection Hout'. }
      exists st1, request. split; [exact Hrun|]. split; [exact Hout|].
      split; [now apply Hfresh | now apply Hstale].
Defined.

(** C4 as stated fails: of two identical calls one second apart, both
    answered with status 429, each returns the rate-limit message, nothing
    is cached, and two requests go out. *)
Lemma C4_unanswered_call_is_sent_again :
  let run := generate_response sample_encode sample_digest sample_str
               (fun _ => "{}") exn_text rate_limited
               "Who wins the division" None in
  float_lt_int (PrimFloat.sub (seconds 1001) (seconds 1000)) 600 = true /\
  exists st1 st2 request,
    run (seconds 1000) fresh_state =
      Ok (VStr "Rate limit exceeded. Please try again later.", st1) /\
    run (seconds 1001) st1 =
      Ok (VStr "Rate limit exceeded. Please try again later.", st2) /\
    llm_cache st2 = ∅ /\
    outbound st2 = [request; request].
Proof.
  intros run. split; [reflexivity|].
  eexists _, _, _. repeat split.
Qed.

End GatewayClaims.

(** * Further properties of the code *)

(** ** The classifier: year, week, season, case *)

Lemma append_nil_l (s : string) : EmptyString +:+ s = s.
Proof. reflexivity. Qed.

Lemma append_cons (c : ascii) (s t : string) :
  String c s +:+ t = String c (s +:+ t).
Proof. reflexivity. Qed.

(** Push [+:+] inside the string constructors. *)
Ltac push_append := rewrite ?append_cons, ?append_nil_l.
Ltac push_append_in H := rewrite ?append_cons, ?append_nil_l in H.

Section ClassifierExtraFacts.
Import Classifier Specs.

(** [re.search] returns the match at the leftmost position that has one. *)
Lemma re_search_some {A} (m : string -> option A) (s : string) (r : A) :
  re_search m s = Some r ->
  exists pre rest,
    s = pre +:+ rest /\ m rest = Some r /\
    forall pre' rest', s = pre' +:+ rest' ->
                       (String.length pre' < String.length pre)%nat ->
                       m rest' = None.
Proof.
  induction s as [|c s IH]; cbn [re_search]; intros H.
  - destruct (m EmptyString) as [r'|] eqn:Hm; [|discriminate].
    exists EmptyString, EmptyString. repeat split; [congruence|].
    intros pre' rest' _ Hlt. simpl in Hlt. lia.
  - destruct (m (String c s)) as [r'|] eqn:Hm.
    + exists EmptyString, (String c s). repeat split; [congruence|].
      intros pre' rest' _ Hlt. simpl in Hlt. lia.
    + destruct (IH H) as (pre & rest & -> & Hrest & Hleft).
      exists (String c pre), rest. repeat split; [exact Hrest|].
      intros [|c' pre'] rest' Heq Hlt.
      * change (String c (pre +:+ rest) = rest') in Heq. now subst rest'.
      * change (String c (pre +:+ rest) = String c' (pre' +:+ rest')) in Heq.
        injection Heq as -> Heq. apply (Hleft pre' rest' Heq).
        simpl in Hlt. lia.
Qed.

Lemma re_search_none {A} (m : string -> option A) (s : string) :
  re_search m s = None ->
  forall pre rest, s = pre +:+ rest -> m rest = None.
Proof.
  induction s as [|c s IH]; cbn [re_search]; intros H pre rest Heq.
  - destruct pre; [|discriminate Heq].
    change (EmptyString = rest) in Heq. subst rest.
    now destruct (m EmptyString).
  - destruct (m (String c s)) eqn:Hm; [discriminate|].
    destruct pre as [|c' pre].
    + change (String c s = rest) in Heq. now subst rest.
    + change (String c s = String c' (pre +:+ rest)) in Heq.
      injection Heq as _ Heq. exact (IH H pre rest Heq).
Qed.

Lemma year_at_eq (s : string) :
  year_at s =
  if starts_with "20" s then
    match str_drop 2 s with
    | String c (String d _) =>
        if is_digit c && is_digit d
        then Some (String "2" (String "0" (String c (String d EmptyString))))
        else None
    | _ => None
    end
  else None.
Proof.
  destruct s as [|a [|b s]]; [reflexivity| |].
  - destruct a as [[] [] [] [] [] [] [] []]; reflexivity.
  - destruct a as [[] [] [] [] [] [] [] []]; try reflexivity.
    destruct b as [[] [] [] [] [] [] [] []]; reflexivity.
Qed.

Lemma year_at_some (s y : string) :
  year_at s = Some y <-> is_year_token y /\ exists post, s = y +:+ post.
Proof.
  rewrite year_at_eq. split.
  - destruct (starts_with "20" s) eqn:Hpre; [|discriminate].
    apply starts_with_spec in Hpre as [post ->]. push_append.
    cbn [str_drop].
    destruct post as [|c [|d post]]; try discriminate.
    destruct (is_digit c) eqn:Hc; [|discriminate].
    destruct (is_digit d) eqn:Hd; [|discriminate].
    cbn [andb]. intros H. injection H as <-.
    split; [exists c, d; auto | exists post; reflexivity].
  - intros [(c & d & Hc & Hd & ->) [post ->]].
    push_append. cbn. now rewrite Hc, Hd.
Qed.

Lemma week_at_some (s w : string) :
  week_at s = Some w ->
  w <> EmptyString /\ all_digits w = true /\
  exists post, s = "week " +:+ w +:+ post.
Proof.
  unfold week_at. destruct (starts_with "week " s) eqn:Hpre; [|discriminate].
  apply starts_with_spec in Hpre as [rest ->]. push_append. cbn [str_drop].
  assert (Hrun : all_digits (run_of is_digit rest) = true /\
                 exists post, rest = run_of is_digit rest +:+ post).
  { clear. induction rest as [|c rest [IH1 [post IH2]]]; simpl.
    - split; [reflexivity | exists EmptyString; reflexivity].
    - destruct (is_digit c) eqn:Hc; simpl.
      + rewrite Hc, IH1. split; [reflexivity|].
        exists post. push_append. now rewrite <- IH2.
      + split; [reflexivity | eexists; reflexivity]. }
  destruct (run_of is_digit rest) as [|c ds] eqn:Hds; [discriminate|].
  intros H. injection H as <-. destruct Hrun as [Hall [post Hpost]].
  split; [discriminate|]. split; [exact Hall|].
  exists post. push_append. push_append_in Hpost. now rewrite Hpost.
Qed.

Lemma week_at_none (s : string) :
  week_at s = None ->
  forall c post, is_digit c = true -> s <> "week " +:+ String c post.
Proof.
  unfold week_at. intros H c post Hc ->. push_append_in H. cbn in H.
  now rewrite Hc in H.
Qed.

Lemma lower_char_idem (c : ascii) : lower_char (lower_char c) = lower_char c.
Proof. destruct c as [[] [] [] [] [] [] [] []]; reflexivity. Qed.

Lemma lower_idem (s : string) : lower (lower s) = lower s.
Proof.
  induction s as [|c s IH]; simpl; [reflexivity|].
  now rewrite lower_char_idem, IH.
Qed.

Lemma lower_digits (s : string) : all_digits s = true -> lower s = s.
Proof.
  induction s as [|c s IH]; simpl; [reflexivity|].
  intros H. apply andb_true_iff in H as [Hc Hs]. rewrite (IH Hs).
  f_equal. revert Hc. destruct c as [[] [] [] [] [] [] [] []];
    (reflexivity || discriminate).
Qed.

Lemma run_of_all_digits (s : string) :
  all_digits s = true -> run_of is_digit s = s.
Proof.
  induction s as [|c s IH]; simpl; [reflexivity|].
  intros H. apply andb_true_iff in H as [-> Hs]. now rewrite (IH Hs).
Qed.

End ClassifierExtraFacts.

Section ClassifierExtras.
Import Classifier Specs QueryService.

Lemma week_at_digits (ds post : string) :
  ds <> EmptyString -> all_digits ds = true ->
  (forall c post', post = String c post' -> is_digit c = false) ->
  week_at ("week " +:+ ds +:+ post) = Some ds.
Proof.
  intros Hne Hds Hpost. unfold week_at. push_append. cbn [starts_with str_drop].
  rewrite !Ascii.eqb_refl. cbn [andb].
  assert (Hrun : run_of is_digit (ds +:+ post) = ds).
  { clear Hne. induction ds as [|c ds IH]; push_append.
    - destruct post as [|c post]; [reflexivity|]. simpl.
      now rewrite (Hpost c post eq_refl).
    - simpl in Hds |- *. apply andb_true_iff in Hds as [-> Hds].
      now rewrite (IH Hds). }
  rewrite Hrun. destruct ds; [now destruct Hne | reflexivity].
Qed.

Lemma append_same_length (pre pre' rest rest' : string) :
  pre +:+ rest = pre' +:+ rest' ->
  String.length pre = String.length pre' -> pre = pre' /\ rest = rest'.
Proof.
  revert pre'; induction pre as [|c pre IH]; intros [|c' pre'] Heq Hlen;
    try discriminate Hlen; push_append_in Heq.
  - now split.
  - injection Heq as -> Heq. injection Hlen as Hlen.
    destruct (IH pre' Heq Hlen) as [-> ->]. now split.
Qed.

(** The year is the leftmost [20dd] token of the lowered query; without
    one it is the clock's year, printed. *)
Theorem year_is_leftmost_token_or_clock_year
  (now : nat -> datetime) (query : string) :
  exists y,
    year (_classify_query now query).2 = Some y /\
    ((is_year_token y /\
      exists pre post,
        lower query = pre +:+ y +:+ post /\
        forall pre' y' post',
          is_year_token y' -> lower query = pre' +:+ y' +:+ post' ->
          (String.length pre <= String.length pre')%nat) \/
     (y = str_of_Z (dt_year (now 0%nat)) /\
      forall pre y' post,
        is_year_token y' -> lower query <> pre +:+ y' +:+ post)).
Proof.
  unfold _classify_query. cbn [snd year].
  destruct (re_search year_at (lower query)) as [y|] eqn:Hsearch.
  - exists y. split; [reflexivity|]. left.
    apply re_search_some in Hsearch as (pre & rest & Hq & Hat & Hleft).
    apply year_at_some in Hat as [Htok [post ->]].
    split; [exact Htok|]. exists pre, post. split; [exact Hq|].
    intros pre' y' post' Htok' Hq'.
    destruct (Nat.le_gt_cases (String.length pre) (String.length pre'))
      as [Hle | Hlt]; [exact Hle|].
    specialize (Hleft pre' (y' +:+ post') Hq' Hlt).
    assert (Hsome : year_at (y' +:+ post') = Some y')
      by (apply year_at_some; eauto).
    congruence.
  - eexists. split; [reflexivity|]. right. split; [reflexivity|].
    intros pre y' post Htok Hq.
    pose proof (re_search_none _ _ Hsearch pre (y' +:+ post) Hq) as Hnone.
    assert (Hsome : year_at (y' +:+ post) = Some y')
      by (apply year_at_some; eauto).
    congruence.
Qed.

(** Without a "week N" in the lowered query, the week is a number between
    1 and 17, whatever the clock reads. *)
Theorem default_week_between_1_and_17
  (now : nat -> datetime) (query : string)
  (Hno : forall pre c post,
      is_digit c = true -> lower query <> pre +:+ "week " +:+ String c post) :
  exists w, 1 <= w <= 17 /\
            week (_classify_query now query).2 = Some (str_of_Z w).
Proof.
  unfold _classify_query. cbn [snd week].
  destruct (re_search week_at (lower query)) as [w|] eqn:Hsearch.
  - apply re_search_some in Hsearch as (pre & rest & Hq & Hat & _).
    apply week_at_some in Hat as (Hne & Hds & post & ->).
    destruct w as [|c w]; [now destruct Hne|].
    simpl in Hds. apply andb_true_iff in Hds as [Hc _].
    push_append_in Hq. now destruct (Hno pre c (w +:+ post) Hc).
  - destruct (dt_month (now 1%nat) <? 9).
    + exists 1. split; [lia | reflexivity].
    + eexists. split; [|reflexivity]. lia.
Qed.

Lemma default_week_between_1_and_17_witness :
  exists w, 1 <= w <= 17 /\
            week (_classify_query clock_2026_11_03 "Who is hurt this Week").2
              = Some (str_of_Z w).
Proof.
  apply default_week_between_1_and_17.
  intros pre c post Hc Hq.
  assert (Hnone : re_search week_at (lower "Who is hurt this Week") = None)
    by reflexivity.
  pose proof (re_search_none _ _ Hnone pre _ Hq) as Hat.
  exact (week_at_none _ Hat c post Hc eq_refl).
Defined.

(** A week written in the query is taken as it is written: the digits
    after the leftmost "week " are the week, with no clamping to 1..17. *)
Theorem explicit_week_is_verbatim
  (now : nat -> datetime) (query pre ds post : string)
  (Hq : lower query = pre +:+ "week " +:+ ds +:+ post)
  (Hne : ds <> EmptyString)
  (Hds : all_digits ds = true)
  (Hpost : forall c post', post = String c post' -> is_digit c = false)
  (Hfirst : forall pre' c post',
      is_digit c = true ->
      lower query = pre' +:+ "week " +:+ String c post' ->
      (String.length pre <= String.length pre')%nat) :
  week (_classify_query now query).2 = Some ds.
Proof.
  unfold _classify_query. cbn [snd week].
  pose proof (week_at_digits ds post Hne Hds Hpost) as Hhere.
  destruct (re_search week_at (lower query)) as [w|] eqn:Hsearch.
  - apply re_search_some in Hsearch as (pre0 & rest & Hq0 & Hat & Hleft).
    assert (Hlen : String.length pre0 = String.length pre).
    { apply Nat.le_antisymm.
      - destruct (Nat.le_gt_cases (String.length pre0) (String.length pre))
          as [Hle | Hlt]; [exact Hle|].
        rewrite (Hleft pre _ Hq Hlt) in Hhere. discriminate.
      - pose proof Hat as Hat'.
        apply week_at_some in Hat' as (Hne' & Hds' & post' & ->).
        destruct w as [|c w]; [now destruct Hne'|].
        simpl in Hds'. apply andb_true_iff in Hds' as [Hc _].
        push_append_in Hq0.
        exact (Hfirst pre0 c (w +:+ post') Hc Hq0). }
    rewrite Hq in Hq0.
    destruct (append_same_length _ _ _ _ Hq0 (eq_sym Hlen)) as [_ <-].
    congruence.
  - rewrite (re_search_none _ _ Hsearch pre _ Hq) in Hhere. discriminate.
Qed.

Lemma explicit_week_is_verbatim_witness :
  week (_classify_query clock_2026_11_03 "Who is hurt in Week 25?").2
    = Some "25".
Proof.
  apply (explicit_week_is_verbatim clock_2026_11_03
           "Who is hurt in Week 25?" "who is hurt in " "25" "?").
  - reflexivity.
  - discriminate.
  - reflexivity.
  - intros c post' H. now injection H as <- _.
  - intros pre' c post' Hc Hq.
    assert (Hl : lower "Who is hurt in Week 25?" = "who is hurt in week 25?")
      by reflexivity.
    rewrite Hl in Hq. clear Hl.
    do 15 (destruct pre' as [|? pre'];
           [push_append_in Hq; discriminate Hq|];
           push_append_in Hq; injection Hq as _ Hq).
    simpl. lia.
Defined.

(** With no season keyword in the query, the season read off a calendar
    month is PRE for January to August and REG for September to December:
    the PST branch of the date test is never reached. *)
Theorem season_from_calendar_month_is_pre_or_reg
  (now : nat -> datetime) (query : string)
  (Hpre : any_in ["preseason"; "pre-season"; "pre season"] (lower query)
          = false)
  (Hpost : any_in ["postseason"; "post-season"; "post season"; "playoffs"]
             (lower query) = false)
  (Hmonth : 1 <= dt_month (now 3%nat) <= 12) :
  season_type (_classify_query now query).2 =
  Some (if dt_month (now 3%nat) <? 9 then "PRE" else "REG").
Proof.
  unfold _classify_query. cbn [snd season_type]. rewrite Hpre, Hpost.
  destruct (Z.ltb_spec (dt_month (now 3%nat)) 9); [reflexivity|].
  destruct (Z.ltb_spec 12 (dt_month (now 3%nat))); [lia|].
  destruct (Z.ltb_spec (dt_month (now 3%nat)) 3); [lia|]. reflexivity.
Qed.

Lemma season_from_calendar_month_is_pre_or_reg_witness :
  season_type
    (_classify_query
       (fun _ => {| dt_year := 2027; dt_month := 1; dt_day := 20 |})
       "Who won yesterday").2 = Some "PRE".
Proof.
  apply (season_from_calendar_month_is_pre_or_reg
           (fun _ => {| dt_year := 2027; dt_month := 1; dt_day := 20 |})
           "Who won yesterday").
  - reflexivity.
  - reflexivity.
  - simpl. lia.
Defined.

(** The data sources reported for a classified query are always one of the
    eight three-item lists, never the fallback; the fallback is what any
    other label gets. *)
Theorem data_sources_of_classified_query
  (now : nat -> datetime) (query : string) :
  length (get_data_sources (_classify_query now query).1) = 3%nat /\
  get_data_sources (_classify_query now query).1 <> ["NFL API data"] /\
  (forall label, ~ In label query_types ->
                 get_data_sources label = ["NFL API data"]).
Proof.
  assert (Hlabel : In (_classify_query now query).1 query_types)
    by exact (first_group_label keyword_groups (lower query)).
  split; [|split].
  - repeat (destruct Hlabel as [<- | Hlabel]; [reflexivity|]).
    destruct Hlabel.
  - repeat (destruct Hlabel as [<- | Hlabel]; [discriminate|]).
    destruct Hlabel.
  - intros label Hnot. unfold get_data_sources, data_sources.
    cbn [assoc].
    repeat match goal with
           | |- context [String.eqb label ?k] =>
               destruct (String.eqb_spec label k) as [-> | _];
               [exfalso; apply Hnot; simpl; tauto|]
           end.
    reflexivity.
Qed.

End ClassifierExtras.

(** ** The summariser: fields kept, order kept, failures *)

Section SummarizerExtraFacts.
Import Summarizer Measures Specs QueryService.

Lemma gets_keys (v : value) (fields : list (string * (string * value)))
  (l : list (string * value)) :
  gets v fields = Ok l -> map fst l = map fst fields.
Proof.
  revert l; induction fields as [|[out [key dflt]] fields IH]; intros l H.
  - apply gets_nil in H as ->. reflexivity.
  - apply gets_cons in H as (x & rest & _ & Hrest & ->).
    simpl. now rewrite (IH rest Hrest).
Qed.

Lemma stat_block_cases (stats : value) (key : string)
  (fields : list (string * (string * value)))
  (acc acc' : list (string * value)) :
  stat_block stats key fields acc = Ok acc' ->
  acc' = acc \/
  exists kept, map fst kept = map fst fields /\
               acc' = dict_set key (VDict kept) acc.
Proof.
  unfold stat_block. intros H.
  apply bind_ok in H as [[] [_ H]].
  - apply bind_ok in H as [blk [_ H]]. apply bind_ok in H as [kept [Hk H]].
    injection H as <-. right. exists kept. split; [|reflexivity].
    exact (gets_keys _ _ _ Hk).
  - injection H as <-. now left.
Qed.

Lemma length_dict_set (k : string) (v : value) (d : list (string * value)) :
  (length (dict_set k v d) <= S (length d))%nat.
Proof.
  induction d as [|[k0 v0] d IH]; simpl; [lia|].
  destruct (String.eqb k k0); simpl; lia.
Qed.

Lemma listed_stats_step (stats : value) (key : string)
  (fields : list (string * (string * value)))
  (acc acc' : list (string * value)) :
  assoc key stat_fields = Some (map fst fields) ->
  listed_stats acc ->
  stat_block stats key fields acc = Ok acc' ->
  listed_stats acc' /\ (length acc' <= S (length acc))%nat.
Proof.
  intros Hkey Hacc Hrun.
  apply stat_block_cases in Hrun as [-> | (kept & Hkept & ->)].
  - split; [exact Hacc | lia].
  - split; [|apply length_dict_set].
    intros k v. rewrite dict_lookup_set.
    destruct (String.eqb_spec k key) as [-> | _]; [|apply Hacc].
    intros H. injection H as <-. exists (map fst fields), kept. auto.
Qed.

Lemma block_present (d : list (string * value)) (key out : string)
  (f : value -> res value) (acc : list (string * value)) (x : value) :
  dict_lookup key d = Some x ->
  block (VDict d) key out f acc = (y <- f x;; Ok (dict_set out y acc))%res.
Proof.
  intros Hx. unfold block. cbn [has_key getitem bind]. rewrite Hx.
  rewrite bool_decide_eq_true_2 by eauto. reflexivity.
Qed.

Lemma block_absent (d : list (string * value)) (key out : string)
  (f : value -> res value) (acc : list (string * value)) :
  dict_lookup key d = None ->
  block (VDict d) key out f acc = Ok acc.
Proof.
  intros Hx. unfold block. cbn [has_key bind]. rewrite Hx.
  rewrite bool_decide_eq_false_2; [reflexivity|]. now intros [x Hx'].
Qed.

Lemma game_summary_well_formed (with_points : bool) (game : value) :
  well_formed_game game = true ->
  game_summary with_points game = Ok (game_digest with_points game).
Proof.
  destruct game as [| | | | | |d]; try discriminate.
  unfold well_formed_game, side_ok. intros Hwf.
  apply andb_true_iff in Hwf as [Hwf _].
  apply andb_true_iff in Hwf as [Hhome Haway].
  unfold game_summary, game_digest, side_digest, game_side, field.
  rewrite gets_dict. cbn [bind get picked map fst snd].
  destruct (dict_lookup "home" d) as [[]|]; try discriminate Hhome;
    destruct (dict_lookup "away" d) as [[]|]; try discriminate Haway;
    destruct with_points; reflexivity.
Qed.

Lemma py_lt_int (a b : Z) : py_lt (VInt a) (VInt b) = Ok (a <? b).
Proof.
  cbn [py_lt as_number]. f_equal. unfold Qle_bool. simpl.
  rewrite !Z.mul_1_r. destruct (Z.leb_spec b a), (Z.ltb_spec a b);
    (reflexivity || lia).
Qed.

Lemma insert_asc (kx : value * value) (placed : list (value * value)) :
  ranked_ok kx -> Forall ranked_ok placed ->
  exists placed',
    insert_by (fun a b => py_lt a b) kx placed = Ok placed' /\
    Permutation (kx :: placed) placed' /\
    (StronglySorted keyed_rank_le placed ->
     StronglySorted keyed_rank_le placed').
Proof.
  intros Hkx. induction placed as [|ky rest IH]; intros Hplaced.
  - exists [kx]. repeat split; [reflexivity|].
    intros _. repeat constructor.
  - inversion Hplaced as [|? ? Hky Hrest]; subst.
    cbn [insert_by]. rewrite Hkx, Hky, py_lt_int. cbn [bind].
    destruct (Z.ltb_spec (depth_rank kx.2) (depth_rank ky.2)) as [Hlt | Hge].
    + exists (kx :: ky :: rest). repeat split; [reflexivity|].
      intros Hsorted. constructor; [exact Hsorted|].
      apply StronglySorted_inv in Hsorted as [_ Hall].
      constructor; [unfold keyed_rank_le, rank_le; lia|].
      eapply Forall_impl; [exact Hall|]. intros z Hz.
      unfold keyed_rank_le, rank_le in *. lia.
    + destruct (IH Hrest) as [rest' [Hins [Hperm Hsort]]].
      rewrite Hins. exists (ky :: rest'). repeat split.
      * rewrite perm_swap. now apply perm_skip.
      * intros Hsorted. apply StronglySorted_inv in Hsorted as [Hs Hall].
        constructor; [now apply Hsort|].
        eapply Permutation_Forall; [exact Hperm|].
        constructor; [unfold keyed_rank_le, rank_le; lia | exact Hall].
Qed.

Lemma sort_keyed_asc (todo placed : list (value * value)) :
  Forall ranked_ok placed -> Forall ranked_ok todo ->
  exists sorted,
    sort_keyed (fun a b => py_lt a b) placed todo = Ok sorted /\
    Permutation (placed ++ todo) sorted /\
    (StronglySorted keyed_rank_le placed ->
     StronglySorted keyed_rank_le sorted).
Proof.
  revert placed; induction todo as [|kx todo IH]; intros placed Hp Ht.
  - exists placed. rewrite app_nil_r. now repeat split.
  - inversion Ht as [|? ? Hkx Htodo]; subst.
    destruct (insert_asc kx placed Hkx Hp) as [placed' [Hins [Hperm Hsort]]].
    cbn [sort_keyed]. rewrite Hins. cbn [bind].
    assert (Hp' : Forall ranked_ok placed').
    { eapply Permutation_Forall; [exact Hperm|]. now constructor. }
    destruct (IH placed' Hp' Htodo) as [sorted [Hrun [Hperm' Hsort']]].
    exists sorted. repeat split; [exact Hrun | | auto].
    rewrite <- Hperm', <- Hperm. symmetry. apply Permutation_middle.
Qed.

Lemma ranks_of_players (l : list value) :
  Forall (fun p => well_formed_player p = true) l ->
  for_each (fun x => k <- get x "depth" (VInt 99);; Ok (k, x)) l =
  Ok (map (fun x => (VInt (depth_rank x), x)) l).
Proof.
  induction 1 as [|p l Hp _ IH]; [reflexivity|].
  cbn [for_each map]. rewrite IH.
  destruct p as [| | | | | |d]; try discriminate Hp.
  unfold depth_rank. simpl in Hp |- *.
  destruct (dict_lookup "depth" d) as [[]|]; simpl;
    (reflexivity || discriminate Hp).
Qed.

Lemma StronglySorted_rank_snd (l : list (value * value)) :
  StronglySorted keyed_rank_le l -> StronglySorted rank_le (map snd l).
Proof.
  induction 1 as [|kx l _ IH Hall]; simpl; constructor; [exact IH|].
  apply Forall_map. exact Hall.
Qed.

Lemma filter_rank_none (r : Z) (kx : value * value)
  (l : list (value * value)) :
  depth_rank kx.2 = r ->
  Forall (fun ky => depth_rank kx.2 < depth_rank ky.2) l ->
  List.filter (fun ky => has_rank r ky.2) l = [].
Proof.
  intros Hr. induction 1 as [|ky l Hky _ IH]; [reflexivity|].
  cbn [List.filter]. rewrite IH. unfold has_rank.
  destruct (Z.eqb_spec (depth_rank ky.2) r); [lia | reflexivity].
Qed.

(** An insertion leaves every earlier item of the same rank in front. *)
Lemma insert_asc_stable (kx : value * value)
  (placed placed' : list (value * value)) (r : Z) :
  ranked_ok kx -> Forall ranked_ok placed ->
  StronglySorted keyed_rank_le placed ->
  insert_by (fun a b => py_lt a b) kx placed = Ok placed' ->
  List.filter (fun ky => has_rank r ky.2) placed' =
  List.filter (fun ky => has_rank r ky.2) placed
  ++ List.filter (fun ky => has_rank r ky.2) [kx].
Proof.
  intros Hkx. revert placed'.
  induction placed as [|ky rest IH]; intros placed' Hplaced Hsorted Hins.
  - cbn [insert_by] in Hins. now injection Hins as <-.
  - inversion Hplaced as [|? ? Hky Hrest]; subst.
    apply StronglySorted_inv in Hsorted as [Hs Hall].
    cbn [insert_by] in Hins. rewrite Hkx, Hky, py_lt_int in Hins.
    cbn [bind] in Hins.
    destruct (Z.ltb_spec (depth_rank kx.2) (depth_rank ky.2)) as [Hlt | Hge].
    + injection Hins as <-.
      change (kx :: ky :: rest) with ([kx] ++ ky :: rest).
      rewrite List.filter_app.
      destruct (has_rank r kx.2) eqn:Hr.
      * rewrite (filter_rank_none r kx (ky :: rest));
          [now rewrite app_nil_r | |].
        -- now apply Z.eqb_eq.
        -- constructor; [exact Hlt|].
           eapply Forall_impl; [exact Hall|]. intros z Hz.
           unfold keyed_rank_le, rank_le in Hz. lia.
      * cbn [List.filter]. rewrite Hr. now rewrite app_nil_r.
    + apply bind_ok in Hins as [rest' [Hrest' Hins]]. injection Hins as <-.
      cbn [List.filter]. rewrite (IH rest' Hrest Hs Hrest').
      now destruct (has_rank r ky.2).
Qed.

Lemma sort_keyed_stable (todo placed sorted : list (value * value)) (r : Z) :
  Forall ranked_ok placed -> Forall ranked_ok todo ->
  StronglySorted keyed_rank_le placed ->
  sort_keyed (fun a b => py_lt a b) placed todo = Ok sorted ->
  List.filter (fun ky => has_rank r ky.2) sorted =
  List.filter (fun ky => has_rank r ky.2) placed
  ++ List.filter (fun ky => has_rank r ky.2) todo.
Proof.
  revert placed; induction todo as [|kx todo IH];
    intros placed Hp Ht Hsorted Hrun.
  - cbn [sort_keyed] in Hrun. injection Hrun as <-. now rewrite app_nil_r.
  - inversion Ht as [|? ? Hkx Htodo]; subst.
    destruct (insert_asc kx placed Hkx Hp) as [placed' [Hins [Hperm Hsort]]].
    cbn [sort_keyed] in Hrun. rewrite Hins in Hrun. cbn [bind] in Hrun.
    assert (Hp' : Forall ranked_ok placed').
    { eapply Permutation_Forall; [exact Hperm|]. now constructor. }
    rewrite (IH placed' Hp' Htodo (Hsort Hsorted) Hrun).
    rewrite (insert_asc_stable kx placed placed' r Hkx Hp Hsorted Hins).
    rewrite <- app_assoc, <- List.filter_app. reflexivity.
Qed.

Lemma filter_snd (f : value -> bool) (l : list (value * value)) :
  List.filter f (map snd l) = map snd (List.filter (fun kx => f kx.2) l).
Proof.
  induction l as [|kx l IH]; [reflexivity|].
  cbn [map List.filter]. rewrite IH. now destruct (f kx.2).
Qed.

(** Sorting well-formed players by depth succeeds and returns them
    rearranged in ascending rank, players of equal rank in the order they
    had. *)
Lemma sorted_asc_depth_stable (l : list value) :
  Forall (fun p => well_formed_player p = true) l ->
  exists sorted,
    sorted_asc (fun p => get p "depth" (VInt 99)) l = Ok sorted /\
    Permutation l sorted /\ StronglySorted rank_le sorted /\
    forall r, List.filter (has_rank r) sorted = List.filter (has_rank r) l.
Proof.
  intros Hl. unfold sorted_asc, sort_with.
  rewrite (ranks_of_players l Hl). cbn [bind].
  assert (Hkeyed : Forall ranked_ok
                     (map (fun x => (VInt (depth_rank x), x)) l)).
  { apply Forall_map. apply Forall_forall. intros x _. reflexivity. }
  destruct (sort_keyed_asc (map (fun x => (VInt (depth_rank x), x)) l) [])
    as [sorted [Hrun [Hperm Hsort]]]; [constructor | exact Hkeyed |].
  rewrite Hrun. cbn [bind]. exists (snd <$> sorted). repeat split.
  - simpl in Hperm. apply (Permutation_map snd) in Hperm.
    rewrite map_map, map_id in Hperm. exact Hperm.
  - apply StronglySorted_rank_snd, Hsort. constructor.
  - intros r.
    change (snd <$> sorted) with (map snd sorted). rewrite filter_snd.
    rewrite (sort_keyed_stable _ [] sorted r (List.Forall_nil _) Hkeyed
               (SSorted_nil _) Hrun).
    cbn [List.filter app]. rewrite <- filter_snd.
    now rewrite map_map, map_id.
Qed.

Lemma block_lookup_other (d : list (string * value)) (key out : string)
  (f : value -> res value) (acc acc' : list (string * value)) :
  block (VDict d) key out f acc = Ok acc' ->
  forall out', out' <> out -> dict_lookup out' acc' = dict_lookup out' acc.
Proof.
  intros Hrun out' Hne.
  destruct (dict_lookup key d) as [x|] eqn:Hx.
  - rewrite (block_present d key out f acc x Hx) in Hrun.
    apply bind_ok in Hrun as [y [_ Hrun]]. injection Hrun as <-.
    rewrite dict_lookup_set.
    now destruct (String.eqb_spec out' out).
  - rewrite (block_absent d key out f acc Hx) in Hrun.
    now injection Hrun as <-.
Qed.

Lemma block_lookup_same (d : list (string * value)) (key out : string)
  (f : value -> res value) (acc acc' : list (string * value)) :
  block (VDict d) key out f acc = Ok acc' ->
  (dict_lookup key d = None /\ acc' = acc) \/
  (exists x y, dict_lookup key d = Some x /\ f x = Ok y /\
               dict_lookup out acc' = Some y).
Proof.
  intros Hrun.
  destruct (dict_lookup key d) as [x|] eqn:Hx.
  - rewrite (block_present d key out f acc x Hx) in Hrun.
    apply bind_ok in Hrun as [y [Hy Hrun]]. injection Hrun as <-.
    right. exists x, y. repeat split; [exact Hy|].
    now rewrite dict_lookup_set, String.eqb_refl.
  - rewrite (block_absent d key out f acc Hx) in Hrun.
    injection Hrun as <-. now left.
Qed.

End SummarizerExtraFacts.

Section SummarizerExtras.
Import Summarizer Measures Specs QueryService.

(** [_extract_key_stats] keeps nothing but the four blocks team, passing,
    rushing and receiving, each cut down to exactly its listed field
    names; every other key of the statistics is dropped. *)
Theorem key_stats_keep_only_listed_fields (stats : value)
  (key_stats : value)
  (Hrun : _extract_key_stats stats = Ok key_stats) :
  exists ks,
    key_stats = VDict ks /\ (length ks <= 4)%nat /\
    forall k v,
      dict_lookup k ks = Some v ->
      exists names blk,
        assoc k stat_fields = Some names /\
        v = VDict blk /\ map fst blk = names.
Proof.
  unfold _extract_key_stats in Hrun.
  destruct (negb (truthy stats)).
  { injection Hrun as <-. exists []. repeat split; [simpl; lia|].
    intros k v H. discriminate H. }
  apply bind_ok in Hrun as [a1 [H1 Hrun]].
  apply bind_ok in Hrun as [a2 [H2 Hrun]].
  apply bind_ok in Hrun as [a3 [H3 Hrun]].
  apply bind_ok in Hrun as [a4 [H4 Hrun]].
  injection Hrun as <-.
  assert (H0 : listed_stats []) by (intros k v H; discriminate H).
  destruct ((fun Hk => listed_stats_step _ _ _ _ _ Hk H0 H1) eq_refl)
    as [L1 N1].
  destruct ((fun Hk => listed_stats_step _ _ _ _ _ Hk L1 H2) eq_refl)
    as [L2 N2].
  destruct ((fun Hk => listed_stats_step _ _ _ _ _ Hk L2 H3) eq_refl)
    as [L3 N3].
  destruct ((fun Hk => listed_stats_step _ _ _ _ _ Hk L3 H4) eq_refl)
    as [L4 N4].
  exists a4. split; [reflexivity|]. split; [simpl in N1; lia | exact L4].
Qed.

Lemma key_stats_keep_only_listed_fields_witness :
  _extract_key_stats
    (VDict [("passing", VDict [("yards", VInt 301); ("sacks", VInt 4)]);
            ("kicking", VDict [("field_goals", VInt 2)])])
  = Ok (VDict [("passing",
                VDict [("completions", VInt 0); ("attempts", VInt 0);
                       ("yards", VInt 301); ("touchdowns", VInt 0);
                       ("interceptions", VInt 0)])]) /\
  exists ks,
    VDict [("passing",
            VDict [("completions", VInt 0); ("attempts", VInt 0);
                   ("yards", VInt 301); ("touchdowns", VInt 0);
                   ("interceptions", VInt 0)])] = VDict ks /\
    (length ks <= 4)%nat.
Proof.
  split; [reflexivity|].
  destruct (key_stats_keep_only_listed_fields
              (VDict [("passing", VDict [("yards", VInt 301);
                                         ("sacks", VInt 4)]);
                      ("kicking", VDict [("field_goals", VInt 2)])])
              _ eq_refl) as (ks & Hks & Hlen & _).
  exists ks. split; [exact Hks | exact Hlen].
Defined.

(** A league block that is truthy but not a dictionary makes its
    summariser raise outside its own handler, and the whole digest,
    the other blocks included, is replaced by the [{summary, error}]
    fallback. *)
Theorem malformed_league_block_loses_the_digest
  (str_of_exn : exn -> string) (d : list (string * value)) (league : value)
  (Hleague : dict_lookup "league" d = Some league)
  (Htruthy : truthy league = true)
  (Hshape : is_dict league = false) :
  exists e,
    _summarize_league_structure league = Raise e /\
    _summarize_context_data str_of_exn (VDict d) =
    Ok (VDict
          [("summary",
            VStr "Data available but could not be summarized due to an error");
           ("error", VStr (str_of_exn e))]).
Proof.
  exists (no_attribute league "get").
  assert (Hraise : _summarize_league_structure league
                   = Raise (no_attribute league "get")).
  { unfold _summarize_league_structure. rewrite Htruthy. cbn [negb].
    destruct league; try reflexivity; discriminate Hshape. }
  split; [exact Hraise|].
  unfold _summarize_context_data. cbn [get bind].
  rewrite (block_present d "league" _ _ _ league Hleague), Hraise.
  reflexivity.
Qed.

Lemma malformed_league_block_loses_the_digest_witness :
  exists e,
    _summarize_league_structure (VList [VStr "AFC"; VStr "NFC"]) = Raise e /\
    _summarize_context_data exn_text
      (VDict [("query_type", VStr "standings");
              ("league", VList [VStr "AFC"; VStr "NFC"]);
              ("standings", VDict [])]) =
    Ok (VDict
          [("summary",
            VStr "Data available but could not be summarized due to an error");
           ("error", VStr (exn_text e))]).
Proof.
  apply malformed_league_block_loses_the_digest; reflexivity.
Defined.

(** On well-formed games a game list is summarised without fallback: the
    digest holds the first five games (the first ten for the schedule), in
    their order, each cut down to id, status, scheduled and the two sides;
    only the game list keeps the points. *)
Theorem game_lists_keep_the_leading_games_in_order
  (games : list value) (d : list (string * value))
  (Hwf : Forall (fun g => well_formed_game g = true) games)
  (Hgames : dict_lookup "games" d = Some (VList games)) :
  _summarize_games (VList games) =
    Ok (VList (map (game_digest true) (take 5 games))) /\
  _summarize_schedule_data (VDict d) =
    Ok (VDict [("year", field (VDict d) "year" (VStr ""));
               ("type", field (VDict d) "type" (VStr ""));
               ("games", VList (map (game_digest false) (take 10 games)))]).
Proof.
  split.
  - unfold _summarize_games. destruct games as [|g games]; [reflexivity|].
    cbn [truthy negb slice_to iter bind].
    rewrite (for_each_map _ (game_digest true)); [reflexivity|].
    apply Forall_take. eapply Forall_impl; [exact Hwf|].
    intros x Hx. now apply game_summary_well_formed.
  - unfold _summarize_schedule_data. rewrite gets_dict.
    cbn [bind get picked map fst snd]. rewrite Hgames.
    cbn [default id slice_to iter bind].
    rewrite (for_each_map _ (game_digest false)); [reflexivity|].
    apply Forall_take. eapply Forall_impl; [exact Hwf|].
    intros x Hx. now apply game_summary_well_formed.
Qed.

Lemma game_lists_keep_the_leading_games_in_order_witness :
  _summarize_games (VList sample_games) =
    Ok (VList (map (game_digest true) (take 5 sample_games))) /\
  _summarize_schedule_data (VDict [("games", VList sample_games)]) =
    Ok (VDict [("year", VStr ""); ("type", VStr "");
               ("games", VList (map (game_digest false)
                                    (take 10 sample_games)))]).
Proof.
  apply (game_lists_keep_the_leading_games_in_order sample_games
           [("games", VList sample_games)]).
  - repeat constructor.
  - reflexivity.
Defined.

(** On a well-formed team profile the key players are the first ten
    players of the stable ascending sort by depth rank: the players in
    ascending rank, those of equal rank in the order the profile lists
    them.  A player without [depth] ranks as 99 (though its entry then
    shows depth 0); at most three coaches precede them. *)
Theorem key_players_are_the_ten_lowest_depths
  (d : list (string * value)) (players : list value)
  (Hnonempty : d <> [])
  (Hwf : well_formed_profile d = true)
  (Hplayers : dict_lookup "players" d = Some (VList players)) :
  exists sorted team_info coaches,
    Permutation players sorted /\
    StronglySorted rank_le sorted /\
    (forall r, List.filter (has_rank r) sorted
               = List.filter (has_rank r) players) /\
    (length coaches <= 3)%nat /\
    _summarize_team_profile (VDict d) =
    Ok (VDict [("team_info", team_info);
               ("coaches", VList coaches);
               ("key_players", VList (map player_digest (take 10 sorted)))]).
Proof.
  unfold well_formed_profile in Hwf. rewrite Hplayers in Hwf.
  apply andb_true_iff in Hwf as [Hcoaches Hps].
  assert (Hps' : Forall (fun p => well_formed_player p = true) players).
  { apply Forall_forall. intros p Hp. rewrite forallb_forall in Hps.
    apply Hps. now apply list_elem_of_In. }
  destruct (sorted_asc_depth_stable players Hps')
    as [sorted [Hsort [Hperm [Hasc Hstable]]]].
  assert (Hcs : exists coaches,
             (length coaches <= 3)%nat /\
             (has_coaches <- has_key "coaches" (VDict d);;
              if has_coaches : bool then
                coaches <- getitem (VDict d) "coaches";;
                coaches <- slice_to 3 coaches;;
                coaches <- iter coaches;;
                for_each (fun coach =>
                            c <- gets coach
                              [("name", ("name", VStr ""));
                               ("position", ("position", VStr ""));
                               ("experience", ("experience", VStr ""))];;
                            Ok (VDict c)) coaches
              else Ok [])%res = Ok coaches).
  { cbn [has_key getitem bind].
    destruct (dict_lookup "coaches" d) as [[| | | | |cs|]|];
      try discriminate Hcoaches.
    - rewrite bool_decide_eq_true_2 by eauto. cbn [bind slice_to iter].
      eexists. split; [|apply (for_each_map _
        (fun coach => VDict (picked
           match coach with VDict c => c | _ => [] end
           [("name", ("name", VStr ""));
            ("position", ("position", VStr ""));
            ("experience", ("experience", VStr ""))])))].
      + rewrite length_map, length_take. lia.
      + apply Forall_take. apply Forall_forall. intros c Hc.
        rewrite forallb_forall in Hcoaches.
        apply list_elem_of_In, Hcoaches in Hc.
        destruct c; try discriminate Hc. now rewrite gets_dict.
    - rewrite bool_decide_eq_false_2 by (now intros [x Hx]).
      exists []. split; [simpl; lia | reflexivity]. }
  destruct Hcs as [coaches [Hlen Hcs]].
  exists sorted, (VDict (picked d
    [("id", ("id", VStr "")); ("name", ("name", VStr ""));
     ("market", ("market", VStr "")); ("alias", ("alias", VStr ""));
     ("conference", ("conference", VStr ""));
     ("division", ("division", VStr ""))])), coaches.
  split; [exact Hperm|]. split; [exact Hasc|]. split; [exact Hstable|].
  split; [exact Hlen|].
  unfold _summarize_team_profile.
  destruct d as [|kv d]; [now destruct Hnonempty|].
  cbn [truthy negb]. rewrite gets_dict. cbn [bind].
  apply bind_ok in Hcs as [has_coaches [Hhas Hcs]].
  rewrite Hhas. cbn [bind]. rewrite Hcs. cbn [bind].
  cbn [has_key getitem]. rewrite Hplayers.
  rewrite bool_decide_eq_true_2 by eauto. cbn [bind iter].
  rewrite Hsort. cbn [bind].
  rewrite (for_each_map _ player_digest); [reflexivity|].
  apply Forall_take. eapply Permutation_Forall; [exact Hperm|].
  eapply Forall_impl; [exact Hps'|]. intros p Hp.
  destruct p; try discriminate Hp. now rewrite gets_dict.
Qed.

Lemma key_players_are_the_ten_lowest_depths_witness :
  _summarize_team_profile
    (VDict [("alias", VStr "KC");
            ("players", VList [VDict [("name", VStr "B"); ("depth", VInt 2)];
                               VDict [("name", VStr "N")];
                               VDict [("name", VStr "C"); ("depth", VInt 2)];
                               VDict [("name", VStr "A"); ("depth", VInt 1)]])])
  = Ok (VDict
          [("team_info",
            VDict [("id", VStr ""); ("name", VStr ""); ("market", VStr "");
                   ("alias", VStr "KC"); ("conference", VStr "");
                   ("division", VStr "")]);
           ("coaches", VList []);
           ("key_players",
            VList [VDict [("name", VStr "A"); ("position", VStr "");
                          ("jersey_number", VStr ""); ("depth", VInt 1)];
                   VDict [("name", VStr "B"); ("position", VStr "");
                          ("jersey_number", VStr ""); ("depth", VInt 2)];
                   VDict [("name", VStr "C"); ("position", VStr "");
                          ("jersey_number", VStr ""); ("depth", VInt 2)];
                   VDict [("name", VStr "N"); ("position", VStr "");
                          ("jersey_number", VStr ""); ("depth", VInt 0)]])]) /\
  exists sorted,
    StronglySorted rank_le sorted /\
    List.filter (has_rank 2) sorted =
      [VDict [("name", VStr "B"); ("depth", VInt 2)];
       VDict [("name", VStr "C"); ("depth", VInt 2)]] /\
    Permutation [VDict [("name", VStr "B"); ("depth", VInt 2)];
                 VDict [("name", VStr "N")];
                 VDict [("name", VStr "C"); ("depth", VInt 2)];
                 VDict [("name", VStr "A"); ("depth", VInt 1)]] sorted.
Proof.
  split; [vm_compute; reflexivity|].
  destruct (key_players_are_the_ten_lowest_depths
              [("alias", VStr "KC");
               ("players",
                VList [VDict [("name", VStr "B"); ("depth", VInt 2)];
                       VDict [("name", VStr "N")];
                       VDict [("name", VStr "C"); ("depth", VInt 2)];
                       VDict [("name", VStr "A"); ("depth", VInt 1)]])]
              [VDict [("name", VStr "B"); ("depth", VInt 2)];
               VDict [("name", VStr "N")];
               VDict [("name", VStr "C"); ("depth", VInt 2)];
               VDict [("name", VStr "A"); ("depth", VInt 1)]])
    as (sorted & _ & _ & Hperm & Hasc & Hstable & _).
  - discriminate.
  - reflexivity.
  - reflexivity.
  - exists sorted. split; [exact Hasc|]. split; [exact (Hstable 2)|].
    exact Hperm.
Defined.

(** Walk a lookup in the digest back through the blocks written after
    the one it belongs to. *)
Ltac through_later_blocks :=
  repeat match goal with
    | O : forall out', out' <> _ -> dict_lookup out' ?a = _
      |- context [dict_lookup ?o ?a] => rewrite (O o) by discriminate
    end.

(** Unless the digest is the fallback, it holds a block exactly when the
    aggregated data holds its source: [league] becomes [league_structure],
    the other eight keep their names, and query type and metadata are
    always there. *)
Theorem digest_blocks_mirror_the_data
  (str_of_exn : exn -> string) (d s : list (string * value))
  (Hrun : _summarize_context_data str_of_exn (VDict d) = Ok (VDict s))
  (Hdigest : dict_lookup "summary" s = None) :
  dict_lookup "query_type" s = Some (field (VDict d) "query_type" (VStr "unknown")) /\
  dict_lookup "metadata" s = Some (field (VDict d) "metadata" (VDict [])) /\
  forall key out,
    In (key, out) block_names ->
    (is_Some (dict_lookup out s) <-> is_Some (dict_lookup key d)).
Proof.
  unfold _summarize_context_data in Hrun. cbn [get bind] in Hrun.
  apply try_except_ok in Hrun as [Hrun | (e & _ & Hrun)];
    [|injection Hrun as <-; discriminate Hdigest].
  apply bind_ok in Hrun as [a1 [H1 Hrun]].
  apply bind_ok in Hrun as [a2 [H2 Hrun]].
  apply bind_ok in Hrun as [a3 [H3 Hrun]].
  apply bind_ok in Hrun as [a4 [H4 Hrun]].
  apply bind_ok in Hrun as [a5 [H5 Hrun]].
  apply bind_ok in Hrun as [a6 [H6 Hrun]].
  apply bind_ok in Hrun as [a7 [H7 Hrun]].
  apply bind_ok in Hrun as [a8 [H8 Hrun]].
  apply bind_ok in Hrun as [a9 [H9 Hrun]].
  injection Hrun as <-.
  pose proof (block_lookup_other _ _ _ _ _ _ H1) as O1.
  pose proof (block_lookup_other _ _ _ _ _ _ H2) as O2.
  pose proof (block_lookup_other _ _ _ _ _ _ H3) as O3.
  pose proof (block_lookup_other _ _ _ _ _ _ H4) as O4.
  pose proof (block_lookup_other _ _ _ _ _ _ H5) as O5.
  pose proof (block_lookup_other _ _ _ _ _ _ H6) as O6.
  pose proof (block_lookup_other _ _ _ _ _ _ H7) as O7.
  pose proof (block_lookup_other _ _ _ _ _ _ H8) as O8.
  pose proof (block_lookup_other _ _ _ _ _ _ H9) as O9.
  split; [through_later_blocks; reflexivity|].
  split; [through_later_blocks; reflexivity|].
  intros key out Hin.
  repeat (destruct Hin as [Hin | Hin];
          [injection Hin as <- <-; through_later_blocks;
           match goal with
           | H : block _ ?k ?o _ _ = Ok ?a |- context [dict_lookup ?o ?a] =>
               destruct (block_lookup_same _ _ _ _ _ _ H)
                 as [[Hnone ->] | (x & y & Hsome & _ & Hy)];
               [through_later_blocks; rewrite Hnone; cbn;
                split; intros [? ?]; discriminate
               | rewrite Hy, Hsome; split; eauto]
           end|]).
  destruct Hin.
Qed.

Lemma digest_blocks_mirror_the_data_witness :
  dict_lookup "league_structure"
    [("query_type", VStr "standings"); ("metadata", VDict []);
     ("league_structure", VDict []); ("standings", VDict [])]
  = Some (VDict []) /\
  (is_Some (dict_lookup "boxscore"
              [("query_type", VStr "standings"); ("metadata", VDict []);
               ("league_structure", VDict []); ("standings", VDict [])]) <->
   is_Some (dict_lookup "boxscore"
              [("query_type", VStr "standings"); ("league", VDict []);
               ("standings", VDict [])])).
Proof.
  split; [reflexivity|].
  refine (proj2 (proj2 (digest_blocks_mirror_the_data exn_text
            [("query_type", VStr "standings"); ("league", VDict []);
             ("standings", VDict [])]
            [("query_type", VStr "standings"); ("metadata", VDict []);
             ("league_structure", VDict []); ("standings", VDict [])]
            _ _)) "boxscore" "boxscore" _).
  - reflexivity.
  - reflexivity.
  - simpl; tauto.
Defined.

End SummarizerExtras.

(** ** The gateway: context size, cache discipline *)

Section GatewayExtraFacts.
Import Summarizer Gateway Measures Specs.

Lemma length_append (a b : string) :
  String.length (a +:+ b) = (String.length a + String.length b)%nat.
Proof.
  induction a as [|c a IH]; push_append; simpl; [reflexivity|].
  now rewrite IH.
Qed.

Lemma length_str_take (n : nat) (s : string) :
  (String.length (str_take n s) <= n)%nat.
Proof.
  revert s; induction n as [|n IH]; intros [|c s]; simpl; try lia.
  specialize (IH s). lia.
Qed.

(** The cut of [generate_response]: at most [cap] characters and the
    marker. *)
Lemma cut_length (cap : nat) (s marker : string) :
  (String.length (if (cap <? String.length s)%nat
                  then str_take cap s +:+ marker else s)
   <= cap + String.length marker)%nat.
Proof.
  destruct (Nat.ltb_spec cap (String.length s)) as [Hlong | Hshort].
  - rewrite length_append. pose proof (length_str_take cap s). lia.
  - lia.
Qed.

End GatewayExtraFacts.

Section GatewayExtras.
Import Summarizer Gateway Measures Specs.

Variable encode : string -> res (list Byte.byte).
Variable sha256_hexdigest : list Byte.byte -> string.
Variable str : option value -> string.
Variable json_dumps : value -> string.
Variable str_of_exn : exn -> string.
Variable llm : list chat_request -> chat_request -> llm_result.

(** The context reaches the model as two system messages, the
    instructions and the rendered digest; a rendering of more than 4000
    characters is cut to its first 4000 followed by the marker, so the
    message never exceeds 4039 characters. *)
Theorem context_message_is_cut_to_4000_characters
  (data : value) (msgs : list message)
  (Htruthy : truthy data = true)
  (Hrun : context_messages json_dumps str_of_exn (Some data) = Ok msgs) :
  exists digest text,
    _summarize_context_data str_of_exn data = Ok digest /\
    msgs = [ {| role := "system"; content := data_instructions |};
             {| role := "system"; content := text |} ] /\
    (String.length text <= 4039)%nat /\
    ((String.length (json_dumps digest) <= 4000)%nat ->
     text = json_dumps digest) /\
    ((4000 < String.length (json_dumps digest))%nat ->
     text = str_take 4000 (json_dumps digest) +:+ truncation_marker).
Proof.
  unfold context_messages in Hrun. rewrite Htruthy in Hrun.
  apply bind_ok in Hrun as [digest [Hdigest Hrun]].
  exists digest,
    (if (4000 <? String.length (json_dumps digest))%nat
     then str_take 4000 (json_dumps digest) +:+ truncation_marker
     else json_dumps digest).
  split; [exact Hdigest|]. split; [now injection Hrun as <-|].
  split; [exact (cut_length 4000 (json_dumps digest) truncation_marker)|].
  split; intros H.
  - now rewrite (proj2 (Nat.ltb_ge _ _) H).
  - now rewrite (proj2 (Nat.ltb_lt _ _) H).
Qed.

(** A call that returns has computed its key; it never removes a cache
    entry and touches no key but its own, and it sends at most one
    request. *)
Theorem a_call_keeps_every_other_cache_entry
  (query : string) (context_data : option value) (now : PrimFloat.float)
  (st st' : state) (r : value)
  (Hrun : generate_response encode sha256_hexdigest str json_dumps
            str_of_exn llm query context_data now st = Ok (r, st')) :
  exists key,
    cache_key encode sha256_hexdigest str query context_data = Ok key /\
    (forall k, k <> key -> llm_cache st' !! k = llm_cache st !! k) /\
    (forall k, is_Some (llm_cache st !! k) -> is_Some (llm_cache st' !! k)) /\
    (outbound st' = outbound st \/
     exists request, outbound st' = outbound st ++ [request]).
Proof.
  unfold generate_response in Hrun.
  apply bind_ok in Hrun as [key [Hkey Hrun]].
  exists key. split; [exact Hkey|].
  destruct (cache_check _ _ _) as [cached|].
  { injection Hrun as <- <-. repeat split; auto. }
  apply bind_ok in Hrun as [extra [_ Hrun]].
  assert (Hkeep : forall v,
             (forall k, k <> key ->
                        <[key := v]> (llm_cache st) !! k = llm_cache st !! k) /\
             (forall k, is_Some (llm_cache st !! k) ->
                        is_Some (<[key := v]> (llm_cache st) !! k))).
  { intros v. split.
    - intros k Hk. now apply lookup_insert_ne.
    - intros k Hk. rewrite lookup_insert. now case_decide. }
  destruct (llm (outbound st) (chat_request_for query extra))
    as [result|status_code text|text].
  - destruct (completion_text result) as [a|e]; injection Hrun as <- <-;
      cbn [llm_cache outbound].
    + destruct (Hkeep (now, a)) as [H1 H2]. repeat split; eauto.
    + repeat split; eauto.
  - destruct (status_code =? 429)%Z; injection Hrun as <- <-;
      cbn [llm_cache outbound]; repeat split; eauto.
  - injection Hrun as <- <-. cbn [llm_cache outbound]. repeat split; eauto.
Qed.

(** An answer that is not a completion is not cached: the call returns
    a message string, leaves the cache as it was, and the next call with
    the same query and context sends the request again, however soon. *)
Theorem failed_answers_are_not_cached
  (query : string) (context_data : option value) (t1 t2 : PrimFloat.float)
  (st : state) (key : string)
  (Hdict : forall v, context_data = Some v -> exists d, v = VDict d)
  (Hkey : cache_key encode sha256_hexdigest str query context_data = Ok key)
  (Hcold : llm_cache st !! key = None)
  (Hfail : forall extra,
      context_messages json_dumps str_of_exn context_data = Ok extra ->
      unusable (llm (outbound st) (chat_request_for query extra)) = true) :
  let run := generate_response encode sha256_hexdigest str json_dumps
               str_of_exn llm query context_data in
  exists msg st1 request,
    run t1 st = Ok (VStr msg, st1) /\
    llm_cache st1 = llm_cache st /\
    outbound st1 = outbound st ++ [request] /\
    exists r2 st2,
      run t2 st1 = Ok (r2, st2) /\
      outbound st2 = outbound st ++ [request; request].
Proof.
  intros run.
  destruct (context_messages_total json_dumps str_of_exn context_data Hdict)
    as [extra Hextra].
  specialize (Hfail extra Hextra).
  destruct (generate_response_unusable encode sha256_hexdigest str
              json_dumps str_of_exn llm query context_data t1 st key extra
              Hkey (cache_check_cold _ key t1 Hcold) Hextra Hfail)
    as [msg Hfirst].
  exists msg, {| llm_cache := llm_cache st;
                 outbound := outbound st ++ [chat_request_for query extra] |},
         (chat_request_for query extra).
  split; [exact Hfirst|]. split; [reflexivity|]. split; [reflexivity|].
  destruct (generate_response_miss encode sha256_hexdigest str json_dumps
              str_of_exn llm query context_data t2
              {| llm_cache := llm_cache st;
                 outbound := outbound st ++ [chat_request_for query extra] |}
              key extra Hkey (cache_check_cold _ key t2 Hcold) Hextra)
    as (r2 & st2 & Hrun & Hout).
  exists r2, st2. split; [exact Hrun|].
  rewrite Hout. cbn [outbound]. now rewrite <- app_assoc.
Qed.

End GatewayExtras.

Lemma context_message_is_cut_to_4000_characters_witness :
  exists digest text,
    Summarizer._summarize_context_data Measures.exn_text
      (VDict [("query_type", VStr "general")]) = Ok digest /\
    (String.length text <= 4039)%nat /\
    text = str_take 4000 (Measures.str_repeat "x" 4001)
           +:+ Gateway.truncation_marker.
Proof.
  destruct (context_message_is_cut_to_4000_characters
              (fun _ => Measures.str_repeat "x" 4001) Measures.exn_text
              (VDict [("query_type", VStr "general")])
              [ {| Gateway.role := "system";
                   Gateway.content := Gateway.data_instructions |};
                {| Gateway.role := "system";
                   Gateway.content :=
                     str_take 4000 (Measures.str_repeat "x" 4001)
                     +:+ Gateway.truncation_marker |} ])
    as (digest & text & Hdigest & Hmsgs & Hlen & _ & Hcut).
  - reflexivity.
  - unfold Gateway.context_messages. cbn [truthy negb].
    destruct (summarize_context_dict Measures.exn_text
                [("query_type", VStr "general")]) as [summary ->].
    cbn [bind]. rewrite str_repeat_length.
    replace (4000 <? 4001)%nat with true by reflexivity. reflexivity.
  - exists digest, text. split; [exact Hdigest|]. split; [exact Hlen|].
    apply Hcut. rewrite str_repeat_length. lia.
Defined.

Lemma a_call_keeps_every_other_cache_entry_witness :
  match Gateway.generate_response Measures.sample_encode
          Measures.sample_digest Measures.sample_str (fun _ => "{}")
          Measures.exn_text Measures.sample_llm "Who wins the division" None
          (Measures.seconds 1000)
          {| Gateway.llm_cache :=
               {["Who is hurtNone" := (Measures.seconds 0, VStr "Nobody.")]};
             Gateway.outbound := [] |}
  with
  | Ok (r, st') => is_Some (Gateway.llm_cache st' !! "Who is hurtNone")
  | Raise _ => False
  end.
Proof.
  destruct (Gateway.generate_response _ _ _ _ _ _ _ _ _ _)
    as [[r st']|e] eqn:Hrun; [|discriminate Hrun].
  destruct (a_call_keeps_every_other_cache_entry
              Measures.sample_encode Measures.sample_digest
              Measures.sample_str (fun _ => "{}")
              Measures.exn_text Measures.sample_llm
              "Who wins the division" None (Measures.seconds 1000)
              {| Gateway.llm_cache :=
                   {["Who is hurtNone" :=
                       (Measures.seconds 0, VStr "Nobody.")]};
                 Gateway.outbound := [] |} st' r Hrun)
    as (key & _ & _ & Hkept & _).
  apply Hkept. cbn [Gateway.llm_cache]. rewrite lookup_singleton_eq. eauto.
Defined.

Lemma failed_answers_are_not_cached_witness :
  exists msg st1 request,
    Gateway.generate_response Measures.sample_encode Measures.sample_digest
      Measures.sample_str (fun _ => "{}") Measures.exn_text
      Specs.rate_limited "Who wins the division" None
      (Measures.seconds 1000) Measures.fresh_state = Ok (VStr msg, st1) /\
    Gateway.llm_cache st1 = Gateway.llm_cache Measures.fresh_state /\
    Gateway.outbound st1 = [] ++ [request] /\
    exists r2 st2,
      Gateway.generate_response Measures.sample_encode
        Measures.sample_digest Measures.sample_str (fun _ => "{}")
        Measures.exn_text Specs.rate_limited "Who wins the division" None
        (Measures.seconds 1001) st1 = Ok (r2, st2) /\
      Gateway.outbound st2 = [] ++ [request; request].
Proof.
  apply (failed_answers_are_not_cached Measures.sample_encode
           Measures.sample_digest Measures.sample_str
           (fun _ => "{}") Measures.exn_text Specs.rate_limited
           "Who wins the division" None (Measures.seconds 1000)
           (Measures.seconds 1001) Measures.fresh_state
           "Who wins the divisionNone").
  - discriminate.
  - reflexivity.
  - reflexivity.
  - reflexivity.
Defined.

(** ** The aggregator: request budget, profiles, matchups, injuries *)

Section AggregatorExtraFacts.
Import Classifier ApiClient Aggregator Measures Specs.

Variable backend : list endpoint -> endpoint -> http_result.
Variable str_of_exn : exn -> string.

Lemma sends_ret {A} (n : nat) (a : A) : sends_at_most n (io_ret a).
Proof. intros log. exists []. simpl. rewrite app_nil_r. split; [reflexivity | lia]. Qed.

Lemma sends_bind {A B} (n1 n2 : nat) (m : io A) (k : A -> io B) :
  sends_at_most n1 m -> (forall a, sends_at_most n2 (k a)) ->
  sends_at_most (n1 + n2) (io_bind m k).
Proof.
  intros Hm Hk log. destruct (Hm log) as [new1 [Hlog1 Hlen1]].
  unfold io_bind. destruct (m log) as [[a|e] log1]; simpl in Hlog1; subst log1.
  - destruct (Hk a (log ++ new1)) as [new2 [Hlog2 Hlen2]].
    exists (new1 ++ new2). rewrite Hlog2, app_assoc, length_app.
    split; [reflexivity | lia].
  - exists new1. split; [reflexivity | lia].
Qed.

Lemma sends_get (ep : endpoint) : sends_at_most 1 (_get backend ep).
Proof. intros log. exists [ep]. split; [reflexivity | simpl; lia]. Qed.

Lemma sends_pure {A} (r : res A) : sends_at_most 0 (pure r).
Proof. intros log. exists []. simpl. rewrite app_nil_r. split; [reflexivity | lia]. Qed.

Lemma sends_profiles (codes : list string) (acc : list (string * value)) :
  sends_at_most (length codes) (fetch_team_profiles backend codes acc).
Proof.
  intros log. destruct (fetch_team_profiles_total backend codes acc log)
    as [profiles Hrun].
  exists (map TeamProfile codes). rewrite Hrun, length_map.
  split; [reflexivity | lia].
Qed.

Lemma sends_weaken {A} (n n' : nat) (m : io A) :
  (n <= n')%nat -> sends_at_most n m -> sends_at_most n' m.
Proof.
  intros Hle Hm log. destruct (Hm log) as [new [Hlog Hlen]].
  exists new. split; [exact Hlog | lia].
Qed.

Lemma sends_get_bind {A} (n : nat) (ep : endpoint) (k : value -> io A) :
  (forall a, sends_at_most n (k a)) ->
  sends_at_most (S n) (io_bind (_get backend ep) k).
Proof. intros Hk. apply (sends_bind 1 n); [apply sends_get | exact Hk]. Qed.

Lemma sends_pure_bind {A B} (n : nat) (r : res A) (k : A -> io B) :
  (forall a, sends_at_most n (k a)) ->
  sends_at_most n (io_bind (pure r) k).
Proof. intros Hk. apply (sends_bind 0 n); [apply sends_pure | exact Hk]. Qed.

Lemma sends_profiles_bind {A} (n : nat) (codes : list string)
  (acc : list (string * value)) (k : list (string * value) -> io A) :
  (length codes <= 2)%nat ->
  (forall a, sends_at_most n (k a)) ->
  sends_at_most (S (S n)) (io_bind (fetch_team_profiles backend codes acc) k).
Proof.
  intros Hlen Hk.
  apply (sends_weaken (length codes + n)); [lia|].
  apply sends_bind; [apply sends_profiles | exact Hk].
Qed.

Lemma sends_try {A} (n : nat) (body : io A) (handler : exn -> A) :
  sends_at_most n body ->
  sends_at_most n (io_try body (fun e => io_ret (handler e))).
Proof.
  intros Hbody log. destruct (Hbody log) as [new [Hlog Hlen]].
  exists new. unfold io_try, io_ret.
  destruct (body log) as [[a|e] log1]; simpl in *; auto.
Qed.

(** Follow the structure of awaiting code, spending the budget. *)
Ltac spend :=
  repeat first
    [ apply sends_ret
    | apply sends_get_bind; intros ?
    | apply sends_pure_bind; intros ?
    | apply sends_profiles_bind;
      [first [rewrite length_take; lia | simpl; lia] | intros ?]
    | apply sends_try
    | match goal with
      | |- sends_at_most _ (if ?c then _ else _) => destruct c
      | |- sends_at_most _ (match ?l with [] => _ | _ :: _ => _ end) =>
          destruct l
      end ].

Lemma fetch_body_budget (query_type : string) (p : params) :
  sends_at_most 4 (fetch_body backend query_type p).
Proof.
  unfold fetch_body, get_teams, get_standings, get_schedule,
    get_weekly_injuries, get_team_profile, get_game_boxscore.
  cbv zeta. spend.
Qed.

Lemma in_strings_inv (v : value) (codes : list string) :
  in_strings v codes = true -> exists k, v = VStr k /\ In k codes.
Proof.
  unfold in_strings. intros H. apply existsb_exists in H as [c [Hc Heq]].
  destruct v; try discriminate Heq.
  cbn in Heq. apply String.eqb_eq in Heq as ->. eauto.
Qed.

Lemma in_strings_str (k : string) (codes : list string) :
  in_strings (VStr k) codes = existsb (String.eqb k) codes.
Proof. reflexivity. Qed.

Lemma find_snoc {A} (P : A -> bool) (l : list A) (x : A) :
  List.find P (l ++ [x]) =
  match List.find P l with
  | Some y => Some y
  | None => if P x then Some x else None
  end.
Proof.
  induction l as [|y l IH]; simpl; [reflexivity|].
  now destruct (P y).
Qed.

(** The injury loop keeps, for each listed team, the last report that
    carries its alias. *)
Lemma injuries_by_team_spec (ts : list string) (reports : list value)
  (acc : list (string * value)) :
  Forall (fun r => is_dict r = true) reports ->
  exists tj,
    injuries_by_team ts reports acc = Ok tj /\
    forall c,
      dict_lookup c tj =
      if existsb (String.eqb c) ts then
        match report_for c reports with
        | Some r => Some r
        | None => dict_lookup c acc
        end
      else dict_lookup c acc.
Proof.
  intros Hdicts. revert acc.
  induction Hdicts as [|r reports Hr _ IH]; intros acc.
  - exists acc. split; [reflexivity|]. intros c.
    now destruct (existsb _ ts).
  - destruct r as [| | | | | |d]; try discriminate Hr.
    cbn [injuries_by_team get bind].
    destruct (in_strings (default VNone (dict_lookup "alias" d)) ts)
      eqn:Hin.
    + destruct (in_strings_inv _ _ Hin) as [k [Hk Hkin]].
      rewrite Hk. cbn [as_key bind].
      destruct (IH (dict_set k (VDict d) acc)) as [tj [Hrun Hspec]].
      exists tj. split; [exact Hrun|]. intros c. rewrite Hspec.
      unfold report_for. cbn [rev]. rewrite find_snoc.
      change (field (VDict d) "alias" VNone)
        with (default VNone (dict_lookup "alias" d)).
      rewrite Hk. cbn [py_eq as_number].
      rewrite dict_lookup_set.
      destruct (existsb (String.eqb c) ts) eqn:Hc.
      * destruct (List.find _ (rev reports)); [reflexivity|].
        rewrite (String.eqb_sym k c). now destruct (String.eqb c k).
      * destruct (String.eqb_spec c k) as [-> | _]; [|reflexivity].
        assert (existsb (String.eqb k) ts = true); [|congruence].
        apply existsb_exists. exists k. split; [exact Hkin|].
        apply String.eqb_refl.
    + destruct (IH acc) as [tj [Hrun Hspec]].
      exists tj. split; [exact Hrun|]. intros c. rewrite Hspec.
      unfold report_for. cbn [rev]. rewrite find_snoc.
      change (field (VDict d) "alias" VNone)
        with (default VNone (dict_lookup "alias" d)).
      destruct (existsb (String.eqb c) ts) eqn:Hc; [|reflexivity].
      destruct (List.find _ (rev reports)); [reflexivity|].
      destruct (py_eq (default VNone (dict_lookup "alias" d)) (VStr c))
        eqn:Heq; [|reflexivity].
      assert (in_strings (default VNone (dict_lookup "alias" d)) ts = true);
        [|congruence].
      apply existsb_exists in Hc as [c' [Hc' Heq']].
      apply String.eqb_eq in Heq' as <-.
      unfold in_strings. apply existsb_exists. eauto.
Qed.

Lemma team_lists_ext (L L' : string -> list value) (ts : list string) :
  (forall c, In c ts -> L c = L' c) -> team_lists L ts = team_lists L' ts.
Proof.
  intros H. unfold team_lists. apply map_ext_in. intros c Hc.
  now rewrite (H c Hc).
Qed.

Lemma lookup_team_lists (L : string -> list value) (ts : list string)
  (c : string) :
  In c ts -> dict_lookup c (team_lists L ts) = Some (VList (L c)).
Proof.
  induction ts as [|c0 ts IH]; intros Hin; [destruct Hin|].
  cbn [team_lists map dict_lookup].
  destruct (String.eqb_spec c c0) as [-> | Hne]; [reflexivity|].
  destruct Hin as [-> | Hin]; [now destruct Hne | exact (IH Hin)].
Qed.

Lemma lookup_team_lists_none (L : string -> list value) (ts : list string)
  (c : string) :
  ~ In c ts -> dict_lookup c (team_lists L ts) = None.
Proof.
  induction ts as [|c0 ts IH]; intros Hnot; [reflexivity|].
  cbn [team_lists map dict_lookup].
  destruct (String.eqb_spec c c0) as [-> | Hne].
  - destruct Hnot. now left.
  - apply IH. intros Hin. apply Hnot. now right.
Qed.

Lemma dict_set_team_lists (L : string -> list value) (ts : list string)
  (c : string) (l : list value) :
  NoDup ts -> In c ts ->
  dict_set c (VList l) (team_lists L ts) =
  team_lists (fun c' => if String.eqb c' c then l else L c') ts.
Proof.
  induction ts as [|c0 ts IH]; intros Hnd Hin; [destruct Hin|].
  apply NoDup_cons in Hnd as [Hfresh Hnd].
  cbn [team_lists map dict_set].
  destruct (String.eqb_spec c c0) as [-> | Hne].
  - rewrite String.eqb_refl. f_equal.
    apply map_ext_in. intros c' Hc'.
    destruct (String.eqb_spec c' c0) as [-> | _]; [|reflexivity].
    destruct Hfresh. now apply list_elem_of_In.
  - destruct (String.eqb_spec c0 c) as [-> | _]; [now destruct Hne|].
    f_equal. destruct Hin as [-> | Hin]; [now destruct Hne|].
    exact (IH Hnd Hin).
Qed.

Lemma dict_set_fresh (k : string) (v : value) (d : list (string * value)) :
  dict_lookup k d = None -> dict_set k v d = d ++ [(k, v)].
Proof.
  induction d as [|[k0 v0] d IH]; simpl; [reflexivity|].
  destruct (String.eqb k k0); [discriminate|].
  intros H. now rewrite (IH H).
Qed.

Lemma empty_team_lists (pre ts : list string) :
  NoDup (pre ++ ts) ->
  fold_left (fun d team_code => dict_set team_code (VList []) d) ts
            (team_lists (fun _ => []) pre)
  = team_lists (fun _ => []) (pre ++ ts).
Proof.
  revert pre; induction ts as [|c ts IH]; intros pre Hnd.
  - now rewrite app_nil_r.
  - cbn [fold_left]. rewrite dict_set_fresh.
    + replace (team_lists (fun _ => []) pre ++ [(c, VList [])])
        with (team_lists (fun _ => []) (pre ++ [c]))
        by (unfold team_lists; now rewrite map_app).
      rewrite IH; rewrite <- app_assoc; [reflexivity | exact Hnd].
    + apply lookup_team_lists_none. intros Hin.
      apply NoDup_app in Hnd as (_ & Hdisj & _).
      apply (Hdisj c); [now apply list_elem_of_In | left].
Qed.

Lemma append_game_spec (game h a : value) (ts todo : list string)
  (L : string -> list value) :
  NoDup ts -> NoDup todo -> incl todo ts ->
  append_game game h a todo (team_lists L ts) =
  Ok (team_lists
        (fun c => L c ++
                  if existsb (String.eqb c) todo
                     && (py_eq h (VStr c) || py_eq a (VStr c))
                  then [game] else []) ts).
Proof.
  intros Hts. revert L; induction todo as [|c0 todo IH]; intros L Hnd Hincl.
  - cbn [append_game existsb andb]. f_equal. apply team_lists_ext.
    intros c _. now rewrite app_nil_r.
  - apply NoDup_cons in Hnd as [Hfresh Hnd].
    assert (Hc0 : In c0 ts) by (apply Hincl; now left).
    assert (Hincl' : incl todo ts)
      by (intros c Hc; apply Hincl; now right).
    assert (Hnot : existsb (String.eqb c0) todo = false).
    { destruct (existsb (String.eqb c0) todo) eqn:He; [|reflexivity].
      apply existsb_exists in He as [c [Hc Heq]].
      apply String.eqb_eq in Heq as <-. destruct Hfresh.
      now apply list_elem_of_In. }
    cbn [append_game].
    destruct (py_eq h (VStr c0) || py_eq a (VStr c0)) eqn:Hhit.
    + unfold dict_append. rewrite (lookup_team_lists L ts c0 Hc0).
      cbn [bind]. rewrite (dict_set_team_lists L ts c0 _ Hts Hc0).
      rewrite (IH _ Hnd Hincl'). f_equal. apply team_lists_ext.
      intros c _. cbn [existsb].
      destruct (String.eqb_spec c c0) as [-> | _].
      * rewrite Hnot, Hhit. cbn [orb andb]. now rewrite app_nil_r.
      * reflexivity.
    + rewrite (IH _ Hnd Hincl'). f_equal. apply team_lists_ext.
      intros c _. cbn [existsb].
      destruct (String.eqb_spec c c0) as [-> | _]; [|reflexivity].
      now rewrite Hnot, Hhit.
Qed.

(** The schedule loop gives each listed team the games it plays in, in
    schedule order. *)
Lemma games_by_team_spec (ts : list string) (games : list value)
  (L : string -> list value) :
  NoDup ts ->
  Forall (fun g => well_formed_game g = true) games ->
  games_by_team ts games (team_lists L ts) =
  Ok (team_lists (fun c => L c ++ List.filter (plays c) games) ts).
Proof.
  intros Hts Hwf. revert L; induction Hwf as [|g games Hg _ IH]; intros L.
  - cbn [games_by_team List.filter]. f_equal. apply team_lists_ext.
    intros c _. now rewrite app_nil_r.
  - cbn [games_by_team]. rewrite (well_formed_aliases g Hg).
    cbn [bind fst snd].
    rewrite (append_game_spec g _ _ ts ts L Hts Hts (incl_refl ts)).
    cbn [bind]. rewrite IH. f_equal. apply team_lists_ext.
    intros c Hc. cbn [List.filter]. unfold plays at 2.
    assert (Hin : existsb (String.eqb c) ts = true).
    { apply existsb_exists. exists c. split; [exact Hc|].
      apply String.eqb_refl. }
    rewrite Hin. cbn [andb]. rewrite <- app_assoc.
    now destruct (_ || _).
Qed.

Lemma fetch_relevant_data_budget (query_type : string) (p : params)
  (log : list endpoint) :
  exists d new,
    _fetch_relevant_data backend str_of_exn query_type p log
      = (Ok (VDict d), log ++ new) /\
    (length new <= 4)%nat.
Proof.
  assert (Hbudget : sends_at_most 4
            (_fetch_relevant_data backend str_of_exn query_type p)).
  { unfold _fetch_relevant_data.
    apply (sends_try 4 (fetch_body backend query_type p)
             (fun e => VDict [("error", VStr (str_of_exn e));
                              ("query_type", VStr query_type)])).
    apply fetch_body_budget. }
  destruct (Hbudget log) as [new [Hlog Hlen]].
  destruct (fetch_relevant_data_cases backend str_of_exn query_type p log)
    as [(v & log' & Hbody & H) | (e & log' & _ & H)];
    rewrite H in Hlog |- *; cbn [snd] in Hlog; subst log'.
  - destruct (fetch_body_returns backend query_type p log _ v Hbody)
      as [d [-> _]].
    eauto.
  - eauto.
Qed.

End AggregatorExtraFacts.

Section AggregatorExtras.
Import Classifier ApiClient Aggregator Measures Specs.

Variable backend : list endpoint -> endpoint -> http_result.
Variable str_of_exn : exn -> string.

(** Whatever the query type, the parameters and the backend's answers,
    one aggregation keeps the requests already logged and adds at most
    four. *)
Theorem an_aggregation_sends_at_most_four_requests
  (query_type : string) (p : params) (log : list endpoint) :
  exists v new,
    _fetch_relevant_data backend str_of_exn query_type p log
      = (Ok v, log ++ new) /\
    (length new <= 4)%nat.
Proof.
  destruct (fetch_relevant_data_budget backend str_of_exn query_type p log)
    as (d & new & Hrun & Hlen).
  eauto.
Qed.

(** Every entry of [team_profiles] is the body of a successful profile
    request for that team code: a team whose fetch failed has no entry. *)
Theorem team_profiles_hold_only_fetched_profiles
  (codes : list string) (profiles : list (string * value))
  (log log' : list endpoint) (c : string) (v : value)
  (Hrun : fetch_team_profiles backend codes [] log = (Ok profiles, log'))
  (Hentry : dict_lookup c profiles = Some v) :
  exists i,
    codes !! i = Some c /\
    backend (log ++ map TeamProfile (take i codes)) (TeamProfile c)
      = Response v.
Proof.
  destruct (fetch_team_profiles_sound backend codes [] profiles log log'
              Hrun c v Hentry) as [Hacc | H]; [discriminate Hacc | exact H].
Qed.

(** For a matchups query with team codes, on a schedule of well-formed
    games, [relevant_games] holds every game with a listed team at home or
    away, in schedule order, neither sorted nor cut; the profiles of the
    first two codes follow, and no profile failure changes the rest. *)
Theorem matchups_keep_every_game_of_the_teams
  (p : params) (ts : list string) (log : list endpoint)
  (sched : value) (games : list value)
  (Hteams : teams p = Some ts) (Hne : ts <> [])
  (Hsched : backend log (Schedule (default "2023" (year p))
                                  (default "REG" (season_type p)))
            = Response sched)
  (Hgames : (gv <- get sched "games" (VList []);; iter gv)%res = Ok games)
  (Hwf : Forall (fun g => well_formed_game g = true) games) :
  exists profiles,
    _fetch_relevant_data backend str_of_exn "matchups" p log =
    (Ok (VDict
           [("query_type", VStr "matchups");
            ("metadata", VDict [("year", VStr (default "2023" (year p)));
                                ("season_type",
                                 VStr (default "REG" (season_type p)));
                                ("week", VStr (default "1" (week p)))]);
            ("schedule", sched);
            ("relevant_games", VList (List.filter (involves ts) games));
            ("team_profiles", VDict profiles)]),
     (log ++ [Schedule (default "2023" (year p))
                       (default "REG" (season_type p))])
     ++ map TeamProfile (take 2 ts)).
Proof.
  destruct (fetch_body_matchups backend p ts log sched games
              Hteams Hne Hsched Hgames Hwf) as [profiles [_ Hbody]].
  exists profiles. unfold _fetch_relevant_data, io_try. now rewrite Hbody.
Qed.

(** For an injuries query with team codes, [team_injuries] maps each
    listed team that the report mentions to its report, the last one when
    the alias occurs twice, and has no entry for any other team. *)
Theorem team_injuries_hold_the_report_of_each_listed_team
  (p : params) (ts : list string) (log : list endpoint)
  (injuries league : value) (reports : list value)
  (Hteams : teams p = Some ts) (Hne : ts <> [])
  (Hinjuries : backend log
                 (WeeklyInjuries (default "2023" (year p))
                                 (default "REG" (season_type p))
                                 (default "1" (week p)))
               = Response injuries)
  (Hleague : backend
               (log ++ [WeeklyInjuries (default "2023" (year p))
                                       (default "REG" (season_type p))
                                       (default "1" (week p))]) Teams
             = Response league)
  (Hreports : (rv <- get injuries "teams" (VList []);; iter rv)%res
              = Ok reports)
  (Hdicts : Forall (fun r => is_dict r = true) reports) :
  exists team_injuries,
    _fetch_relevant_data backend str_of_exn "injuries" p log =
    (Ok (VDict
           [("query_type", VStr "injuries");
            ("metadata", VDict [("year", VStr (default "2023" (year p)));
                                ("season_type",
                                 VStr (default "REG" (season_type p)));
                                ("week", VStr (default "1" (week p)))]);
            ("injuries", injuries); ("league", league);
            ("team_injuries", VDict team_injuries)]),
     log ++ [WeeklyInjuries (default "2023" (year p))
                            (default "REG" (season_type p))
                            (default "1" (week p)); Teams]) /\
    forall c,
      dict_lookup c team_injuries =
      if existsb (String.eqb c) ts then report_for c reports else None.
Proof.
  destruct (injuries_by_team_spec ts reports [] Hdicts) as [tj [Hrun Hspec]].
  exists tj. split.
  - unfold _fetch_relevant_data, io_try, fetch_body. rewrite Hteams.
    cbn [default String.eqb Ascii.eqb Bool.eqb].
    destruct ts as [|t ts]; [now destruct Hne|].
    unfold get_weekly_injuries, get_teams.
    rewrite (io_bind_ok _ _ _ _ _ (get_response _ _ _ _ Hinjuries)).
    rewrite (io_bind_ok _ _ _ _ _ (get_response _ _ _ _ Hleague)).
    apply bind_ok in Hreports as [rv [Hrv Hiter]].
    unfold io_bind, pure.
    cbn [dict_set String.eqb Ascii.eqb Bool.eqb get dict_lookup default bind id].
    rewrite Hrv. cbn [bind]. rewrite Hiter. cbn [bind]. rewrite Hrun.
    unfold io_ret. now rewrite <- app_assoc.
  - intros c. rewrite Hspec. destruct (existsb _ ts); [|reflexivity].
    now destruct (report_for c reports).
Qed.

(** For a schedule query with distinct team codes, on a schedule of
    well-formed games, [team_games] gives each code, in the order of the
    codes, the games it plays at home or away, in schedule order. *)
Theorem team_games_partition_the_schedule
  (p : params) (ts : list string) (log : list endpoint)
  (sched league : value) (games : list value)
  (Hteams : teams p = Some ts) (Hne : ts <> []) (Hnodup : NoDup ts)
  (Hsched : backend log (Schedule (default "2023" (year p))
                                  (default "REG" (season_type p)))
            = Response sched)
  (Hleague : backend
               (log ++ [Schedule (default "2023" (year p))
                                 (default "REG" (season_type p))]) Teams
             = Response league)
  (Hgames : (gv <- get sched "games" (VList []);; iter gv)%res = Ok games)
  (Hwf : Forall (fun g => well_formed_game g = true) games) :
  _fetch_relevant_data backend str_of_exn "schedule" p log =
  (Ok (VDict
         [("query_type", VStr "schedule");
          ("metadata", VDict [("year", VStr (default "2023" (year p)));
                              ("season_type",
                               VStr (default "REG" (season_type p)));
                              ("week", VStr (default "1" (week p)))]);
          ("schedule", sched); ("league", league);
          ("team_games",
           VDict (team_lists (fun c => List.filter (plays c) games) ts))]),
   log ++ [Schedule (default "2023" (year p))
                    (default "REG" (season_type p)); Teams]).
Proof.
  unfold _fetch_relevant_data, io_try, fetch_body. rewrite Hteams.
  cbn [default String.eqb Ascii.eqb Bool.eqb].
  pose proof (empty_team_lists [] ts Hnodup) as Hinit.
  cbn [app] in Hinit. change (team_lists (fun _ => []) []) with
    (@nil (string * value)) in Hinit.
  cbn [id]. rewrite Hinit.
  destruct ts as [|t ts]; [now destruct Hne|].
  unfold get_schedule, get_teams.
  rewrite (io_bind_ok _ _ _ _ _ (get_response _ _ _ _ Hsched)).
  rewrite (io_bind_ok _ _ _ _ _ (get_response _ _ _ _ Hleague)).
  apply bind_ok in Hgames as [gv [Hgv Hiter]].
  unfold io_bind, pure.
  cbn [dict_set String.eqb Ascii.eqb Bool.eqb get dict_lookup default bind id].
  rewrite Hgv. cbn [bind]. rewrite Hiter. cbn [bind].
  rewrite (games_by_team_spec (t :: ts) games (fun _ => []) Hnodup Hwf).
  unfold io_ret. now rewrite <- app_assoc.
Qed.

End AggregatorExtras.

Lemma team_profiles_hold_only_fetched_profiles_witness :
  exists i,
    ["KC"; "PHI"] !! i = Some "PHI" /\
    Measures.standings_down
      ([] ++ map ApiClient.TeamProfile (take i ["KC"; "PHI"]))
      (ApiClient.TeamProfile "PHI")
    = ApiClient.Response (VDict [("name", VStr "NFL")]).
Proof.
  apply (team_profiles_hold_only_fetched_profiles Measures.standings_down
           ["KC"; "PHI"]
           [("KC", VDict [("name", VStr "NFL")]);
            ("PHI", VDict [("name", VStr "NFL")])]
           [] [ApiClient.TeamProfile "KC"; ApiClient.TeamProfile "PHI"]).
  - vm_compute. reflexivity.
  - reflexivity.
Defined.

Lemma matchups_keep_every_game_of_the_teams_witness :
  exists profiles,
    Aggregator._fetch_relevant_data Measures.schedule_backend
      Measures.exn_text "matchups" (Measures.params_2023 (Some ["KC"])) [] =
    (Ok (VDict
           [("query_type", VStr "matchups");
            ("metadata", VDict [("year", VStr "2023");
                                ("season_type", VStr "REG");
                                ("week", VStr "1")]);
            ("schedule", VDict [("games", VList Measures.sample_games)]);
            ("relevant_games",
             VList (List.filter (Measures.involves ["KC"])
                                Measures.sample_games));
            ("team_profiles", VDict profiles)]),
     ([] ++ [ApiClient.Schedule "2023" "REG"])
     ++ map ApiClient.TeamProfile (take 2 ["KC"])).
Proof.
  apply (matchups_keep_every_game_of_the_teams Measures.schedule_backend
           Measures.exn_text (Measures.params_2023 (Some ["KC"])) ["KC"] []
           (VDict [("games", VList Measures.sample_games)])
           Measures.sample_games).
  - reflexivity.
  - discriminate.
  - reflexivity.
  - reflexivity.
  - repeat constructor.
Defined.

Lemma team_injuries_hold_the_report_of_each_listed_team_witness :
  exists team_injuries,
    Aggregator._fetch_relevant_data Specs.season_backend Measures.exn_text
      "injuries" (Measures.params_2023 (Some ["KC"; "DAL"])) [] =
    (Ok (VDict
           [("query_type", VStr "injuries");
            ("metadata", VDict [("year", VStr "2023");
                                ("season_type", VStr "REG");
                                ("week", VStr "1")]);
            ("injuries", VDict [("teams", VList Specs.injury_reports)]);
            ("league", VDict [("name", VStr "NFL")]);
            ("team_injuries", VDict team_injuries)]),
     [] ++ [ApiClient.WeeklyInjuries "2023" "REG" "1"; ApiClient.Teams]) /\
    forall c,
      dict_lookup c team_injuries =
      if existsb (String.eqb c) ["KC"; "DAL"]
      then Specs.report_for c Specs.injury_reports else None.
Proof.
  apply (team_injuries_hold_the_report_of_each_listed_team
           Specs.season_backend Measures.exn_text
           (Measures.params_2023 (Some ["KC"; "DAL"])) ["KC"; "DAL"] []
           (VDict [("teams", VList Specs.injury_reports)])
           (VDict [("name", VStr "NFL")]) Specs.injury_reports).
  - reflexivity.
  - discriminate.
  - reflexivity.
  - reflexivity.
  - reflexivity.
  - repeat constructor.
Defined.

Lemma team_games_partition_the_schedule_witness :
  Aggregator._fetch_relevant_data Specs.season_backend Measures.exn_text
    "schedule" (Measures.params_2023 (Some ["KC"; "PHI"])) [] =
  (Ok (VDict
         [("query_type", VStr "schedule");
          ("metadata", VDict [("year", VStr "2023");
                              ("season_type", VStr "REG");
                              ("week", VStr "1")]);
          ("schedule", VDict [("games", VList Measures.sample_games)]);
          ("league", VDict [("name", VStr "NFL")]);
          ("team_games",
           VDict (Specs.team_lists
                    (fun c => List.filter (Specs.plays c)
                                          Measures.sample_games)
                    ["KC"; "PHI"]))]),
   [] ++ [ApiClient.Schedule "2023" "REG"; ApiClient.Teams]).
Proof.
  apply (team_games_partition_the_schedule Specs.season_backend
           Measures.exn_text (Measures.params_2023 (Some ["KC"; "PHI"]))
           ["KC"; "PHI"] []
           (VDict [("games", VList Measures.sample_games)])
           (VDict [("name", VStr "NFL")]) Measures.sample_games).
  - reflexivity.
  - discriminate.
  - apply (bool_decide_unpack (NoDup ["KC"; "PHI"])). vm_compute. exact I.
  - reflexivity.
  - reflexivity.
  - reflexivity.
  - repeat constructor.
Defined.

(** ** The query service: classification, aggregation and answer together *)

Section QueryServiceExtras.
Import Classifier ApiClient Aggregator Summarizer Gateway QueryService.

Variable backend : list endpoint -> endpoint -> http_result.
Variable encode : string -> res (list Byte.byte).
Variable sha256_hexdigest : list Byte.byte -> string.
Variable str : option value -> string.
Variable json_dumps : value -> string.
Variable str_of_exn : exn -> string.
Variable llm : list chat_request -> chat_request -> llm_result.

(** [process_query] raises in one case only: when the text to hash, the
    query followed by [str] of the aggregated data, cannot be encoded; the
    exception is then the encoder's.  In every other case it returns the
    query as it was given, an answer, and the data sources of the query's
    type.  Either way the aggregation has sent at most four requests to
    the backend, and the model is sent at most one. *)
Theorem process_query_raises_only_on_encoding
  (now : nat -> datetime) (t : PrimFloat.float) (query : string)
  (log : list endpoint) (st : state) :
  exists d new,
    _fetch_relevant_data backend str_of_exn (_classify_query now query).1
      (_classify_query now query).2 log = (Ok (VDict d), log ++ new) /\
    (length new <= 4)%nat /\
    match encode (query +:+ str (Some (VDict d))) with
    | Raise e =>
        process_query backend encode sha256_hexdigest str json_dumps
          str_of_exn llm now t query log st = Raise e
    | Ok _ =>
        exists answer st',
          process_query backend encode sha256_hexdigest str json_dumps
            str_of_exn llm now t query log st =
          Ok (VDict [("query", VStr query); ("answer", answer);
                     ("data_sources",
                      VList (VStr <$> get_data_sources
                                        (_classify_query now query).1))],
              log ++ new, st') /\
          (st' = st \/
           exists request, outbound st' = outbound st ++ [request])
    end.
Proof.
  unfold process_query. cbv zeta.
  destruct (fetch_relevant_data_budget backend str_of_exn
              (_classify_query now query).1 (_classify_query now query).2 log)
    as (d & new & Hfetch & Hlen).
  exists d, new. split; [exact Hfetch|]. split; [exact Hlen|].
  rewrite Hfetch.
  destruct (encode (query +:+ str (Some (VDict d)))) as [encoded|e] eqn:Henc.
  - assert (Hkey : cache_key encode sha256_hexdigest str query
                     (Some (VDict d)) = Ok (sha256_hexdigest encoded))
      by (unfold cache_key; now rewrite Henc).
    destruct (cache_check (llm_cache st) (sha256_hexdigest encoded) t)
      as [cached|] eqn:Hcache.
    + rewrite (generate_response_hit encode sha256_hexdigest str json_dumps
                 str_of_exn llm query (Some (VDict d)) t st _ cached
                 Hkey Hcache).
      cbn [bind fst snd]. exists cached, st. auto.
    + destruct (context_messages_total json_dumps str_of_exn
                  (Some (VDict d))) as [extra Hextra].
      { intros v [= <-]. eauto. }
      destruct (generate_response_miss encode sha256_hexdigest str
                  json_dumps str_of_exn llm query (Some (VDict d)) t st _
                  extra Hkey Hcache Hextra) as (r & st' & -> & Hsent).
      cbn [bind fst snd]. exists r, st'. eauto.
  - rewrite (generate_response_unencodable encode sha256_hexdigest str
               json_dumps str_of_exn llm query (Some (VDict d)) t st e);
      [reflexivity|].
    unfold cache_key. now rewrite Henc.
Qed.

(** When the body of the aggregation raises, the model is not told: the
    request that [process_query] sends carries the context messages of a
    dictionary holding the query type alone, so the text of the error is
    not in it. *)
Theorem a_failed_aggregation_is_hidden_from_the_model
  (now : nat -> datetime) (t : PrimFloat.float) (query : string)
  (log log' : list endpoint) (st : state) (e : exn) (key : string)
  (Hfail : fetch_body backend (_classify_query now query).1
             (_classify_query now query).2 log = (Raise e, log'))
  (Hkey : cache_key encode sha256_hexdigest str query
            (Some (VDict [("error", VStr (str_of_exn e));
                          ("query_type",
                           VStr (_classify_query now query).1)]))
          = Ok key)
  (Hmiss : cache_check (llm_cache st) key t = None) :
  exists answer st' extra,
    process_query backend encode sha256_hexdigest str json_dumps str_of_exn
      llm now t query log st =
    Ok (VDict [("query", VStr query); ("answer", answer);
               ("data_sources",
                VList (VStr <$> get_data_sources
                                  (_classify_query now query).1))],
        log', st') /\
    context_messages json_dumps str_of_exn
      (Some (VDict [("query_type", VStr (_classify_query now query).1)]))
      = Ok extra /\
    outbound st' = outbound st ++ [chat_request_for query extra].
Proof.
  unfold process_query. cbv zeta.
  destruct (fetch_relevant_data_cases backend str_of_exn
              (_classify_query now query).1 (_classify_query now query).2 log)
    as [(v & l & Hbody & _) | (e' & l & Hbody & ->)];
    rewrite Hfail in Hbody; [discriminate Hbody|].
  injection Hbody as <- <-.
  assert (Hsame :
    context_messages json_dumps str_of_exn
      (Some (VDict [("error", VStr (str_of_exn e));
                    ("query_type", VStr (_classify_query now query).1)])) =
    context_messages json_dumps str_of_exn
      (Some (VDict [("query_type", VStr (_classify_query now query).1)])))
    by reflexivity.
  destruct (context_messages_total json_dumps str_of_exn
              (Some (VDict [("query_type",
                             VStr (_classify_query now query).1)])))
    as [extra Hextra].
  { intros v [= <-]. eauto. }
  rewrite <- Hsame in Hextra.
  destruct (generate_response_miss encode sha256_hexdigest str json_dumps
              str_of_exn llm query _ t st key extra Hkey Hmiss Hextra)
    as (r & st' & -> & Hsent).
  cbn [bind fst snd]. exists r, st', extra.
  rewrite <- Hsame. auto.
Qed.

End QueryServiceExtras.

Lemma a_failed_aggregation_is_hidden_from_the_model_witness :
  exists answer st' extra,
    QueryService.process_query Measures.standings_down
      Measures.sample_encode Measures.sample_digest
      Measures.sample_str (fun _ => "{}") Measures.exn_text
      Measures.sample_llm Classifier.clock_2026_11_03 (Measures.seconds 1000)
      "Show me the standings" [] Measures.fresh_state =
    Ok (VDict [("query", VStr "Show me the standings"); ("answer", answer);
               ("data_sources",
                VList (VStr <$> QueryService.get_data_sources
                         (Classifier._classify_query
                            Classifier.clock_2026_11_03
                            "Show me the standings").1))],
        [ApiClient.Standings "2026" "REG"], st') /\
    Gateway.context_messages (fun _ => "{}") Measures.exn_text
      (Some (VDict [("query_type",
                     VStr (Classifier._classify_query
                             Classifier.clock_2026_11_03
                             "Show me the standings").1)]))
      = Ok extra /\
    Gateway.outbound st' =
    Gateway.outbound Measures.fresh_state
    ++ [Gateway.chat_request_for "Show me the standings" extra].
Proof.
  apply (a_failed_aggregation_is_hidden_from_the_model
           Measures.standings_down Measures.sample_encode
           Measures.sample_digest Measures.sample_str
           (fun _ => "{}") Measures.exn_text Measures.sample_llm
           Classifier.clock_2026_11_03 (Measures.seconds 1000)
           "Show me the standings" [] [ApiClient.Standings "2026" "REG"]
           Measures.fresh_state
           (HTTPException 503 "API error 503: Service Unavailable")
           "Show me the standings{...}").
  - vm_compute. reflexivity.
  - reflexivity.
  - reflexivity.
Defined.

(** ** The generic summary *)

Section GenericSummaryFacts.
Import GenericSummary.

Lemma report_lists_length (data : list (string * value)) (keys : list string)
  (summary : list (string * value)) :
  (length (report_lists data keys summary)
   <= length summary + 2 * length keys)%nat.
Proof.
  revert summary. induction keys as [|key keys IH]; intros summary;
    cbn [report_lists length]; [lia|].
  etransitivity; [apply IH|].
  destruct (dict_lookup key data) as [[| | | | |l|]|]; try lia.
  pose proof (length_dict_set (key +:+ "_count")
                (VInt (Z.of_nat (length l))) summary) as Hcount.
  destruct l as [|[| | | | | |first] l]; try lia.
  pose proof (length_dict_set (key +:+ "_contains")
                (VList (VStr <$> take 5 (map fst first)))
                (dict_set (key +:+ "_count")
                   (VInt (Z.of_nat (length (VDict first :: l)))) summary)).
  lia.
Qed.

Lemma report_lists_keeps (data : list (string * value)) (keys : list string)
  (summary : list (string * value)) (k : string) :
  (forall key, key +:+ "_count" <> k) ->
  (forall key, key +:+ "_contains" <> k) ->
  dict_lookup k (report_lists data keys summary) = dict_lookup k summary.
Proof.
  intros Hcount Hcontains. revert summary.
  assert (Hc : forall key, String.eqb k (key +:+ "_count") = false).
  { intros key. apply String.eqb_neq. intros ->. now apply (Hcount key). }
  assert (Hs : forall key, String.eqb k (key +:+ "_contains") = false).
  { intros key. apply String.eqb_neq. intros ->. now apply (Hcontains key). }
  induction keys as [|key keys IH]; intros summary; cbn [report_lists];
    [reflexivity|].
  rewrite IH.
  destruct (dict_lookup key data) as [[| | | | |l|]|]; try reflexivity.
  destruct l as [|[| | | | | |first] l];
    rewrite ?dict_lookup_set, ?Hc, ?Hs; reflexivity.
Qed.

(** No key with a suffix appended spells the given literal. *)
Ltac no_such_key key H :=
  repeat (destruct key as [|? key]; push_append_in H;
          [discriminate H | injection H as _ H]);
  destruct key; push_append_in H; discriminate H.

Lemma data_summary_is_no_report (key : string) :
  key +:+ "_count" <> "data_summary" /\
  key +:+ "_contains" <> "data_summary".
Proof. split; intros H; no_such_key key H. Qed.

Lemma available_data_is_no_report (key : string) :
  key +:+ "_count" <> "available_data" /\
  key +:+ "_contains" <> "available_data".
Proof. split; intros H; no_such_key key H. Qed.

End GenericSummaryFacts.

Section GenericSummaryExtras.
Import GenericSummary Specs.

(** Whatever it is given, [_create_generic_summary] returns a dictionary
    of at most 22 entries that starts with the fixed [data_summary] text;
    for a dictionary, [available_data] lists its first ten keys and no
    report overwrites it; for anything else, nothing more is added. *)
Theorem generic_summary_is_bounded (data : value) :
  exists summary,
    _create_generic_summary data = VDict summary /\
    (length summary <= 22)%nat /\
    dict_lookup "data_summary" summary = Some (VStr "NFL data available") /\
    (is_dict data = false ->
     summary = [("data_summary", VStr "NFL data available")]) /\
    (forall d, data = VDict d ->
               dict_lookup "available_data" summary
               = Some (VList (VStr <$> take 10 (map fst d)))).
Proof.
  destruct data as [| | | | | |d];
    try (eexists; split; [reflexivity|];
         repeat split; [simpl; lia | discriminate]).
  eexists. split; [reflexivity|]. split; [|split; [|split]].
  - etransitivity; [apply report_lists_length|].
    assert (length (take 10 (map fst d)) <= 10)%nat
      by (rewrite length_take; lia).
    cbn [dict_set String.eqb Ascii.eqb Bool.eqb length]. lia.
  - rewrite report_lists_keeps;
      [reflexivity | apply data_summary_is_no_report
                   | apply data_summary_is_no_report].
  - discriminate.
  - intros d' [= <-].
    rewrite report_lists_keeps;
      [reflexivity | apply available_data_is_no_report
                   | apply available_data_is_no_report].
Qed.

End GenericSummaryExtras.

(** ** The aggregator: what the week is used for *)

Section AggregatorWeek.
Import Classifier ApiClient Aggregator Specs.

Variable backend : list endpoint -> endpoint -> http_result.
Variable str_of_exn : exn -> string.

(** Take apart the next request, loop or pure step that both runs share. *)
Ltac same_step :=
  match goal with
  | |- context [backend ?l ?ep] => destruct (backend l ep)
  | |- context [fetch_team_profiles backend ?cs ?acc ?l] =>
      destruct (fetch_team_profiles backend cs acc l) as [[?|?] ?]
  | |- context [games_involving ?ts ?gs] =>
      destruct (games_involving ts gs) as [[|? ?]|?]
  | |- context [games_by_team ?ts ?gs ?d] =>
      destruct (games_by_team ts gs d)
  | |- context [sorted_desc ?f ?gs] =>
      destruct (sorted_desc f gs) as [[|? ?]|?]
  | |- context [iter ?v] => destruct (iter v)
  | |- context [get ?v ?k ?d] => destruct (get v k d)
  | |- context [truthy ?v] => destruct (truthy v)
  end; cbn -[fetch_team_profiles take].

(** Outside injuries queries the week of the query only labels the
    result: with any other week the aggregation sends the same requests and
    returns the same entries, [metadata] apart. *)
Theorem the_week_changes_only_the_metadata (query_type : string)
  (p : params) (w : option string) (log : list endpoint)
  (Hqt : query_type <> "injuries") :
  (_fetch_relevant_data backend str_of_exn query_type (with_week w p) log).2
  = (_fetch_relevant_data backend str_of_exn query_type p log).2 /\
  exists d d',
    (_fetch_relevant_data backend str_of_exn query_type p log).1
      = Ok (VDict d) /\
    (_fetch_relevant_data backend str_of_exn query_type (with_week w p) log).1
      = Ok (VDict d') /\
    forall k, k <> "metadata" -> dict_lookup k d' = dict_lookup k d.
Proof.
  unfold _fetch_relevant_data, fetch_body, with_week.
  cbn [year week season_type teams player].
  destruct (String.eqb_spec query_type "injuries") as [->|_];
    [now destruct Hqt|].
  unfold get_teams, get_standings, get_schedule, get_team_profile,
    get_game_boxscore, _get, io_try, io_bind, io_ret, pure.
  destruct (default [] (teams p)) as [|t ts].
  all: repeat (match goal with
               | |- context [String.eqb ?q ?s] =>
                   is_var q; destruct (String.eqb q s)
               end).
  all: cbn -[fetch_team_profiles take].
  all: repeat same_step.
  all: split; [reflexivity|].
  all: eexists _, _; split; [reflexivity|]; split; [reflexivity|].
  all: intros k Hk; cbn;
    destruct (String.eqb_spec k "metadata"); [contradiction|].
  all: reflexivity.
Qed.

End AggregatorWeek.

Lemma the_week_changes_only_the_metadata_witness :
  (Aggregator._fetch_relevant_data Measures.schedule_backend
     Measures.exn_text "matchups"
     (Specs.with_week (Some "12") (Measures.params_2023 (Some ["KC"]))) []).2
  = (Aggregator._fetch_relevant_data Measures.schedule_backend
       Measures.exn_text "matchups" (Measures.params_2023 (Some ["KC"])) []).2
  /\
  exists d d',
    (Aggregator._fetch_relevant_data Measures.schedule_backend
       Measures.exn_text "matchups" (Measures.params_2023 (Some ["KC"])) []).1
      = Ok (VDict d) /\
    (Aggregator._fetch_relevant_data Measures.schedule_backend
       Measures.exn_text "matchups"
       (Specs.with_week (Some "12") (Measures.params_2023 (Some ["KC"])))
       []).1
      = Ok (VDict d') /\
    forall k, k <> "metadata" -> dict_lookup k d' = dict_lookup k d.
Proof.
  apply (the_week_changes_only_the_metadata Measures.schedule_backend
           Measures.exn_text "matchups" (Measures.params_2023 (Some ["KC"]))
           (Some "12") []).
  discriminate.
Defined.
